(** * parsedBible: the chapter fetcher and the corpus aggregator

    A shallow embedding of [fetch_bible.py] and [convert_bible.py].
    Python strings are sequences of Unicode code points, dictionaries
    are finite maps, exceptions are one summand of a result type. *)

From Stdlib Require Import ZArith NArith Ascii String List Lia Sorted DecimalN.
From stdpp Require Import base option list gmap.

Set Warnings "-register-all".

Local Open Scope N_scope.

(** ** Python strings *)

(** A [str] is a list of code points. *)
Abbreviation str := (list N).

(** The code points of a UTF-8 byte sequence (well-formed input). *)
Fixpoint utf8 (bs : list N) : str :=
  match bs with
  | [] => []
  | b :: r =>
      if b <? 128 then b :: utf8 r
      else if b <? 224 then
        match r with
        | b1 :: r' => ((b - 192) * 64 + (b1 - 128)) :: utf8 r'
        | _ => [b]
        end
      else if b <? 240 then
        match r with
        | b1 :: b2 :: r' =>
            ((b - 224) * 4096 + (b1 - 128) * 64 + (b2 - 128)) :: utf8 r'
        | _ => [b]
        end
      else
        match r with
        | b1 :: b2 :: b3 :: r' =>
            ((b - 240) * 262144 + (b1 - 128) * 4096 + (b2 - 128) * 64
             + (b3 - 128)) :: utf8 r'
        | _ => [b]
        end
  end.

(** A literal of the source text. *)
Definition u (s : string) : str :=
  utf8 (List.map N_of_ascii (list_ascii_of_string s)).

Definition str_eqb (a b : str) : bool := bool_decide (a = b).

(** [str.isspace] on one character, the table behind [strip()] and
    [split()] without an argument. *)
Definition isspace (c : N) : bool :=
  ((9 <=? c) && (c <=? 13)) || ((28 <=? c) && (c <=? 32))
  || (c =? 133) || (c =? 160) || (c =? 5760)
  || ((8192 <=? c) && (c <=? 8202))
  || (c =? 8232) || (c =? 8233) || (c =? 8239) || (c =? 8287)
  || (c =? 12288).

Fixpoint lstrip (s : str) : str :=
  match s with
  | c :: s' => if isspace c then lstrip s' else s
  | [] => []
  end.

Definition rstrip (s : str) : str := rev (lstrip (rev s)).

(** [s.strip()] *)
Definition strip (s : str) : str := rstrip (lstrip s).

(** [s.split()]: the maximal runs of characters that are not white
    space.  [cur] is the run being read, in reverse. *)
Fixpoint split_ws_aux (cur : str) (s : str) : list str :=
  match s with
  | [] => match cur with [] => [] | _ => [rev cur] end
  | c :: s' =>
      if isspace c
      then match cur with
           | [] => split_ws_aux [] s'
           | _ => rev cur :: split_ws_aux [] s'
           end
      else split_ws_aux (c :: cur) s'
  end.

Definition split_ws (s : str) : list str := split_ws_aux [] s.

(** [sep.join(parts)] *)
Fixpoint join (sep : str) (parts : list str) : str :=
  match parts with
  | [] => []
  | [p] => p
  | p :: ps => p ++ sep ++ join sep ps
  end.

(** [s.replace(old, new)] for a one-character [old]. *)
Definition replace_char (old : N) (new : str) (s : str) : str :=
  List.flat_map (fun c => if c =? old then new else [c]) s.

(** [s.split(sep)] for a one-character [sep]: always at least one
    piece. *)
Fixpoint split_on_aux (sep : N) (cur : str) (s : str) : list str :=
  match s with
  | [] => [rev cur]
  | c :: s' =>
      if c =? sep then rev cur :: split_on_aux sep [] s'
      else split_on_aux sep (c :: cur) s'
  end.

Definition split_on (sep : N) (s : str) : list str := split_on_aux sep [] s.

(** [c in s] for a one-character [c]. *)
Definition contains (c : N) (s : str) : bool := existsb (N.eqb c) s.

(** [s.startswith(p)], with the rest of [s] when it does. *)
Fixpoint starts_with (p s : str) : option str :=
  match p, s with
  | [], _ => Some s
  | a :: p', b :: s' => if a =? b then starts_with p' s' else None
  | _ :: _, [] => None
  end.

Definition ends_with (p s : str) : bool :=
  bool_decide (is_Some (starts_with (rev p) (rev s))).

(** [a < b] on strings: lexicographic on code points. *)
Fixpoint str_ltb (a b : str) : bool :=
  match a, b with
  | _, [] => false
  | [], _ :: _ => true
  | x :: a', y :: b' => (x <? y) || ((x =? y) && str_ltb a' b')
  end.

Definition ascii_digit (c : N) : bool := (48 <=? c) && (c <=? 57).
Definition ascii_lower (c : N) : bool := (97 <=? c) && (c <=? 122).
Definition ascii_upper (c : N) : bool := (65 <=? c) && (c <=? 90).

(** [str(n)] for a non-negative integer. *)
Fixpoint digits_of_uint (d : Decimal.uint) : str :=
  match d with
  | Decimal.Nil => []
  | Decimal.D0 d => 48 :: digits_of_uint d
  | Decimal.D1 d => 49 :: digits_of_uint d
  | Decimal.D2 d => 50 :: digits_of_uint d
  | Decimal.D3 d => 51 :: digits_of_uint d
  | Decimal.D4 d => 52 :: digits_of_uint d
  | Decimal.D5 d => 53 :: digits_of_uint d
  | Decimal.D6 d => 54 :: digits_of_uint d
  | Decimal.D7 d => 55 :: digits_of_uint d
  | Decimal.D8 d => 56 :: digits_of_uint d
  | Decimal.D9 d => 57 :: digits_of_uint d
  end.

Definition str_of_N (n : N) : str := digits_of_uint (N.to_uint n).

(** [str(z)] *)
Definition str_of_Z (z : Z) : str :=
  if (z <? 0)%Z then 45 :: str_of_N (Z.abs_N z) else str_of_N (Z.to_N z).

(** [f"{z:0wd}"]: the sign, then zeros up to the width, then the
    digits. *)
Definition format_d (w : nat) (z : Z) : str :=
  let sign := if (z <? 0)%Z then [45] else [] in
  let ds := str_of_N (Z.abs_N z) in
  sign ++ List.repeat 48 (w - List.length sign - List.length ds)%nat ++ ds.

(** The part of the interpreter's library that the two programs call and
    that is a table or a function of the platform: the Unicode character
    database beyond ASCII, and [html.unescape]. *)
Record pylib := {
  (** [c.isdigit()] for a code point above 127 *)
  uc_isdigit : N -> bool;
  (** the decimal value of a code point above 127, when it has one *)
  uc_decimal : N -> option N;
  (** [c.lower()], [c.upper()], [c.title()] for a code point above 127,
      and whether it is a cased letter *)
  uc_lower : N -> str;
  uc_upper : N -> str;
  uc_title : N -> str;
  uc_cased : N -> bool;
  (** [html.unescape] *)
  unescape : str -> str;
  unescape_empty : unescape [] = [];
}.

Section Strings.
Context (L : pylib).

Definition isdigit_char (c : N) : bool :=
  if c <? 128 then ascii_digit c else uc_isdigit L c.

(** [s.isdigit()]: every character is a digit, and there is one. *)
Definition isdigit (s : str) : bool :=
  match s with [] => false | _ => forallb isdigit_char s end.

Definition decimal_value (c : N) : option N :=
  if c <? 128 then (if ascii_digit c then Some (c - 48) else None)
  else uc_decimal L c.

Definition lower_char (c : N) : str :=
  if c <? 128 then [if ascii_upper c then c + 32 else c] else uc_lower L c.

Definition upper_char (c : N) : str :=
  if c <? 128 then [if ascii_lower c then c - 32 else c] else uc_upper L c.

Definition title_char (c : N) : str :=
  if c <? 128 then [if ascii_lower c then c - 32 else c] else uc_title L c.

Definition cased (c : N) : bool :=
  if c <? 128 then ascii_lower c || ascii_upper c else uc_cased L c.

Definition lower (s : str) : str := List.flat_map lower_char s.
Definition upper (s : str) : str := List.flat_map upper_char s.

(** [s.title()]: a letter that follows a cased letter is lowered, any
    other is put in title case. *)
Fixpoint title_aux (previous_is_cased : bool) (s : str) : str :=
  match s with
  | [] => []
  | c :: s' =>
      (if previous_is_cased then lower_char c else title_char c)
      ++ title_aux (cased c) s'
  end.

Definition title (s : str) : str := title_aux false s.

(** [s.capitalize()] *)
Definition capitalize (s : str) : str :=
  match s with
  | [] => []
  | c :: s' => title_char c ++ lower s'
  end.

(** White space that [int()] skips around the literal: the C table
    for ASCII, the Unicode table above it. *)
Definition int_space (c : N) : bool :=
  if c <? 127 then ((9 <=? c) && (c <=? 13)) || (c =? 32)
  else isspace c.

Fixpoint lskip (s : str) : str :=
  match s with
  | c :: s' => if int_space c then lskip s' else s
  | [] => []
  end.

(** Digits of an integer literal, with single underscores between
    digits the only separator allowed. [acc] is the value read so far
    and [after_digit] tells whether the previous character was a
    digit. *)
Fixpoint int_digits (acc : N) (after_digit : bool) (s : str) : option N :=
  match s with
  | [] => if after_digit then Some acc else None
  | c :: s' =>
      if c =? 95 then
        if after_digit then int_digits acc false s' else None
      else
        match decimal_value c with
        | Some d => int_digits (10 * acc + d) true s'
        | None => None
        end
  end.

(** [int(s)] in base 10, read without the interpreter's limit on the
    length of the literal; [None] stands for [ValueError]. *)
Definition py_int (s : str) : option Z :=
  let body := rev (lskip (rev (lskip s))) in
  match body with
  | c :: ds =>
      if c =? 43 then Z.of_N <$> int_digits 0 false ds
      else if c =? 45 then (fun n => (- Z.of_N n)%Z) <$> int_digits 0 false ds
      else Z.of_N <$> int_digits 0 false body
  | [] => None
  end.

(** [sys.get_int_max_str_digits()], the default: [int] raises
    [ValueError] on a literal with more digits than this (zeros in
    front count; underscores, the sign and white space do not). *)
Definition int_max_str_digits : Z := 4300.

Definition int_digit_count (s : str) : Z :=
  Z.of_nat (List.length
              (List.filter (fun c => bool_decide (is_Some (decimal_value c))) s)).

(** [int(s)] with the limit. *)
Definition py_int_limited (s : str) : option Z :=
  if (int_digit_count s <=? int_max_str_digits)%Z then py_int s else None.

End Strings.

(** ** Exceptions *)

Inductive exn :=
| ValueError (msg : string)
| KeyError (key : str)
| NameError (name : string)
| TypeError
| AttributeError
| StopIteration
| IsADirectoryError
| JSONDecodeError
| ClientResponseError
| TimeoutError
| PermissionError
| OSError
(** not an exception: the call never returns *)
| Blocked.

Inductive result (A : Type) :=
| Ok (a : A)
| Raise (e : exn).
Arguments Ok {A} a.
Arguments Raise {A} e.

#[global] Instance result_ret : MRet result := fun _ a => Ok a.
#[global] Instance result_bind : MBind result := fun _ _ f m =>
  match m with Ok a => f a | Raise e => Raise e end.

(** [d[k]] *)
Definition getitem {A} (d : gmap str A) (k : str) : result A :=
  match d !! k with Some v => Ok v | None => Raise (KeyError k) end.

(** Truth value of a string or [None]. *)
Definition truthy (o : option str) : bool :=
  match o with Some (_ :: _) => true | _ => false end.

(** [sorted(l, key=...)] and [l.sort(key=...)]: the stable sort, here
    by insertion, [le] comparing the keys. *)
Fixpoint insert_sorted {A} (le : A -> A -> bool) (x : A) (l : list A) : list A :=
  match l with
  | [] => [x]
  | y :: l' => if le x y then x :: l else y :: insert_sorted le x l'
  end.

Fixpoint sort_by {A} (le : A -> A -> bool) (l : list A) : list A :=
  match l with
  | [] => []
  | x :: l' => insert_sorted le x (sort_by le l')
  end.

(** ** A fragment of the platform library

    Used to run the programs on examples.  It agrees with the Unicode
    database on Latin-1 and on the Arabic-Indic digits, and knows the
    five XML entities; every other code point is a caseless
    non-digit. *)
Definition frag_isdigit (c : N) : bool :=
  (c =? 178) || (c =? 179) || (c =? 185) || ((1632 <=? c) && (c <=? 1641)).

Definition frag_decimal (c : N) : option N :=
  if (1632 <=? c) && (c <=? 1641) then Some (c - 1632) else None.

Definition frag_lower (c : N) : str :=
  if (192 <=? c) && (c <=? 222) && negb (c =? 215) then [c + 32] else [c].

Definition frag_upper (c : N) : str :=
  if (224 <=? c) && (c <=? 254) && negb (c =? 247) then [c - 32]
  else if c =? 223 then [83; 83]
  else if c =? 255 then [376]
  else if c =? 181 then [924]
  else [c].

Definition frag_title (c : N) : str :=
  if c =? 223 then [83; 115] else frag_upper c.

Definition frag_cased (c : N) : bool :=
  ((192 <=? c) && (c <=? 255) && negb (c =? 215) && negb (c =? 247))
  || (c =? 170) || (c =? 181) || (c =? 186).

Definition entities : list (str * N) :=
  [(u "&amp;", 38); (u "&lt;", 60); (u "&gt;", 62);
   (u "&quot;", 34); (u "&#39;", 39)].

Fixpoint first_entity (tbl : list (str * N)) (s : str) : option (N * str) :=
  match tbl with
  | [] => None
  | (e, c) :: tbl' =>
      match starts_with e s with
      | Some rest => Some (c, rest)
      | None => first_entity tbl' s
      end
  end.

Fixpoint frag_unescape_fuel (fuel : nat) (s : str) : str :=
  match fuel, s with
  | O, _ => s
  | _, [] => []
  | S f, c :: s' =>
      match first_entity entities s with
      | Some (x, rest) => x :: frag_unescape_fuel f rest
      | None => c :: frag_unescape_fuel f s'
      end
  end.

Definition frag_unescape (s : str) : str :=
  frag_unescape_fuel (List.length s) s.

Definition frag : pylib :=
  {| uc_isdigit := frag_isdigit; uc_decimal := frag_decimal;
     uc_lower := frag_lower; uc_upper := frag_upper;
     uc_title := frag_title; uc_cased := frag_cased;
     unescape := frag_unescape; unescape_empty := eq_refl |}.

(** * [fetch_bible.py] *)

Module Fetch.

(** ** The document tree (bs4) *)

(** A node of the tree BeautifulSoup builds from the page: a tag with
    its name, the list from its [class] attribute and its children, or a
    string.  [plain] is false for the string classes that [get_text]
    leaves out (comments, scripts, style sheets). *)
Inductive node :=
| Tag (name : str) (classes : list str) (children : list node)
| NavigableString (plain : bool) (s : str).

(** [n.descendants], in document order. *)
Fixpoint descendants (n : node) : list node :=
  match n with
  | Tag _ _ ch =>
      (fix go (l : list node) : list node :=
         match l with
         | [] => []
         | c :: l' => c :: descendants c ++ go l'
         end) ch
  | NavigableString _ _ => []
  end.

Definition all_nodes (doc : list node) : list node :=
  List.flat_map (fun c => c :: descendants c) doc.

(** [n.get_text(strip=True)]: the stripped plain strings below [n],
    one after the other. *)
Definition get_text (n : node) : str :=
  List.flat_map
    (fun d => match d with
              | NavigableString true s => strip s
              | _ => []
              end) (descendants n).

Definition has_class (c : str) (n : node) : bool :=
  match n with
  | Tag _ cls _ => existsb (str_eqb c) cls
  | _ => false
  end.

Definition has_name (nm : str) (n : node) : bool :=
  match n with
  | Tag name _ _ => str_eqb name nm
  | _ => false
  end.

(** The test of [soup.find("div", class_=re.compile(r"^passage-content"))] *)
Definition is_container (n : node) : bool :=
  has_name (u "div") n
  && match n with
     | Tag _ cls _ =>
         existsb (fun c => bool_decide (is_Some (starts_with (u "passage-content") c))) cls
     | _ => false
     end.

Definition find_container (doc : list node) : option node :=
  List.find is_container (all_nodes doc).

(** Removing every tag below [n] that satisfies [p], as the loop of
    [decompose()] over [find_all] does. *)
Fixpoint decompose_all (p : node -> bool) (n : node) : node :=
  match n with
  | Tag name cls ch =>
      Tag name cls
        ((fix go (l : list node) : list node :=
            match l with
            | [] => []
            | c :: l' => if p c then go l' else decompose_all p c :: go l'
            end) ch)
  | NavigableString _ _ => n
  end.

Definition is_note (n : node) : bool :=
  existsb (fun nm => has_name nm n) [u "sup"; u "div"; u "h3"]
  && existsb (fun c => has_class c n)
       [u "footnote"; u "footnotes"; u "crossreference"; u "crossrefs"].

Definition preprocess (container : node) : node :=
  decompose_all (has_name (u "h3")) (decompose_all is_note container).

(** ** The Extractor: [parse_chapter_html] *)

Record verse_record := {
  verse : str;
  text : str;
  readableText : str;
}.

Record chapter_record := {
  book : str;
  rev : str;
  chapter : str;
  verses : list verse_record;
}.

(** The three variables the traversal updates. *)
Record state := {
  verses_data : gmap str (list str);
  current_verse_num : option str;
  ignore_next_text_node_if_matches_num : bool;
}.

Definition init : state :=
  {| verses_data := ∅; current_verse_num := None;
     ignore_next_text_node_if_matches_num := false |}.

Definition nl : str := [10].

(** A tag the loop takes for the start of a verse, before it looks at
    the text. *)
Definition is_marker_tag (n : node) : bool :=
  (has_name (u "sup") n && has_class (u "versenum") n)
  || (has_name (u "span") n && has_class (u "chapternum") n).

Section Extractor.
Context (L : pylib).

(** The marker test at the head of the loop body: the verse number
    the tag starts, if it starts one. *)
Definition marker (n : node) : option str :=
  let '(verse_marker_found, extracted_num) :=
    if has_name (u "sup") n && has_class (u "versenum") n then
      (true, Some (get_text n))
    else if has_name (u "span") n && has_class (u "chapternum") n then
      if isdigit L (get_text n) then (true, Some (u "1"))
      else (false, Some (get_text n))
    else (false, None) in
  match extracted_num with
  | Some num =>
      if verse_marker_found && truthy (Some num) && isdigit L num
      then Some num else None
  | None => None
  end.

(** One iteration of the loop over [container.descendants]. *)
Definition step (st : state) (n : node) : result state :=
  match n with
  | Tag _ _ _ =>
      match marker n with
      | Some num =>
          Ok {| verses_data :=
                  match verses_data st !! num with
                  | Some _ => verses_data st
                  | None => <[num := []]> (verses_data st)
                  end;
                current_verse_num := Some num;
                ignore_next_text_node_if_matches_num := true |}
      | None =>
          st1 ← (if has_name (u "br") n && truthy (current_verse_num st) then
                   let cur := default [] (current_verse_num st) in
                   parts ← getitem (verses_data st) cur;
                   Ok {| verses_data :=
                           if bool_decide (parts = [])
                              || negb (str_eqb (List.last parts []) nl)
                           then <[cur := parts ++ [nl]]> (verses_data st)
                           else verses_data st;
                         current_verse_num := current_verse_num st;
                         ignore_next_text_node_if_matches_num := false |}
                 else Ok st);
          if has_name (u "span") n && negb (truthy (Some (get_text n))) then
            Ok {| verses_data := verses_data st1;
                  current_verse_num := current_verse_num st1;
                  ignore_next_text_node_if_matches_num := false |}
          else Ok st1
      end
  | NavigableString _ text_part =>
      if truthy (current_verse_num st) then
        let cur := default [] (current_verse_num st) in
        if ignore_next_text_node_if_matches_num st
           && str_eqb (strip text_part) cur then
          Ok {| verses_data := verses_data st;
                current_verse_num := current_verse_num st;
                ignore_next_text_node_if_matches_num := false |}
        else
          parts ← getitem (verses_data st) cur;
          Ok {| verses_data := <[cur := parts ++ [text_part]]> (verses_data st);
                current_verse_num := current_verse_num st;
                ignore_next_text_node_if_matches_num :=
                  if truthy (Some (strip text_part)) then false
                  else ignore_next_text_node_if_matches_num st |}
      else Ok st
  end.

Fixpoint traverse (st : state) (ns : list node) : result state :=
  match ns with
  | [] => Ok st
  | n :: ns' => st' ← step st n; traverse st' ns'
  end.

(** [int(k)] for every key, the first failure raising. *)
Fixpoint ints (keys : list str) : result (list Z) :=
  match keys with
  | [] => Ok []
  | k :: keys' =>
      match py_int L k with
      | Some z => zs ← ints keys'; Ok (z :: zs)
      | None => Raise (ValueError "invalid literal for int() with base 10")
      end
  end.

(** [max(xs)] *)
Definition py_max (xs : list Z) : result Z :=
  match xs with
  | [] => Raise (ValueError "max() arg is an empty sequence")
  | x :: xs' => Ok (List.fold_left Z.max xs' x)
  end.

(** The record built for verse [i] in the output loop. *)
Definition format_verse (data : gmap str (list str)) (i : Z) : verse_record :=
  let num_str := str_of_Z i in
  let verse_content := default [] (data !! num_str) in
  let raw_text := unescape L (List.concat verse_content) in
  let readable_text :=
    replace_char 9 (u " ") (replace_char 10 (u " ") raw_text) in
  let readable_text_normalized :=
    strip (join (u " ") (split_ws readable_text)) in
  {| verse := num_str; text := strip raw_text;
     readableText := readable_text_normalized |}.

Definition format_output (data : gmap str (list str))
  : result (list verse_record) :=
  if bool_decide (data = ∅) then Ok []
  else
    ks ← ints (fst <$> map_to_list data);
    max_verse ← py_max ks;
    Ok (format_verse data <$> seqZ 1 max_verse).

(** The state after the loop over the descendants of the container. *)
Definition scan (container : node) : result state :=
  traverse init (descendants (preprocess container)).

(** [doc] is the tree parsed from [html_text]. *)
Definition parse_chapter_html (doc : list node) (book_code version : str)
    (chapter : Z) : result chapter_record :=
  match find_container doc with
  | None => Raise (ValueError "passage-content not found")
  | Some container =>
      st ← scan container;
      vs ← format_output (verses_data st);
      Ok {| book := upper L book_code; rev := version;
            chapter := str_of_Z chapter; verses := vs |}
  end.

End Extractor.

(** ** The catalog *)

Definition _names_orders : list (Z * str * list str) :=
  [
   (1%Z, u "gen", [u "genesis"; u "génesis"; u "gen"]);
   (2%Z, u "exo", [u "exodus"; u "éxodo"; u "exo"]);
   (3%Z, u "lev", [u "leviticus"; u "levítico"; u "lev"]);
   (4%Z, u "num", [u "numbers"; u "números"; u "num"]);
   (5%Z, u "deu", [u "deuteronomy"; u "deuteronomio"; u "deu"]);
   (6%Z, u "jos", [u "joshua"; u "josué"; u "jos"]);
   (7%Z, u "jdg", [u "judges"; u "jueces"; u "jdg"]);
   (8%Z, u "rut", [u "ruth"; u "rut"]);
   (9%Z, u "1sa", [u "1 samuel"; u "first samuel"; u "1sa"]);
   (10%Z, u "2sa", [u "2 samuel"; u "second samuel"; u "2sa"]);
   (11%Z, u "1ki", [u "1 kings"; u "1 reyes"; u "1ki"]);
   (12%Z, u "2ki", [u "2 kings"; u "2 reyes"; u "2ki"]);
   (13%Z, u "1ch", [u "1 chronicles"; u "1 cronicas"; u "1 crónicas"; u "1ch"]);
   (14%Z, u "2ch", [u "2 chronicles"; u "2 cronicas"; u "2 crónicas"; u "2ch"]);
   (15%Z, u "ezr", [u "ezra"; u "esdras"; u "ezr"]);
   (16%Z, u "neh", [u "nehemiah"; u "nehemias"; u "nehemías"; u "neh"]);
   (17%Z, u "est", [u "esther"; u "ester"; u "est"]);
   (18%Z, u "job", [u "job"]);
   (19%Z, u "psa", [u "psalms"; u "salmos"; u "psa"]);
   (20%Z, u "pro", [u "proverbs"; u "proverbios"; u "pro"]);
   (21%Z, u "ecc", [u "ecclesiastes"; u "eclesiastes"; u "eclesiastés"; u "ecc"]);
   (22%Z, u "sng", [u "song of solomon"; u "song of songs"; u "cantares"; u "cantar de los cantares"; u "sng"]);
   (23%Z, u "isa", [u "isaiah"; u "isaias"; u "isaías"; u "isa"]);
   (24%Z, u "jer", [u "jeremiah"; u "jeremias"; u "jeremías"; u "jer"]);
   (25%Z, u "lam", [u "lamentations"; u "lamentaciones"; u "lam"]);
   (26%Z, u "ezk", [u "ezekiel"; u "ezequiel"; u "ezk"]);
   (27%Z, u "dan", [u "daniel"; u "dan"]);
   (28%Z, u "hos", [u "hosea"; u "oseas"; u "hos"]);
   (29%Z, u "jol", [u "joel"; u "jol"]);
   (30%Z, u "amo", [u "amos"; u "amós"; u "amo"]);
   (31%Z, u "oba", [u "obadiah"; u "abdias"; u "abdías"; u "oba"]);
   (32%Z, u "jon", [u "jonah"; u "jonas"; u "jonás"; u "jon"]);
   (33%Z, u "mic", [u "micah"; u "miqueas"; u "mic"]);
   (34%Z, u "nam", [u "nahum"; u "nam"]);
   (35%Z, u "hab", [u "habakkuk"; u "habacuc"; u "hab"]);
   (36%Z, u "zep", [u "zephaniah"; u "sofonias"; u "sofonías"; u "zep"]);
   (37%Z, u "hag", [u "haggai"; u "hageo"; u "hag"]);
   (38%Z, u "zec", [u "zechariah"; u "zacarias"; u "zacarías"; u "zec"]);
   (39%Z, u "mal", [u "malachi"; u "malaquias"; u "malaquías"; u "mal"]);
   (40%Z, u "mat", [u "matthew"; u "mateo"; u "mat"]);
   (41%Z, u "mrk", [u "mark"; u "marcos"; u "mrk"]);
   (42%Z, u "luk", [u "luke"; u "lucas"; u "luk"]);
   (43%Z, u "jhn", [u "john"; u "juan"; u "jhn"]);
   (44%Z, u "act", [u "acts"; u "hechos"; u "act"]);
   (45%Z, u "rom", [u "romans"; u "romanos"; u "rom"]);
   (46%Z, u "1co", [u "1 corinthians"; u "1 corintios"; u "1co"]);
   (47%Z, u "2co", [u "2 corinthians"; u "2 corintios"; u "2co"]);
   (48%Z, u "gal", [u "galatians"; u "galatas"; u "gálatas"; u "gal"]);
   (49%Z, u "eph", [u "ephesians"; u "efesios"; u "eph"]);
   (50%Z, u "php", [u "philippians"; u "filipenses"; u "php"]);
   (51%Z, u "col", [u "colossians"; u "colosenses"; u "col"]);
   (52%Z, u "1th", [u "1 thessalonians"; u "1 tesalonicenses"; u "1th"]);
   (53%Z, u "2th", [u "2 thessalonians"; u "2 tesalonicenses"; u "2th"]);
   (54%Z, u "1ti", [u "1 timothy"; u "1 timoteo"; u "1ti"]);
   (55%Z, u "2ti", [u "2 timothy"; u "2 timoteo"; u "2ti"]);
   (56%Z, u "tit", [u "titus"; u "tito"; u "tit"]);
   (57%Z, u "phm", [u "philemon"; u "filemon"; u "filemón"; u "phm"]);
   (58%Z, u "heb", [u "hebrews"; u "hebreos"; u "heb"]);
   (59%Z, u "jas", [u "james"; u "santiago"; u "jas"]);
   (60%Z, u "1pe", [u "1 peter"; u "1 pedro"; u "1pe"]);
   (61%Z, u "2pe", [u "2 peter"; u "2 pedro"; u "2pe"]);
   (62%Z, u "1jn", [u "1 john"; u "1 juan"; u "1jn"]);
   (63%Z, u "2jn", [u "2 john"; u "2 juan"; u "2jn"]);
   (64%Z, u "3jn", [u "3 john"; u "3 juan"; u "3jn"]);
   (65%Z, u "jud", [u "jude"; u "judas"; u "jud"]);
   (66%Z, u "rev", [u "revelation"; u "apocalipsis"; u "revelacion"; u "revelación"; u "rev"])
  ].

Definition CHAPS : gmap str Z :=
  list_to_map [
   (u "gen", 50%Z); (u "exo", 40%Z); (u "lev", 27%Z); (u "num", 36%Z);
   (u "deu", 34%Z); (u "jos", 24%Z); (u "jdg", 21%Z); (u "rut", 4%Z);
   (u "1sa", 31%Z); (u "2sa", 24%Z); (u "1ki", 22%Z); (u "2ki", 25%Z);
   (u "1ch", 29%Z); (u "2ch", 36%Z); (u "ezr", 10%Z); (u "neh", 13%Z);
   (u "est", 10%Z); (u "job", 42%Z); (u "psa", 150%Z); (u "pro", 31%Z);
   (u "ecc", 12%Z); (u "sng", 8%Z); (u "isa", 66%Z); (u "jer", 52%Z);
   (u "lam", 5%Z); (u "ezk", 48%Z); (u "dan", 12%Z); (u "hos", 14%Z);
   (u "jol", 3%Z); (u "amo", 9%Z); (u "oba", 1%Z); (u "jon", 4%Z);
   (u "mic", 7%Z); (u "nam", 3%Z); (u "hab", 3%Z); (u "zep", 3%Z);
   (u "hag", 2%Z); (u "zec", 14%Z); (u "mal", 4%Z); (u "mat", 28%Z);
   (u "mrk", 16%Z); (u "luk", 24%Z); (u "jhn", 21%Z); (u "act", 28%Z);
   (u "rom", 16%Z); (u "1co", 16%Z); (u "2co", 13%Z); (u "gal", 6%Z);
   (u "eph", 6%Z); (u "php", 4%Z); (u "col", 4%Z); (u "1th", 5%Z);
   (u "2th", 3%Z); (u "1ti", 6%Z); (u "2ti", 4%Z); (u "tit", 3%Z);
   (u "phm", 1%Z); (u "heb", 13%Z); (u "jas", 5%Z); (u "1pe", 5%Z);
   (u "2pe", 3%Z); (u "1jn", 5%Z); (u "2jn", 1%Z); (u "3jn", 1%Z);
   (u "jud", 1%Z); (u "rev", 22%Z)
  ].

(** An insertion-ordered dictionary, as [dict] is: [d[k] = v]. *)
Fixpoint dict_set {V} (k : str) (v : V) (d : list (str * V)) : list (str * V) :=
  match d with
  | [] => [(k, v)]
  | (k', v') :: d' =>
      if str_eqb k k' then (k, v) :: d' else (k', v') :: dict_set k v d'
  end.

Definition BOOK_INFO : list (str * (str * Z)) :=
  List.fold_left
    (fun d '(order, code, names) =>
       List.fold_left (fun d n => dict_set n (code, order) d) names d)
    _names_orders [].

(** ** What the programs print *)

Inductive message :=
| Invalid_range (part : str)
| Invalid_range_format (part : str)
| Invalid_chapter_number (part : str)
| No_verses_found (book_name : str) (chap : Z) (version : str)
| Error_parsing (book_name : str) (chap : Z) (version : str)
| HTTP_error (book_name : str) (chap : Z) (version : str)
| Timeout_fetching (book_name : str) (chap : Z) (version : str)
| Error_processing (book_name : str) (chap : Z) (version : str)
| Chapter_count_not_found (book_code : str)
| No_valid_chapters (book_name : str)
| Permission_denied (out_dir : list str)
| OS_error (out_dir : list str)
| Downloading (pretty_book_name version : str)
| Finished (pretty_book_name : str) (successful_downloads total : nat).

(** ** The range resolver: [parse_range] *)

Section Resolver.
Context (L : pylib).

(** One pass of the loop over [arg.split(",")]: what the part adds to
    [out], and what it prints. *)
Definition part_values (part0 : str) : list Z * list message :=
  let part := strip part0 in
  if bool_decide (part = []) then ([], [])
  else if contains 45 part then
    match py_int L <$> split_on 45 part with
    | [Some a; Some b] =>
        if (a <=? b)%Z then (seqZ a (b + 1 - a), [])
        else ([], [Invalid_range part])
    | _ => ([], [Invalid_range_format part])
    end
  else
    match py_int L part with
    | Some n => ([n], [])
    | None => ([], [Invalid_chapter_number part])
    end.

Definition in_book (max_chaps : Z) (n : Z) : bool :=
  (1 <=? n)%Z && (n <=? max_chaps)%Z.

Definition parse_range (arg : str) (max_chaps : Z) : list Z * list message :=
  if str_eqb (lower L arg) (u "all") then (seqZ 1 max_chaps, [])
  else
    let scanned := part_values <$> split_on 44 arg in
    (List.filter (in_book max_chaps) (List.concat (fst <$> scanned)),
     List.concat (snd <$> scanned)).

End Resolver.

(** ** The orchestrator: [grab] and [download_book] *)

(** What lies outside the program: the page behind a URL (already
    parsed into its tree), and whether a directory can be made and a
    file written. *)
Record world := {
  fetch_html : str -> result (list node);
  mkdir : list str -> result ();
  write_text : list str -> result ();
}.

(** The files written, by path; a file holds the record that
    [json.dumps] serialises. *)
Abbreviation files := (gmap (list str) chapter_record).

(** The value of a call. *)
Inductive pyval :=
| PyNone
| PyInt (n : Z).

Section Orchestrator.
Context (L : pylib) (W : world).

Definition chapter_url (version book_name : str) (chap : Z) : str :=
  u "https://www.biblegateway.com/passage/?search=" ++ book_name
  ++ u "%20" ++ str_of_Z chap ++ u "&version=" ++ version.

Definition chapter_path (out_dir : list str) (book_code : str) (chap : Z)
  : list str :=
  out_dir ++ [book_code ++ u "." ++ format_d 3 chap ++ u ".json"].

(** One task.  The value is [Some chap] for [return chap] and [None]
    for [return None]. *)
Definition grab (version book_name book_code : str) (chap : Z)
    (out_dir : list str) (fs : files)
  : result (option Z * files * list message) :=
  match html_text ← fetch_html W (chapter_url version book_name chap);
        parse_chapter_html L html_text book_code version chap with
  | Ok data =>
      if bool_decide (verses data = []) then
        Ok (None, fs, [No_verses_found book_name chap version])
      else
        _ ← mkdir W out_dir;
        _ ← write_text W (chapter_path out_dir book_code chap);
        Ok (Some chap, <[chapter_path out_dir book_code chap := data]> fs, [])
  | Raise (ValueError _) => Ok (None, fs, [Error_parsing book_name chap version])
  | Raise ClientResponseError => Ok (None, fs, [HTTP_error book_name chap version])
  | Raise TimeoutError => Ok (None, fs, [Timeout_fetching book_name chap version])
  | Raise _ => Ok (None, fs, [Error_processing book_name chap version])
  end.

(** The loop over the tasks, one after the other: each task writes
    its own file only, so the order in which they complete changes
    neither the files nor the count. *)
Fixpoint run_tasks (version pretty_book_name book_code : str)
    (out_dir : list str) (chapter_list : list Z)
    (successful_downloads : nat) (fs : files) (log : list message)
  : result (nat * files * list message) :=
  match chapter_list with
  | [] => Ok (successful_downloads, fs, log)
  | c :: rest =>
      '(r, fs', msgs) ← grab version pretty_book_name book_code c out_dir fs;
      run_tasks version pretty_book_name book_code out_dir rest
        (match r with
         | Some _ => S successful_downloads
         | None => successful_downloads
         end) fs' (log ++ msgs)
  end.

Definition download_book (version book_name book_code : str) (order : Z)
    (chapters : str) (dest_root : list str) (concurrency : Z) (fs : files)
  : result (pyval * files * list message) :=
  match CHAPS !! book_code with
  | None => Ok (PyNone, fs, [Chapter_count_not_found book_code])
  | Some max_chaps =>
      let '(chapter_list, warnings) := parse_range L chapters max_chaps in
      if bool_decide (chapter_list = []) then
        Ok (PyNone, fs, warnings ++ [No_valid_chapters book_name])
      else
        pretty_book_name ←
          match List.find (fun '(_, (code, _)) => str_eqb code book_code) BOOK_INFO with
          | Some (alias, _) => Ok (title L alias)
          | None => Raise StopIteration
          end;
        let out_dir :=
          dest_root ++ [upper L version; format_d 2 order ++ u "_" ++ book_code] in
        match mkdir W out_dir with
        | Raise PermissionError =>
            Ok (PyNone, fs, warnings ++ [Permission_denied out_dir])
        | Raise OSError | Raise IsADirectoryError =>
            Ok (PyNone, fs, warnings ++ [OS_error out_dir])
        | Raise e => Raise e
        | Ok _ =>
            if (concurrency <? 0)%Z then
              Raise (ValueError "Semaphore initial value must be >= 0")
            else if (concurrency =? 0)%Z then Raise Blocked
            else
              '(successful_downloads, fs', log) ←
                run_tasks (upper L version) pretty_book_name book_code out_dir
                  chapter_list 0%nat fs
                  (warnings ++ [Downloading pretty_book_name (upper L version)]);
              Ok (PyNone, fs',
                  log ++ [Finished pretty_book_name successful_downloads
                            (List.length chapter_list)])
        end
  end.

End Orchestrator.

(** ** The command line: [normalise_book] *)

(** How a call that may end the program comes out: [raise SystemExit]
    is not caught by any handler of the program. *)
Inductive outcome (A : Type) :=
| Returns (a : A)
| Raises (e : exn)
| SystemExit (user_input : str).
Arguments Returns {A} a.
Arguments Raises {A} e.
Arguments SystemExit {A} user_input.

(** [BOOK_INFO.get(key)] *)
Definition book_info (key : str) : option (str * Z) :=
  snd <$> List.find (fun p => str_eqb (fst p) key) BOOK_INFO.

Section CommandLine.
Context (L : pylib).

Definition normalise_book (user_input : str) : outcome (str * str * Z) :=
  let key := strip (lower L user_input) in
  match book_info key with
  | None => SystemExit user_input
  | Some (code, order) =>
      match List.find (fun '(_, (c, o)) => str_eqb c code && (o =? order)%Z)
              BOOK_INFO with
      | Some (alias, _) => Returns (title L alias, code, order)
      | None => Raises StopIteration
      end
  end.

End CommandLine.

End Fetch.

(** * [convert_bible.py] *)

Module Convert.

(** ** The values [json.loads] returns (numbers: the integers) *)

Inductive json :=
| JNull
| JBool (b : bool)
| JNum (z : Z)
| JStr (s : str)
| JList (l : list json)
| JDict (d : list (str * json)).

(** What [json.loads(jf.read_text(encoding="utf-8"))] finds in a file:
    bytes that are not UTF-8, text that is not JSON, or a value. *)
Inductive filetext :=
| NotUtf8
| Malformed
| Parsed (j : json).

(** An entry of a directory, under its name. *)
Inductive entry :=
| File (content : filetext)
| Dir (children : list (str * entry)).

Definition is_dir (e : entry) : bool :=
  match e with Dir _ => true | File _ => false end.

(** ** The document written for one version *)

Record verse_out := { v_number : Z; v_text : str }.
Record chapter_out := { c_number : Z; c_verses : list verse_out }.
Record book_out := { b_number : Z; b_name : str; b_chapters : list chapter_out }.
Record bible := {
  name : str;
  metadata_source : str;
  metadata_revision : str;
  books : list book_out;
}.

Definition BOOKS : gmap str str :=
  list_to_map [
   (u "gen", u "Genesis"); (u "exo", u "Exodus"); (u "lev", u "Leviticus");
   (u "num", u "Numbers"); (u "deu", u "Deuteronomy"); (u "jos", u "Joshua");
   (u "jdg", u "Judges"); (u "rut", u "Ruth"); (u "1sa", u "1 Samuel");
   (u "2sa", u "2 Samuel"); (u "1ki", u "1 Kings"); (u "2ki", u "2 Kings");
   (u "1ch", u "1 Chronicles"); (u "2ch", u "2 Chronicles"); (u "ezr", u "Ezra");
   (u "neh", u "Nehemiah"); (u "est", u "Esther"); (u "job", u "Job");
   (u "psa", u "Psalms"); (u "pro", u "Proverbs"); (u "ecc", u "Ecclesiastes");
   (u "sng", u "Song of Solomon"); (u "isa", u "Isaiah"); (u "jer", u "Jeremiah");
   (u "lam", u "Lamentations"); (u "ezk", u "Ezekiel"); (u "dan", u "Daniel");
   (u "hos", u "Hosea"); (u "jol", u "Joel"); (u "amo", u "Amos");
   (u "oba", u "Obadiah"); (u "jon", u "Jonah"); (u "mic", u "Micah");
   (u "nam", u "Nahum"); (u "hab", u "Habakkuk"); (u "zep", u "Zephaniah");
   (u "hag", u "Haggai"); (u "zec", u "Zechariah"); (u "mal", u "Malachi");
   (u "mat", u "Matthew"); (u "mrk", u "Mark"); (u "luk", u "Luke");
   (u "jhn", u "John"); (u "act", u "Acts"); (u "rom", u "Romans");
   (u "1co", u "1 Corinthians"); (u "2co", u "2 Corinthians"); (u "gal", u "Galatians");
   (u "eph", u "Ephesians"); (u "php", u "Philippians"); (u "col", u "Colossians");
   (u "1th", u "1 Thessalonians"); (u "2th", u "2 Thessalonians"); (u "1ti", u "1 Timothy");
   (u "2ti", u "2 Timothy"); (u "tit", u "Titus"); (u "phm", u "Philemon");
   (u "heb", u "Hebrews"); (u "jas", u "James"); (u "1pe", u "1 Peter");
   (u "2pe", u "2 Peter"); (u "1jn", u "1 John"); (u "2jn", u "2 John");
   (u "3jn", u "3 John"); (u "jud", u "Jude"); (u "rev", u "Revelation")
  ].

(** ** Names bound in the module *)

(** The names the module's imports and definitions bind (lines 20 to
    27 and the three [def]s). *)
Definition module_globals : list string :=
  ["annotations"; "argparse"; "html"; "json"; "re"; "Path"; "Dict"; "List";
   "BOOKS"; "clean_text"; "parse_version"; "main"]%string.

(** Evaluating a global name that is not a builtin. *)
Definition global_name (x : string) : result () :=
  if existsb (String.eqb x) module_globals then Ok () else Raise (NameError x).

Inductive message :=
| No_verses_found (jf : list str)
| Could_not_decode (jf : list str)
| Missing_key (key : str) (jf : list str)
| No_valid_chapters (book_name abbr version : str).

(** [print(m, file=sys.stderr)] *)
Definition print_stderr (m : message) (log : list message)
  : result (list message) :=
  _ ← global_name "sys"; Ok (log ++ [m]).

(** ** Operations on JSON values *)

(** [bool(x)] *)
Definition is_true (x : json) : bool :=
  match x with
  | JNull => false
  | JBool b => b
  | JNum z => negb (z =? 0)%Z
  | JStr s => negb (bool_decide (s = []))
  | JList l => match l with [] => false | _ => true end
  | JDict d => match d with [] => false | _ => true end
  end.

Definition lookup_key (k : str) (d : list (str * json)) : option json :=
  snd <$> List.find (fun p => str_eqb (fst p) k) d.

(** [x[k]] for a string [k] *)
Definition subscript (x : json) (k : str) : result json :=
  match x with
  | JDict d =>
      match lookup_key k d with
      | Some v => Ok v
      | None => Raise (KeyError k)
      end
  | _ => Raise TypeError
  end.

(** [x.get(k, dflt)] *)
Definition get (x : json) (k : str) (dflt : json) : result json :=
  match x with
  | JDict d => Ok (default dflt (lookup_key k d))
  | _ => Raise AttributeError
  end.

(** The elements a [for] loop over [x] visits. *)
Definition iterate (x : json) : result (list json) :=
  match x with
  | JList l => Ok l
  | JDict d => Ok ((fun p => JStr (fst p)) <$> d)
  | JStr s => Ok ((fun c => JStr [c]) <$> s)
  | _ => Raise TypeError
  end.

Fixpoint for_each {A B} (f : A -> result B) (l : list A) : result (list B) :=
  match l with
  | [] => Ok []
  | x :: l' => y ← f x; ys ← for_each f l'; Ok (y :: ys)
  end.

(** [s.lstrip("0")] *)
Fixpoint lstrip_zeros (s : str) : str :=
  match s with
  | 48 :: s' => lstrip_zeros s'
  | _ => s
  end.

Fixpoint take_while (p : N -> bool) (s : str) : str :=
  match s with
  | c :: s' => if p c then c :: take_while p s' else []
  | [] => []
  end.

Fixpoint drop_while (p : N -> bool) (s : str) : str :=
  match s with
  | c :: s' => if p c then drop_while p s' else s
  | [] => []
  end.

(** [Path.__lt__] among the entries of one directory. *)
Definition name_le (a b : str * entry) : bool := negb (str_ltb (fst b) (fst a)).

Section Aggregator.
Context (L : pylib).

(** [\d] *)
Definition re_digit (c : N) : bool := bool_decide (is_Some (decimal_value L c)).

(** [[a-z0-9]] *)
Definition re_alnum (c : N) : bool := ascii_lower c || ascii_digit c.

(** [re.match(r"(\d{2})_([a-z0-9]+)", name)]: the two groups. *)
Definition match_book_folder (name : str) : option (str * str) :=
  match name with
  | d1 :: d2 :: 95 :: rest =>
      if re_digit d1 && re_digit d2 then
        match take_while re_alnum rest with
        | [] => None
        | abbr => Some ([d1; d2], abbr)
        end
      else None
  | _ => None
  end.

(** [book_folder.glob(f"{abbr}.*.json")]: the test on a name. *)
Definition glob_chapter (abbr : str) (name : str) : bool :=
  match starts_with (abbr ++ u ".") name with
  | Some rest => ends_with (u ".json") rest
  | None => false
  end.

(** [re.match(rf"{abbr}\.(\d+)\.json", name)]: the group. *)
Definition match_chapter_file (abbr : str) (name : str) : option str :=
  match starts_with (abbr ++ u ".") name with
  | Some rest =>
      match take_while re_digit rest with
      | [] => None
      | ds =>
          if bool_decide (is_Some (starts_with (u ".json") (drop_while re_digit rest)))
          then Some ds else None
      end
  | None => None
  end.

(** [int(s)] *)
Definition int_str (s : str) : result Z :=
  match py_int L s with
  | Some z => Ok z
  | None => Raise (ValueError "invalid literal for int() with base 10")
  end.

(** [int(x)] *)
Definition int_of (x : json) : result Z :=
  match x with
  | JStr s => int_str s
  | JNum z => Ok z
  | JBool b => Ok (if b then 1 else 0)%Z
  | _ => Raise TypeError
  end.

(** [clean_text(raw)]: [raw.strip()] is an attribute of strings. *)
Definition clean_text (raw : json) : result str :=
  match raw with
  | JStr s => Ok (unescape L (strip s))
  | _ => Raise AttributeError
  end.

(** [v.get("readableText") or v["text"]] *)
Definition readable_or_text (v : json) : result json :=
  r ← get v (u "readableText") JNull;
  if is_true r then Ok r else subscript v (u "text").

(** One element of the comprehension over [data.get("verses", [])]. *)
Definition convert_verse (v : json) : result verse_out :=
  n ← (x ← subscript v (u "verse"); int_of x);
  t ← (raw ← readable_or_text v; clean_text raw);
  Ok {| v_number := n; v_text := t |}.

(** [json.loads(jf.read_text(encoding="utf-8"))] *)
Definition load (e : entry) : result json :=
  match e with
  | Dir _ => Raise IsADirectoryError
  | File NotUtf8 => Raise (ValueError "'utf-8' codec can't decode")
  | File Malformed => Raise JSONDecodeError
  | File (Parsed j) => Ok j
  end.

Definition read_verses (e : entry) : result (list verse_out) :=
  data ← load e;
  vs ← get data (u "verses") (JList []);
  elems ← iterate vs;
  for_each convert_verse elems.

(** The [try] statement for one chapter file [jf]. *)
Definition read_chapter (jf : list str) (e : entry) (chap_num : Z)
    (acc : list chapter_out * list message)
  : result (list chapter_out * list message) :=
  let '(chapters, log) := acc in
  match read_verses e with
  | Ok verses =>
      match verses with
      | _ :: _ => Ok (chapters ++ [{| c_number := chap_num; c_verses := verses |}], log)
      | [] => log' ← print_stderr (No_verses_found jf) log; Ok (chapters, log')
      end
  | Raise JSONDecodeError =>
      log' ← print_stderr (Could_not_decode jf) log; Ok (chapters, log')
  | Raise (KeyError k) =>
      log' ← print_stderr (Missing_key k jf) log; Ok (chapters, log')
  | Raise e => Raise e
  end.

(** The loop over [sorted(book_folder.glob(...))]; [files] is that
    sorted list. *)
Fixpoint read_chapters (folder : list str) (abbr : str)
    (files : list (str * entry)) (acc : list chapter_out * list message)
  : result (list chapter_out * list message) :=
  match files with
  | [] => Ok acc
  | (jf, e) :: rest =>
      match match_chapter_file abbr jf with
      | None => read_chapters folder abbr rest acc
      | Some digits =>
          chap_num ← int_str (match lstrip_zeros digits with
                              | [] => u "0"
                              | ds => ds
                              end);
          acc' ← read_chapter (folder ++ [jf]) e chap_num acc;
          read_chapters folder abbr rest acc'
      end
  end.

(** The loop over [sorted(version_dir.iterdir())]; [folders] is that
    sorted list. *)
Fixpoint read_books (version_dir : list str) (folders : list (str * entry))
    (acc : list book_out * list message)
  : result (list book_out * list message) :=
  match folders with
  | [] => Ok acc
  | (folder_name, e) :: rest =>
      match e, match_book_folder folder_name with
      | Dir children, Some (digits, abbr) =>
          order ← int_str digits;
          let book_name := default (capitalize L abbr) (BOOKS !! abbr) in
          '(chapters, log) ←
            read_chapters (version_dir ++ [folder_name]) abbr
              (sort_by name_le
                 (List.filter (fun f => glob_chapter abbr (fst f)) children))
              ([], snd acc);
          acc' ← match chapters with
                 | _ :: _ =>
                     Ok (fst acc ++ [{| b_number := order; b_name := book_name;
                                        b_chapters := chapters |}], log)
                 | [] =>
                     log' ← print_stderr
                              (No_valid_chapters book_name abbr
                                 (List.last version_dir [])) log;
                     Ok (fst acc, log')
                 end;
          read_books version_dir rest acc'
      | _, _ => read_books version_dir rest acc
      end
  end.

Definition by_number (a b : book_out) : bool := (b_number a <=? b_number b)%Z.

(** [version_dir] is the path of the directory and [entries] what
    [iterdir()] lists in it.  The value is the dictionary returned and
    what was printed. *)
Definition parse_version (version_dir : list str) (entries : list (str * entry))
  : result (bible * list message) :=
  let rev := upper L (List.last version_dir []) in
  '(books, log) ← read_books version_dir (sort_by name_le entries) ([], []);
  Ok ({| name := u "Bible " ++ rev;
         metadata_source := u "parsedBible repo";
         metadata_revision := rev;
         books := sort_by by_number books |}, log).

End Aggregator.

(** ** The main program *)

(** What lies outside the program: whether a directory can be made and
    a file written. *)
Record disk := {
  disk_mkdir : list str -> result ();
  disk_write_text : list str -> result ();
}.

(** The files written, by path; a file holds the document that
    [json.dumps] serialises. *)
Abbreviation exports := (gmap (list str) bible).

Inductive main_message :=
| Versions_not_found (not_found : list str)
| No_valid_book_data (name : str)
| Unexpected_error (name : str) (e : exn)
| Found (names : list str)
| Processing (name : str)
| Parsing (m : message)
| Exported (name : str) (outfile : list str)
| All_ready (processed_count : nat)
| None_processed.

(** The two messages of [raise SystemExit(...)]. *)
Inductive exit_message :=
| Error_reading_repository_root
| No_valid_versions_found.

(** How [main] ends. *)
Inductive ending :=
| Returned
| SystemExit (msg : exit_message)
| Uncaught (e : exn).

(** [print(m, file=sys.stderr)] in [main] *)
Definition print_stderr_main (m : main_message) (log : list main_message)
  : result (list main_message) :=
  _ ← global_name "sys"; Ok (log ++ [m]).

Section Main.
Context (L : pylib) (D : disk).

(** [re.match(r"\d{2}_gen", name)] *)
Definition match_gen (name : str) : bool :=
  match name with
  | d1 :: d2 :: 95 :: 103 :: 101 :: 110 :: _ => re_digit L d1 && re_digit L d2
  | _ => false
  end.

(** The test of the comprehension for [version_dirs]: some directory
    in [d] has a name that begins like the folder of Genesis. *)
Definition is_version_dir (d : str * entry) : bool :=
  match d.2 with
  | Dir children => existsb (fun x => is_dir x.2 && match_gen x.1) children
  | File _ => false
  end.

(** [outdir / f"{vdir.name.upper()}.fsb.json"] *)
Definition outfile (outdir : list str) (name : str) : list str :=
  outdir ++ [upper L name ++ u ".fsb.json"].

(** The body of the [try] statement for one version. *)
Definition export_version (repo_root outdir : list str) (vdir : str * entry)
    (out : exports) (log : list main_message) (processed_count : nat)
  : result (exports * list main_message * nat) :=
  '(bible_json, printed) ←
    match vdir.2 with
    | Dir children => parse_version L (repo_root ++ [vdir.1]) children
    | File _ => Raise OSError
    end;
  let log := log ++ (Parsing <$> printed) in
  match books bible_json with
  | [] =>
      log' ← print_stderr_main (No_valid_book_data vdir.1) log;
      Ok (out, log', processed_count)
  | _ :: _ =>
      _ ← disk_write_text D (outfile outdir vdir.1);
      Ok (<[outfile outdir vdir.1 := bible_json]> out,
          log ++ [Exported vdir.1 (outfile outdir vdir.1)],
          S processed_count)
  end.

(** The loop over [version_dirs] and the two closing messages. What
    was written and printed stays when the loop is left by an
    exception. *)
Fixpoint export_all (repo_root outdir : list str)
    (version_dirs : list (str * entry)) (out : exports)
    (log : list main_message) (processed_count : nat)
  : exports * list main_message * ending :=
  match version_dirs with
  | [] =>
      (out,
       log ++ [if (0 <? processed_count)%nat then All_ready processed_count
               else None_processed],
       Returned)
  | vdir :: rest =>
      let log := log ++ [Processing vdir.1] in
      match export_version repo_root outdir vdir out log processed_count with
      | Ok (out', log', processed_count') =>
          export_all repo_root outdir rest out' log' processed_count'
      | Raise Blocked => (out, log, Uncaught Blocked)
      | Raise e =>
          match print_stderr_main (Unexpected_error vdir.1 e) log with
          | Ok log' => export_all repo_root outdir rest out log' processed_count
          | Raise e' => (out, log, Uncaught e')
          end
      end
  end.

(** [repo] is what is at [repo_root], [versions] the value of
    [args.versions] ([None] without the option) and [out] the files of
    [outdir] before the run. *)
Definition main (repo_root outdir : list str) (repo : entry)
    (versions : option (list str)) (out : exports)
  : exports * list main_message * ending :=
  match disk_mkdir D outdir with
  | Raise e => (out, [], Uncaught e)
  | Ok _ =>
      match repo with
      | File _ => (out, [], SystemExit Error_reading_repository_root)
      | Dir entries =>
          let potential_dirs := List.filter (fun d => is_dir d.2) entries in
          let version_dirs := List.filter is_version_dir potential_dirs in
          let selected : result (list (str * entry)) :=
            match versions with
            | Some (v :: vs) =>
                let wanted := upper L <$> (v :: vs) in
                let version_dirs :=
                  List.filter (fun d => bool_decide (upper L d.1 ∈ wanted))
                    version_dirs in
                let found_names := (fun d => upper L d.1) <$> version_dirs in
                let not_found :=
                  List.filter (fun w => bool_decide (w ∉ found_names)) wanted in
                match not_found with
                | [] => Ok version_dirs
                | _ :: _ =>
                    _ ← print_stderr_main (Versions_not_found not_found) [];
                    Ok version_dirs
                end
            | _ => Ok version_dirs
            end in
          match selected with
          | Raise e => (out, [], Uncaught e)
          | Ok [] => (out, [], SystemExit No_valid_versions_found)
          | Ok version_dirs =>
              export_all repo_root outdir version_dirs out
                [Found (fst <$> version_dirs)] 0
          end
      end
  end.

End Main.

End Convert.

(** * Sample inputs *)

Module Samples.
Import Fetch Convert.

Definition div_ (cls : string) (ch : list node) : node := Tag (u "div") [u cls] ch.
Definition sup_ (cls : string) (ch : list node) : node := Tag (u "sup") [u cls] ch.
Definition span_ (cls : string) (ch : list node) : node := Tag (u "span") [u cls] ch.
Definition txt (s : string) : node := NavigableString true (u s).

(** The label of a marker as the site writes it: the number and a
    no-break space. *)
Definition label (s : string) : node := NavigableString true (u s ++ [160]).

(** The scenario of the specification: chapter 1, two verses. *)
Definition genesis_1 : list node :=
  [div_ "passage-content"
     [span_ "text" [span_ "chapternum" [label "1"];
                    txt "In the beginning..."];
      span_ "text" [sup_ "versenum" [label "2"];
                    txt "the earth was formless"]]].

(** The same page for chapter 3. *)
Definition genesis_3 : list node :=
  [div_ "passage-content"
     [span_ "text" [span_ "chapternum" [label "3"];
                    txt "Now the serpent was more crafty"];
      span_ "text" [sup_ "versenum" [label "2"];
                    txt "The woman said to the serpent"]]].

(** A page with a gap: verses 1 and 3 only. *)
Definition gap_page : list node :=
  [div_ "passage-content"
     [sup_ "versenum" [label "1"]; txt "first"; Tag (u "br") [] [];
      sup_ "versenum" [label "3"]; txt "  third
 one "]].

Definition gap_parsed : chapter_record :=
  {| book := u "GEN"; rev := u "NIV"; chapter := u "1";
     verses :=
       [ {| verse := u "1"; text := u "first"; readableText := u "first" |};
         {| verse := u "2"; text := []; readableText := [] |};
         {| verse := u "3"; text := u "third
 one"; readableText := u "third one" |} ] |}.

(** A verse marker whose label is a superscript two. *)
Definition superscript_page : list node :=
  [div_ "passage-content" [sup_ "versenum" [txt "²"]; txt "text"]].

(** A page with its container and no verse marker. *)
Definition empty_page : list node :=
  [div_ "passage-content" [Tag (u "p") [] [txt "No results found."]]].

Definition empty_container : node :=
  div_ "passage-content" [Tag (u "p") [] [txt "No results found."]].

(** A page without the container. *)
Definition missing_page : list node :=
  [div_ "content" [txt "404"]].

Definition one_verse (n t : string) : json :=
  JDict [(u "verse", JStr (u n)); (u "text", JStr (u t));
         (u "readableText", JStr (u t))].

Definition chapter_file (vs : list json) : entry :=
  File (Parsed (JDict [(u "book", JStr (u "GEN")); (u "verses", JList vs)])).

(** Chapter files named without padding. *)
Definition unpadded_version : list (str * entry) :=
  [(u "01_gen", Dir [(u "gen.2.json", chapter_file [one_verse "1" "two"]);
                     (u "gen.10.json", chapter_file [one_verse "1" "ten"])])].

(** Two folders with the same prefix. *)
Definition twin_version : list (str * entry) :=
  [(u "01_gen", Dir [(u "gen.001.json", chapter_file [one_verse "1" "a"])]);
   (u "01_exo", Dir [(u "exo.001.json", chapter_file [one_verse "1" "b"])])].

(** A version as the fetcher writes it. *)
Definition padded_version : list (str * entry) :=
  [(u "02_exo", Dir [(u "exo.001.json", chapter_file [one_verse "1" "b"])]);
   (u "01_gen", Dir [(u "gen.010.json", chapter_file [one_verse "1" "ten"]);
                     (u "gen.002.json", chapter_file [one_verse "1" "two"])])].

Definition one_chapter (n : Z) (t : string) : chapter_out :=
  {| c_number := n; c_verses := [ {| v_number := 1; v_text := u t |} ] |}.

Definition padded_bible : bible :=
  {| name := u "Bible NIV"; metadata_source := u "parsedBible repo";
     metadata_revision := u "NIV";
     books :=
       [ {| b_number := 1; b_name := u "Genesis";
            b_chapters := [one_chapter 2 "two"; one_chapter 10 "ten"] |};
         {| b_number := 2; b_name := u "Exodus";
            b_chapters := [one_chapter 1 "b"] |} ] |}.

(** One file that is not JSON beside a good one. *)
Definition broken_version : list (str * entry) :=
  [(u "01_gen", Dir [(u "gen.001.json", File Malformed);
                     (u "gen.002.json", chapter_file [one_verse "1" "two"])])].

(** The good file alone. *)
Definition good_version : list (str * entry) :=
  [(u "01_gen", Dir [(u "gen.002.json", chapter_file [one_verse "1" "two"])])].

(** One verse without its number beside a good file. *)
Definition keyless_version : list (str * entry) :=
  [(u "01_gen", Dir [(u "gen.001.json",
                      chapter_file [JDict [(u "text", JStr (u "a"))]]);
                     (u "gen.002.json", chapter_file [one_verse "1" "two"])])].

(** A verse whose normalized text is present and empty. *)
Definition blank_readable : json :=
  JDict [(u "verse", JStr (u "1")); (u "text", JStr (u "raw text"));
         (u "readableText", JStr [])].

(** A world in which Philemon is served and everything can be
    written. *)
Definition philemon_page : list node :=
  [div_ "passage-content"
     [span_ "chapternum" [label "1"]; txt "Paul, a prisoner"]].

Definition open_world : world :=
  {| fetch_html := fun _ => Ok philemon_page;
     mkdir := fun _ => Ok ();
     write_text := fun _ => Ok () |}.

Definition philemon_record : chapter_record :=
  {| book := u "PHM"; rev := u "NIV"; chapter := u "1";
     verses := [ {| verse := u "1"; Fetch.text := u "Paul, a prisoner";
                    readableText := u "Paul, a prisoner" |} ] |}.

Definition philemon_files : files :=
  {[ [u "data"; u "NIV"; u "57_phm"; u "phm.001.json"] := philemon_record ]}.

Definition philemon_log : list Fetch.message :=
  [Downloading (u "Philemon") (u "NIV"); Finished (u "Philemon") 1 1].

(** A world in which the site has no page. *)
Definition dead_world : world :=
  {| fetch_html := fun _ => Ok empty_page;
     mkdir := fun _ => Ok ();
     write_text := fun _ => Ok () |}.

(** The container of the page of Philemon, and the state in which the
    loop leaves it. *)
Definition philemon_container : node :=
  div_ "passage-content"
    [span_ "chapternum" [label "1"]; txt "Paul, a prisoner"].

Definition philemon_state : state :=
  {| verses_data := {[ u "1" := [u "Paul, a prisoner"] ]};
     current_verse_num := Some (u "1");
     ignore_next_text_node_if_matches_num := false |}.

(** A disk on which everything can be written. *)
Definition open_disk : disk :=
  {| disk_mkdir := fun _ => Ok (); disk_write_text := fun _ => Ok () |}.

(** A repository with one version that holds Matthew alone, and one
    with a version that holds a chapter of Genesis. *)
Definition matthew_repo : entry :=
  Dir [(u "NIV",
        Dir [(u "40_mat",
              Dir [(u "mat.001.json", chapter_file [one_verse "1" "a"])])])].

Definition genesis_repo : entry :=
  Dir [(u "notes.txt", File Malformed); (u "niv", Dir good_version)].

Definition genesis_bible : bible :=
  {| name := u "Bible NIV"; metadata_source := u "parsedBible repo";
     metadata_revision := u "NIV";
     books := [ {| b_number := 1; b_name := u "Genesis";
                   b_chapters := [one_chapter 2 "two"] |} ] |}.

(** The page as the site lays it out: one span for each verse, the
    first with the number of the chapter in a [chapternum] span, the
    others with their number in a [versenum] tag; a label is the number
    and a no-break space. *)
Definition chapter_marker (c : Z) : node :=
  Tag (u "span") [u "chapternum"] [NavigableString true (str_of_Z c ++ [160])].

Definition verse_marker (i : Z) : node :=
  Tag (u "sup") [u "versenum"] [NavigableString true (str_of_Z i ++ [160])].

Definition verse_span (marker : node) (t : str) : node :=
  Tag (u "span") [u "text"] [marker; NavigableString true t].

Definition standard_container (c : Z) (t1 : str) (ts : list str) : node :=
  Tag (u "div") [u "passage-content"]
    (verse_span (chapter_marker c) t1
     :: zip_with (fun i t => verse_span (verse_marker i) t)
          (seqZ 2 (Z.of_nat (List.length ts))) ts).

(** A version whose folders pad the chapter numbers to different
    widths, with a file beside the chapter files. *)
Definition mixed_version : list (str * entry) :=
  [(u "19_psa", Dir [(u "psa.150.json", chapter_file [one_verse "1" "last"]);
                     (u "psa.001.json", chapter_file [one_verse "1" "first"])]);
   (u "01_gen", Dir [(u "gen.02.json", chapter_file [one_verse "1" "two"]);
                     (u "gen.notes.json", File Malformed);
                     (u "gen.01.json", chapter_file [one_verse "1" "one"])])].

Definition mixed_bible : bible :=
  {| name := u "Bible NIV"; metadata_source := u "parsedBible repo";
     metadata_revision := u "NIV";
     books :=
       [ {| b_number := 1; b_name := u "Genesis";
            b_chapters := [one_chapter 1 "one"; one_chapter 2 "two"] |};
         {| b_number := 19; b_name := u "Psalms";
            b_chapters := [one_chapter 1 "first"; one_chapter 150 "last"] |} ] |}.

End Samples.

(** * Predicates of the specification *)

(** A string on one line: no newline, no tab, no two spaces in a
    row, no white space at either end. *)
Definition single_line (s : str) : Prop :=
  (10 ∉ s) /\ (9 ∉ s)
  /\ (forall a b : str, s <> a ++ [32; 32] ++ b)
  /\ (forall c, head s = Some c -> isspace c = false)
  /\ (forall c, last s = Some c -> isspace c = false).

(** Every white-space character of [s] is one space between two
    characters that are not white space; [prev] tells whether the
    character before [s] was a space or the start. *)
Fixpoint spaced (prev : bool) (s : str) : bool :=
  match s with
  | [] => negb prev
  | c :: s' =>
      if isspace c then (c =? 32) && negb prev && spaced true s'
      else spaced false s'
  end.

(** A piece of [split()]: not empty, no white space. *)
Definition token (t : str) : Prop :=
  t <> [] /\ Forall (fun c => isspace c = false) t.

(** The invariant of the traversal: the verse being read has its
    accumulator. *)
Definition current_has_entry (st : Fetch.state) : Prop :=
  forall k, Fetch.current_verse_num st = Some k ->
            is_Some (Fetch.verses_data st !! k).

(** Every key of the accumulator passed [isdigit]. *)
Definition keys_are_digits (L : pylib) (st : Fetch.state) : Prop :=
  forall k, is_Some (Fetch.verses_data st !! k) -> isdigit L k = true.

(** [m] is the greatest verse number among the keys of [data]. *)
Definition max_observed (L : pylib) (data : gmap str (list str)) (m : Z) : Prop :=
  (forall k, is_Some (data !! k) -> exists z, py_int L k = Some z /\ (z <= m)%Z)
  /\ (exists k, is_Some (data !! k) /\ py_int L k = Some m).

(** Whether the task for chapter [c] gets a record with verses, the
    only case in which [grab] goes on to write a file. *)
Definition chapter_saved (L : pylib) (W : Fetch.world)
    (version book_name book_code : str) (c : Z) : bool :=
  match html_text ← Fetch.fetch_html W (Fetch.chapter_url version book_name c);
        Fetch.parse_chapter_html L html_text book_code version c with
  | Ok data => negb (bool_decide (Fetch.verses data = []))
  | Raise _ => false
  end.

(** The value of a string of ASCII digits. *)
Definition digits_value (acc : N) (ds : str) : N :=
  List.fold_left (fun a c => 10 * a + (c - 48)) ds acc.

(** The chapter files of one book folder, which are the files of the
    folder that pass the glob and match the pattern of a chapter file,
    are named as the fetcher names them, [<abbr>.<w digits>.json], with
    one width [w] for the folder, and no name occurs twice in the
    folder. Other files of the folder are free. *)
Definition well_named (L : pylib) (w : nat) (abbr : str)
    (children : list (str * Convert.entry)) : Prop :=
  NoDup (fst <$> children)
  /\ forall jf e, (jf, e) ∈ children -> Convert.glob_chapter abbr jf = true ->
       is_Some (Convert.match_chapter_file L abbr jf) ->
       exists ds, jf = abbr ++ u "." ++ ds ++ u ".json"
                  /\ List.length ds = w
                  /\ Forall (fun c => ascii_digit c = true) ds.

(** The chapter number that [parse_version] derives from a file name. *)
Definition chap_of (L : pylib) (abbr jf : str) : option Z :=
  ds ← Convert.match_chapter_file L abbr jf;
  py_int L (match Convert.lstrip_zeros ds with [] => u "0" | s => s end).


(** * The files between the two programs *)

(** The value [json.loads] reads back from what [json.dumps] wrote for
    a record of the fetcher: the dictionaries of [parse_chapter_html],
    with their keys in the order of the source. *)
Definition verse_json (v : Fetch.verse_record) : Convert.json :=
  Convert.JDict [ (u "verse", Convert.JStr (Fetch.verse v));
                  (u "text", Convert.JStr (Fetch.text v));
                  (u "readableText", Convert.JStr (Fetch.readableText v)) ].

Definition chapter_json (r : Fetch.chapter_record) : Convert.json :=
  Convert.JDict [ (u "book", Convert.JStr (Fetch.book r));
                  (u "rev", Convert.JStr (Fetch.rev r));
                  (u "chapter", Convert.JStr (Fetch.chapter r));
                  (u "verses", Convert.JList (verse_json <$> Fetch.verses r)) ].

(** The chapter file as the aggregator finds it. *)
Definition chapter_entry (r : Fetch.chapter_record) : Convert.entry :=
  Convert.File (Convert.Parsed (chapter_json r)).
(** * Properties *)

(** ** Sample runs of the string primitives *)

Example py_int_ex1 : py_int frag (u " +1_000 ") = Some 1000%Z.
Proof. reflexivity. Qed.
Example py_int_ex2 : py_int frag (u "²") = None /\ isdigit frag (u "²") = true.
Proof. split; reflexivity. Qed.
Example py_int_ex3 : py_int frag (u "٣") = Some 3%Z /\ py_int frag (u "007") = Some 7%Z.
Proof. split; reflexivity. Qed.
Example strip_ex : strip (u "  a b  ") = u "a b".
Proof. reflexivity. Qed.
Example split_ex : split_ws (u "  a  b c ") = [u "a"; u "b"; u "c"].
Proof. reflexivity. Qed.
Example split_on_ex : split_on 44 (u "1-3,,5") = [u "1-3"; []; u "5"].
Proof. reflexivity. Qed.
Example str_ex : str_of_N 120 = u "120" /\ format_d 3 7 = u "007".
Proof. split; reflexivity. Qed.
Example unescape_ex : frag_unescape (u "a &amp; b") = u "a & b".
Proof. reflexivity. Qed.
Example title_ex : title frag (u "song of solomon") = u "Song Of Solomon"
  /\ lower frag (u "Génesis") = u "génesis" /\ upper frag (u "gen") = u "GEN".
Proof. repeat split; reflexivity. Qed.

(** ** Facts about the string primitives *)

Section StringFacts.

Lemma lstrip_id (s : str) :
  (forall c, head s = Some c -> isspace c = false) -> lstrip s = s.
Proof.
  destruct s as [|c s]; [reflexivity|].
  intros H. simpl. rewrite (H c); reflexivity.
Qed.

Lemma strip_id (s : str) :
  (forall c, head s = Some c -> isspace c = false) ->
  (forall c, last s = Some c -> isspace c = false) ->
  strip s = s.
Proof.
  intros Hh Hl. unfold strip, rstrip. rewrite (lstrip_id s Hh).
  rewrite lstrip_id, rev_involutive; [reflexivity|].
  intros c Hc. apply Hl.
  destruct (rev s) as [|x r] eqn:E; [discriminate|].
  injection Hc as ->.
  rewrite <- (rev_involutive s), E. simpl. apply last_snoc.
Qed.

Lemma split_ws_aux_tokens (s cur : str) :
  Forall (fun c => isspace c = false) cur ->
  Forall token (split_ws_aux cur s).
Proof.
  revert cur. induction s as [|c s IH]; intros cur Hcur; simpl.
  - destruct cur as [|x cur]; constructor; [|constructor].
    split.
    + intros E. apply (f_equal (@List.length N)) in E.
      rewrite length_rev in E. discriminate.
    + apply Forall_rev. exact Hcur.
  - destruct (isspace c) eqn:Hc.
    + destruct cur as [|x cur]; [apply IH; constructor|].
      constructor; [|apply IH; constructor].
      split.
      * intros E. apply (f_equal (@List.length N)) in E.
        rewrite length_rev in E. discriminate.
      * apply Forall_rev. exact Hcur.
    + apply IH. constructor; assumption.
Qed.

Lemma split_ws_tokens (s : str) : Forall token (split_ws s).
Proof. apply split_ws_aux_tokens. constructor. Qed.

Lemma spaced_cons (p : bool) (c : N) (s : str) :
  spaced p (c :: s) =
  if isspace c then (c =? 32) && negb p && spaced true s else spaced false s.
Proof. reflexivity. Qed.

Lemma spaced_skip (t k : str) :
  Forall (fun c => isspace c = false) t ->
  spaced false (t ++ k) = spaced false k.
Proof.
  induction 1 as [|c t Hc _ IH]; [reflexivity|].
  simpl. rewrite Hc. exact IH.
Qed.

Lemma spaced_token (p : bool) (t k : str) :
  token t -> spaced p (t ++ k) = spaced false k.
Proof.
  intros [Hne Hall]. destruct t as [|c t]; [congruence|].
  inversion Hall as [|? ? Hc Ht]; subst.
  simpl. rewrite Hc. apply spaced_skip, Ht.
Qed.

Lemma spaced_join (ts : list str) :
  Forall token ts -> ts <> [] -> spaced true (join [32] ts) = true.
Proof.
  induction 1 as [|t ts Ht Hts IH]; [congruence|]. intros _.
  destruct ts as [|t2 ts].
  - simpl. rewrite <- (app_nil_r t). rewrite (spaced_token _ _ _ Ht).
    reflexivity.
  - change (join [32] (t :: t2 :: ts))
      with (t ++ [32] ++ join [32] (t2 :: ts)).
    rewrite (spaced_token _ _ _ Ht). simpl app.
    change (spaced false (32 :: join [32] (t2 :: ts)))
      with (spaced true (join [32] (t2 :: ts))).
    apply IH. discriminate.
Qed.

Lemma spaced_only_space (p : bool) (s : str) (c : N) :
  spaced p s = true -> c ∈ s -> isspace c = true -> c = 32.
Proof.
  revert p. induction s as [|x s IH]; intros p Hs Hin Hc.
  - inversion Hin.
  - simpl in Hs. destruct (isspace x) eqn:Hx.
    + apply andb_prop in Hs as [Hs Hs2]. apply andb_prop in Hs as [Hs _].
      apply elem_of_cons in Hin as [->|Hin].
      * apply N.eqb_eq, Hs.
      * eapply IH; eassumption.
    + apply elem_of_cons in Hin as [->|Hin]; [congruence|].
      eapply IH; eassumption.
Qed.

Lemma spaced_no_run (p : bool) (s a b : str) :
  spaced p s = true -> s <> a ++ [32; 32] ++ b.
Proof.
  intros Hs ->. revert p Hs. induction a as [|x a IH]; intros p Hs.
  - simpl in Hs. rewrite !andb_false_r in Hs. discriminate.
  - simpl in Hs. destruct (isspace x).
    + apply andb_prop in Hs as [_ Hs]. exact (IH _ Hs).
    + exact (IH _ Hs).
Qed.

Lemma spaced_head (s : str) (c : N) :
  spaced true s = true -> head s = Some c -> isspace c = false.
Proof.
  destruct s as [|x s]; [discriminate|]. simpl. intros Hs [= ->].
  destruct (isspace c); [|reflexivity].
  rewrite andb_false_r in Hs. discriminate.
Qed.

Lemma spaced_last (p : bool) (s : str) (c : N) :
  spaced p s = true -> last s = Some c -> isspace c = false.
Proof.
  revert p. induction s as [|x s IH]; intros p Hs Hl; [discriminate|].
  destruct s as [|y s].
  - simpl in Hl. injection Hl as ->. simpl in Hs.
    destruct (isspace c); [|reflexivity].
    rewrite andb_false_r in Hs. discriminate.
  - change (last (x :: y :: s)) with (last (y :: s)) in Hl.
    rewrite spaced_cons in Hs. destruct (isspace x).
    + apply andb_prop in Hs as [_ Hs]. exact (IH _ Hs Hl).
    + exact (IH _ Hs Hl).
Qed.

Lemma spaced_single_line (s : str) : spaced true s = true -> single_line s.
Proof.
  intros Hs. repeat split.
  - intros Hin. pose proof (spaced_only_space _ _ _ Hs Hin eq_refl). discriminate.
  - intros Hin. pose proof (spaced_only_space _ _ _ Hs Hin eq_refl). discriminate.
  - intros a b. apply (spaced_no_run _ _ _ _ Hs).
  - intros c. apply spaced_head, Hs.
  - intros c. apply (spaced_last _ _ _ Hs).
Qed.

Lemma nil_single_line : single_line [].
Proof.
  split; [apply not_elem_of_nil|]. split; [apply not_elem_of_nil|].
  split; [intros a b E; destruct a; discriminate|].
  split; intros c; discriminate.
Qed.

(** The last line of the normalisation gives a string on one line,
    whatever the text. *)
Lemma normalize_single_line (s : str) :
  single_line (strip (join (u " ") (split_ws s))).
Proof.
  change (u " ") with [32].
  destruct (split_ws s) as [|t ts] eqn:E.
  - apply nil_single_line.
  - assert (Hs : spaced true (join [32] (t :: ts)) = true).
    { apply spaced_join; [|discriminate]. rewrite <- E. apply split_ws_tokens. }
    pose proof (spaced_single_line _ Hs) as Hl.
    rewrite strip_id; [exact Hl| |]; apply Hl.
Qed.

End StringFacts.

(** ** [int(str(n))] *)

Section IntFacts.
Context (L : pylib).

Lemma digits_of_uint_ascii (d : Decimal.uint) :
  Forall (fun c => ascii_digit c = true) (digits_of_uint d).
Proof. induction d; constructor; try reflexivity; assumption. Qed.

Lemma int_digits_acc (d : Decimal.uint) (p : positive) :
  int_digits L (Npos p) true (digits_of_uint d) =
  Some (Npos (Pos.of_uint_acc d p)).
Proof.
  revert p. induction d as [|d IH|d IH|d IH|d IH|d IH|d IH|d IH|d IH|d IH|d IH];
    intros p; [reflexivity|..]; cbn [digits_of_uint int_digits].
  all: match goal with
       | |- context [decimal_value L ?c] =>
           change (decimal_value L c) with (Some (c - 48));
           change (c =? 95) with false; cbv iota
       end.
  all: cbn [Pos.of_uint_acc]; rewrite <- IH; f_equal; lia.
Qed.

Lemma int_digits_zero (d : Decimal.uint) :
  int_digits L 0 true (digits_of_uint d) = Some (Pos.of_uint d).
Proof.
  induction d as [|d IH|d IH|d IH|d IH|d IH|d IH|d IH|d IH|d IH|d IH];
    [reflexivity|exact IH|..]; cbn [digits_of_uint int_digits].
  all: match goal with
       | |- context [decimal_value L ?c] =>
           change (decimal_value L c) with (Some (c - 48));
           change (c =? 95) with false; cbv iota
       end.
  all: cbn [Pos.of_uint]; rewrite <- int_digits_acc; reflexivity.
Qed.

Lemma int_digits_start (s : str) (c : N) :
  ascii_digit c = true ->
  int_digits L 0 false (c :: s) = int_digits L 0 true (c :: s).
Proof.
  intros Hc. cbn [int_digits].
  destruct (c =? 95) eqn:E; [|reflexivity].
  apply N.eqb_eq in E. subst c. discriminate.
Qed.

Lemma ascii_digit_no_space (c : N) : ascii_digit c = true -> int_space c = false.
Proof.
  unfold ascii_digit, int_space. intros H.
  apply andb_prop in H as [H1 H2].
  apply N.leb_le in H1, H2.
  destruct (c <? 127) eqn:E; [|apply N.ltb_ge in E; lia].
  apply orb_false_iff. split.
  - apply andb_false_iff. right. apply N.leb_gt. lia.
  - apply N.eqb_neq. lia.
Qed.

Lemma lskip_id (s : str) :
  (forall c, head s = Some c -> int_space c = false) -> lskip s = s.
Proof.
  destruct s as [|c s]; [reflexivity|].
  intros H. simpl. rewrite (H c); reflexivity.
Qed.

(** [int()] reads a string of ASCII digits as [int_digits] does. *)
Lemma py_int_ascii_digits (s : str) :
  s <> [] -> Forall (fun c => ascii_digit c = true) s ->
  py_int L s = Z.of_N <$> int_digits L 0 true s.
Proof.
  intros Hne Hall. unfold py_int.
  assert (Hin : forall c, c ∈ s -> int_space c = false).
  { intros c Hc. apply ascii_digit_no_space.
    rewrite Forall_forall in Hall. apply Hall, Hc. }
  rewrite (lskip_id s).
  2:{ intros c Hc. apply Hin. destruct s; [discriminate|].
      injection Hc as ->. left. }
  rewrite lskip_id, rev_involutive.
  2:{ intros c Hc. apply Hin. apply list_elem_of_In, in_rev, list_elem_of_In.
      destruct (rev s); [discriminate|]. injection Hc as ->. left. }
  destruct s as [|c s]; [congruence|].
  inversion Hall as [|? ? Hc _]; subst.
  assert ((c =? 43) = false) as ->.
  { apply N.eqb_neq. intros ->. discriminate. }
  assert ((c =? 45) = false) as ->.
  { apply N.eqb_neq. intros ->. discriminate. }
  rewrite (int_digits_start _ _ Hc). reflexivity.
Qed.

Lemma to_uint_not_Nil (n : N) : N.to_uint n <> Decimal.Nil.
Proof.
  intros E. pose proof (DecimalN.Unsigned.of_to n) as H.
  rewrite E in H. simpl in H. subst n. discriminate.
Qed.

Lemma digits_of_uint_nil (d : Decimal.uint) :
  digits_of_uint d = [] -> d = Decimal.Nil.
Proof. destruct d; [reflexivity|discriminate..]. Qed.

Lemma py_int_str_of_N (n : N) : py_int L (str_of_N n) = Some (Z.of_N n).
Proof.
  unfold str_of_N. rewrite py_int_ascii_digits.
  - rewrite int_digits_zero. simpl. f_equal. f_equal.
    apply DecimalN.Unsigned.of_to.
  - intros E. apply digits_of_uint_nil in E. exact (to_uint_not_Nil n E).
  - apply digits_of_uint_ascii.
Qed.

(** Reading back what [str] prints gives the number. *)
Lemma py_int_str_of_Z (z : Z) : (0 <= z)%Z -> py_int L (str_of_Z z) = Some z.
Proof.
  intros Hz. unfold str_of_Z.
  destruct (z <? 0)%Z eqn:E; [apply Z.ltb_lt in E; lia|].
  rewrite py_int_str_of_N. f_equal. lia.
Qed.

Lemma int_digit_count_le (s : str) :
  (int_digit_count L s <= Z.of_nat (List.length s))%Z.
Proof.
  unfold int_digit_count. apply inj_le.
  induction s as [|c s IH]; [reflexivity|]. simpl.
  destruct (bool_decide _); simpl; lia.
Qed.

(** On a literal within the limit [int] with the limit is [int]
    without it. *)
Lemma py_int_limited_short (s : str) :
  (Z.of_nat (List.length s) <= int_max_str_digits)%Z ->
  py_int_limited L s = py_int L s.
Proof.
  intros H. unfold py_int_limited.
  pose proof (int_digit_count_le s) as Hle.
  destruct (int_digit_count L s <=? int_max_str_digits)%Z eqn:E;
    [reflexivity|]. apply Z.leb_gt in E. lia.
Qed.

End IntFacts.

(** ** Facts about the document tree *)

Section TreeFacts.
Import Fetch.

Lemma node_rect' (P : node -> Prop) :
  (forall name cls ch, Forall P ch -> P (Tag name cls ch)) ->
  (forall plain s, P (NavigableString plain s)) ->
  forall n, P n.
Proof.
  intros HT HS. fix IH 1. intros [name cls ch|plain s]; [apply HT|apply HS].
  induction ch as [|c ch IHch]; constructor; [apply IH|exact IHch].
Qed.

Lemma descendants_Tag name cls ch :
  descendants (Tag name cls ch) =
  List.flat_map (fun c => c :: descendants c) ch.
Proof.
  simpl. induction ch as [|c ch IH]; [reflexivity|].
  simpl. rewrite IH. reflexivity.
Qed.

Lemma decompose_all_Tag p name cls ch :
  decompose_all p (Tag name cls ch) =
  Tag name cls
    (List.map (decompose_all p) (List.filter (fun c => negb (p c)) ch)).
Proof.
  simpl. f_equal. induction ch as [|c ch IH]; [reflexivity|].
  simpl. destruct (p c); simpl; rewrite IH; reflexivity.
Qed.

Lemma is_marker_tag_decompose p n :
  is_marker_tag (decompose_all p n) = is_marker_tag n.
Proof. destruct n; reflexivity. Qed.

(** A node that is left after [decompose_all] comes from a node of the
    tree before. *)
Lemma descendants_decompose p n m :
  In m (descendants (decompose_all p n)) ->
  exists m0, In m0 (descendants n) /\ m = decompose_all p m0.
Proof.
  revert m. induction n as [name cls ch IH|plain s] using node_rect';
    intros m Hm; [|destruct Hm].
  rewrite decompose_all_Tag, descendants_Tag in Hm.
  rewrite descendants_Tag.
  apply in_flat_map in Hm as (c' & Hc' & Hm).
  apply in_map_iff in Hc' as (c & <- & Hc).
  apply filter_In in Hc as [Hc _].
  rewrite Forall_forall in IH.
  destruct Hm as [<-|Hm].
  - exists c. split; [|reflexivity].
    apply in_flat_map. exists c. split; [exact Hc|left; reflexivity].
  - destruct (IH c) with (m := m) as (m0 & Hm0 & ->); [|exact Hm|].
    { apply list_elem_of_In, Hc. }
    exists m0. split; [|reflexivity].
    apply in_flat_map. exists c. split; [exact Hc|right; exact Hm0].
Qed.

Lemma no_marker_preprocess container :
  Forall (fun n => is_marker_tag n = false) (descendants container) ->
  Forall (fun n => is_marker_tag n = false) (descendants (preprocess container)).
Proof.
  intros H. apply List.Forall_forall. intros m Hm. unfold preprocess in Hm.
  apply descendants_decompose in Hm as (m1 & Hm1 & ->).
  apply descendants_decompose in Hm1 as (m0 & Hm0 & ->).
  rewrite !is_marker_tag_decompose.
  rewrite List.Forall_forall in H. apply H, Hm0.
Qed.

Lemma find_container_None doc :
  find_container doc = None <->
  Forall (fun n => is_container n = false) (all_nodes doc).
Proof.
  unfold find_container. split.
  - intros H. apply List.Forall_forall. intros n Hn.
    exact (find_none _ _ H n Hn).
  - intros H. destruct (find is_container (all_nodes doc)) as [c|] eqn:E;
      [|reflexivity].
    apply find_some in E as [Hin Hc].
    rewrite List.Forall_forall in H. rewrite (H c Hin) in Hc. discriminate.
Qed.

End TreeFacts.

(** ** Facts about the traversal *)

Section TraversalFacts.
Import Fetch.
Context (L : pylib).

Lemma bind_Ok {A B} (a : A) (f : A -> result B) : (Ok a ≫= f) = f a.
Proof. reflexivity. Qed.

Lemma bind_Raise {A B} (e : exn) (f : A -> result B) : (Raise e ≫= f) = Raise e.
Proof. reflexivity. Qed.

Lemma bind_inv {A B} (m : result A) (f : A -> result B) (b : B) :
  (m ≫= f) = Ok b -> exists a, m = Ok a /\ f a = Ok b.
Proof. destruct m as [a|e]; [eauto|discriminate]. Qed.

Lemma marker_is_marker_tag n num :
  marker L n = Some num -> is_marker_tag n = true.
Proof.
  unfold marker, is_marker_tag.
  destruct (has_name (u "sup") n && has_class (u "versenum") n);
    [reflexivity|].
  destruct (has_name (u "span") n && has_class (u "chapternum") n);
    [reflexivity|discriminate].
Qed.

Lemma marker_isdigit n num : marker L n = Some num -> isdigit L num = true.
Proof.
  unfold marker.
  destruct (has_name (u "sup") n && has_class (u "versenum") n).
  - destruct (true && truthy (Some (get_text n)) && isdigit L (get_text n)) eqn:E;
      [|discriminate].
    intros [= <-]. apply andb_prop in E as [_ E]. exact E.
  - destruct (has_name (u "span") n && has_class (u "chapternum") n);
      [|discriminate].
    destruct (isdigit L (get_text n)); [|discriminate].
    destruct (true && truthy (Some (u "1")) && isdigit L (u "1")) eqn:E;
      [|discriminate].
    intros [= <-]. apply andb_prop in E as [_ E]. exact E.
Qed.

Lemma truthy_Some (o : option str) :
  truthy o = true -> exists k, o = Some k /\ k <> [].
Proof. destruct o as [[|c k]|]; try discriminate. eauto. Qed.

(** One step keeps the two invariants and does not raise. *)
Lemma step_invariant st n :
  current_has_entry st -> keys_are_digits L st ->
  exists st', step L st n = Ok st'
              /\ current_has_entry st' /\ keys_are_digits L st'.
Proof.
  intros Hcur Hkeys. destruct n as [name cls ch|plain s]; unfold step.
  - destruct (marker L (Tag name cls ch)) as [num|] eqn:Hm.
    + eexists. split; [reflexivity|]. split.
      * intros k [= <-]. simpl.
        destruct (verses_data st !! num) as [p|] eqn:E; [rewrite E; eauto|].
        rewrite lookup_insert_eq. eauto.
      * intros k. simpl.
        destruct (verses_data st !! num) as [p|] eqn:E; [apply Hkeys|].
        rewrite lookup_insert. case_decide as Hk; [|apply Hkeys].
        subst k. intros _. exact (marker_isdigit _ _ Hm).
    + destruct (has_name (u "br") (Tag name cls ch)
                && truthy (current_verse_num st)) eqn:Hb.
      * apply andb_prop in Hb as [_ Hb].
        apply truthy_Some in Hb as (cur & Hc & _). rewrite Hc. simpl default.
        destruct (Hcur cur Hc) as [parts Hp].
        unfold getitem. rewrite Hp, !bind_Ok.
        assert (Hcur1 : is_Some
          ((if bool_decide (parts = [])
               || negb (str_eqb (List.last parts []) nl)
            then <[cur := parts ++ [nl]]> (verses_data st)
            else verses_data st) !! cur)).
        { destruct (_ || _); [rewrite lookup_insert_eq|]; eauto. }
        assert (Hkeys1 : forall k, is_Some
          ((if bool_decide (parts = [])
               || negb (str_eqb (List.last parts []) nl)
            then <[cur := parts ++ [nl]]> (verses_data st)
            else verses_data st) !! k) -> isdigit L k = true).
        { intros k. destruct (_ || _); [|apply Hkeys].
          rewrite lookup_insert. case_decide as Hk; [|apply Hkeys].
          subst k. intros _. apply Hkeys. eauto. }
        destruct (has_name (u "span") _ && _); eexists;
          (split; [reflexivity|]); split;
          try exact Hkeys1; intros k [= <-]; exact Hcur1.
      * rewrite bind_Ok.
        destruct (has_name (u "span") _ && _); eexists; (split; [reflexivity|]); split;
          assumption.
  - destruct (truthy (current_verse_num st)) eqn:Ht; [|eauto].
    apply truthy_Some in Ht as (cur & Hc & _). rewrite Hc. simpl.
    destruct (_ && _).
    + eexists. split; [reflexivity|]. split; [|exact Hkeys].
      intros k Hk. simpl in *. apply Hcur. congruence.
    + destruct (Hcur cur Hc) as [parts Hp].
      unfold getitem. rewrite Hp, bind_Ok.
      eexists. split; [reflexivity|]. split.
      * intros k Hk. simpl in Hk |- *. try rewrite Hc in Hk. injection Hk as <-.
        rewrite lookup_insert_eq. eauto.
      * intros k. simpl.
        rewrite lookup_insert. case_decide as Hk; [|apply Hkeys].
        subst k. intros _. apply Hkeys. eauto.
Qed.

Lemma traverse_invariant ns st :
  current_has_entry st -> keys_are_digits L st ->
  exists st', traverse L st ns = Ok st'
              /\ current_has_entry st' /\ keys_are_digits L st'.
Proof.
  revert st. induction ns as [|n ns IH]; intros st Hcur Hkeys; [eauto|].
  destruct (step_invariant st n Hcur Hkeys) as (st1 & Hst & Hcur1 & Hkeys1).
  simpl. rewrite Hst, bind_Ok. apply IH; assumption.
Qed.

(** The loop over the descendants always reaches its end: no lookup
    of an accumulator fails. *)
Lemma scan_returns container :
  exists st, scan L container = Ok st
             /\ current_has_entry st /\ keys_are_digits L st.
Proof.
  apply traverse_invariant.
  - intros k Hk. discriminate.
  - intros k [x Hx]. simpl in Hx. rewrite lookup_empty in Hx. discriminate.
Qed.

(** Without a marker tag nothing is accumulated. *)
Lemma step_no_marker st n :
  is_marker_tag n = false -> current_verse_num st = None ->
  exists st', step L st n = Ok st'
              /\ verses_data st' = verses_data st
              /\ current_verse_num st' = None.
Proof.
  intros Hn Hc. destruct n as [name cls ch|plain s]; unfold step.
  - destruct (marker L (Tag name cls ch)) as [num|] eqn:Hm.
    { apply marker_is_marker_tag in Hm. congruence. }
    rewrite Hc. simpl truthy. rewrite andb_false_r, bind_Ok.
    destruct (_ && _); eauto.
  - rewrite Hc. simpl. eauto.
Qed.

Lemma traverse_no_marker ns st :
  Forall (fun n => is_marker_tag n = false) ns ->
  current_verse_num st = None ->
  exists st', traverse L st ns = Ok st'
              /\ verses_data st' = verses_data st.
Proof.
  intros H. revert st. induction H as [|n ns Hn _ IH]; intros st Hc; [eauto|].
  destruct (step_no_marker st n Hn Hc) as (st1 & Hst & Hd & Hc1).
  simpl. rewrite Hst, bind_Ok.
  destruct (IH st1 Hc1) as (st' & -> & Hd'). exists st'. split; congruence.
Qed.

End TraversalFacts.

(** ** Facts about the output loop *)

Section OutputFacts.
Import Fetch.
Context (L : pylib).

Lemma ints_inv ks zs :
  ints L ks = Ok zs -> Forall2 (fun k z => py_int L k = Some z) ks zs.
Proof.
  revert zs. induction ks as [|k ks IH]; intros zs H; simpl in H.
  - injection H as <-. constructor.
  - destruct (py_int L k) as [z|] eqn:E; [|discriminate].
    apply bind_inv in H as (zs' & Hzs & [= <-]).
    constructor; [exact E|apply IH, Hzs].
Qed.

Lemma ints_returns ks :
  Forall (fun k => is_Some (py_int L k)) ks -> exists zs, ints L ks = Ok zs.
Proof.
  induction 1 as [|k ks [z Hz] _ [zs IH]]; [eexists; reflexivity|].
  simpl. rewrite Hz, IH. eexists. reflexivity.
Qed.

Lemma fold_max_spec (xs : list Z) (x : Z) :
  (List.fold_left Z.max xs x = x \/ List.fold_left Z.max xs x ∈ xs)
  /\ (x <= List.fold_left Z.max xs x)%Z
  /\ Forall (fun y => (y <= List.fold_left Z.max xs x)%Z) xs.
Proof.
  revert x. induction xs as [|y xs IH]; intros x; simpl.
  - split; [left; reflexivity|]. split; [lia|constructor].
  - destruct (IH (Z.max x y)) as (Hin & Hle & Hall). split; [|split].
    + destruct Hin as [Hin|Hin]; [|right; right; exact Hin].
      rewrite Hin. destruct (Z.max_spec x y) as [[_ ->]|[_ ->]];
        [right; left|left; reflexivity].
    + lia.
    + constructor; [lia|exact Hall].
Qed.

Lemma py_max_spec (xs : list Z) (m : Z) :
  py_max xs = Ok m -> m ∈ xs /\ Forall (fun y => (y <= m)%Z) xs.
Proof.
  destruct xs as [|x xs]; [discriminate|]. intros [= <-].
  destruct (fold_max_spec xs x) as (Hin & Hle & Hall). split.
  - destruct Hin as [->|Hin]; [left|right; exact Hin].
  - constructor; assumption.
Qed.

Lemma keys_spec (data : gmap str (list str)) (k : str) :
  k ∈ (fst <$> map_to_list data) <-> is_Some (data !! k).
Proof.
  rewrite list_elem_of_fmap. split.
  - intros ([k' x] & -> & Hx). apply elem_of_map_to_list in Hx. eauto.
  - intros [x Hx]. exists (k, x). split; [reflexivity|].
    apply elem_of_map_to_list, Hx.
Qed.

(** What the output loop returns, when it returns. *)
Lemma format_output_spec (data : gmap str (list str)) vs :
  format_output L data = Ok vs ->
  exists max_verse,
    (data = ∅ /\ max_verse = 0%Z \/ max_observed L data max_verse)
    /\ vs = format_verse L data <$> seqZ 1 max_verse.
Proof.
  unfold format_output. case_bool_decide as Hd.
  - intros [= <-]. exists 0%Z. split; [left; split; trivial|reflexivity].
  - intros H. apply bind_inv in H as (zs & Hzs & H).
    apply bind_inv in H as (m & Hm & [= <-]).
    exists m. split; [right|reflexivity].
    apply ints_inv in Hzs. apply py_max_spec in Hm as [Hin Hall]. split.
    + intros k Hk. apply keys_spec, list_elem_of_lookup in Hk as [i Hi].
      destruct (Forall2_lookup_l _ _ _ _ _ Hzs Hi) as (z & Hz & Hkz).
      exists z. split; [exact Hkz|].
      rewrite Forall_forall in Hall. apply Hall.
      apply list_elem_of_lookup. eauto.
    + apply list_elem_of_lookup in Hin as [i Hi].
      destruct (Forall2_lookup_r _ _ _ _ _ Hzs Hi) as (k & Hk & Hkz).
      exists k. split; [|exact Hkz].
      apply keys_spec, list_elem_of_lookup. eauto.
Qed.

(** The output loop returns whenever [int] accepts every key. *)
Lemma format_output_returns (data : gmap str (list str)) :
  (forall k, is_Some (data !! k) -> is_Some (py_int L k)) ->
  exists vs, format_output L data = Ok vs.
Proof.
  intros H. unfold format_output. case_bool_decide as Hd; [eauto|].
  destruct (ints_returns (fst <$> map_to_list data)) as [zs Hzs].
  { apply Forall_forall. intros k Hk. apply H, keys_spec, Hk. }
  rewrite Hzs, bind_Ok. destruct zs as [|z zs].
  - apply ints_inv, Forall2_length in Hzs.
    rewrite length_fmap in Hzs.
    destruct (map_to_list data) eqn:E; [|discriminate].
    apply map_to_list_empty_iff in E. contradiction.
  - simpl. eauto.
Qed.

(** It raises when [int] rejects a key. *)
Lemma format_output_raises (data : gmap str (list str)) k :
  is_Some (data !! k) -> py_int L k = None ->
  format_output L data =
  Raise (ValueError "invalid literal for int() with base 10").
Proof.
  intros Hk Hint. unfold format_output. case_bool_decide as Hd.
  { subst data. destruct Hk as [x Hx]. rewrite lookup_empty in Hx. discriminate. }
  apply keys_spec in Hk. revert Hk.
  generalize (fst <$> map_to_list data). intros ks Hk.
  assert (E : ints L ks = Raise (ValueError "invalid literal for int() with base 10")).
  { induction ks as [|k' ks IH]; [inversion Hk|]. simpl.
    destruct (py_int L k') as [z|] eqn:E; [|reflexivity].
    apply elem_of_cons in Hk as [->|Hk]; [congruence|].
    rewrite (IH Hk). reflexivity. }
  rewrite E. reflexivity.
Qed.

Lemma format_verse_empty (data : gmap str (list str)) (i : Z) :
  List.concat (default [] (data !! str_of_Z i)) = [] ->
  text (format_verse L data i) = []
  /\ readableText (format_verse L data i) = [].
Proof.
  intros H. unfold format_verse. simpl. rewrite H, unescape_empty.
  split; reflexivity.
Qed.

End OutputFacts.

(** ** The Extractor *)

Section ExtractorClaims.
Import Fetch.
Context (L : pylib).

Lemma parse_chapter_html_inv doc book_code version chap r :
  parse_chapter_html L doc book_code version chap = Ok r ->
  exists container st,
    find_container doc = Some container /\ scan L container = Ok st
    /\ format_output L (verses_data st) = Ok (verses r).
Proof.
  unfold parse_chapter_html.
  destruct (find_container doc) as [container|]; [|discriminate].
  intros H. apply bind_inv in H as (st & Hst & H).
  apply bind_inv in H as (vs & Hvs & [= <-]).
  exists container, st. auto.
Qed.

(** The Extractor returns whenever the container is there and [int]
    accepts every verse number that was read. *)
Lemma parse_chapter_html_returns doc book_code version chap container st :
  find_container doc = Some container -> scan L container = Ok st ->
  (forall k, is_Some (verses_data st !! k) -> is_Some (py_int L k)) ->
  exists r, parse_chapter_html L doc book_code version chap = Ok r.
Proof.
  intros Hc Hst Hk. unfold parse_chapter_html. rewrite Hc, Hst, bind_Ok.
  destruct (format_output_returns L _ Hk) as [vs ->]. eexists. reflexivity.
Qed.

(** C1: the verse records the Extractor returns carry the numbers 1, 2,
    ..., max in this order, max being the greatest verse number among
    the markers read (0 when there was none); a number for which nothing
    was accumulated has a record with empty text. *)
Theorem C1_verse_numbers_dense doc book_code version chap r :
  parse_chapter_html L doc book_code version chap = Ok r ->
  exists container st max_verse,
    find_container doc = Some container /\ scan L container = Ok st
    /\ (verses_data st = ∅ /\ max_verse = 0%Z
        \/ max_observed L (verses_data st) max_verse)
    /\ Forall2 (fun v i => verse v = str_of_Z i /\ py_int L (verse v) = Some i)
         (verses r) (seqZ 1 max_verse)
    /\ (forall v, v ∈ verses r ->
          List.concat (default [] (verses_data st !! verse v)) = [] ->
          text v = [] /\ readableText v = []).
Proof.
  intros H. apply parse_chapter_html_inv in H as (container & st & Hc & Hst & Hvs).
  apply format_output_spec in Hvs as (m & Hm & Hvs).
  exists container, st, m. repeat (split; [assumption|]). rewrite Hvs. split.
  - apply Forall2_fmap_l, Forall_Forall2_diag, Forall_seqZ.
    intros i Hi. simpl. split; [reflexivity|].
    apply py_int_str_of_Z. lia.
  - intros v Hv Hempty. apply list_elem_of_fmap in Hv as (i & -> & _).
    apply format_verse_empty. exact Hempty.
Qed.

(** C9: the readable text of every verse record the Extractor returns
    has no newline, no tab, no two spaces in a row and no white space at
    either end. *)
Theorem C9_readable_text_single_line doc book_code version chap r :
  parse_chapter_html L doc book_code version chap = Ok r ->
  Forall (fun v => single_line (readableText v)) (verses r).
Proof.
  intros H. apply parse_chapter_html_inv in H as (container & st & _ & _ & Hvs).
  apply format_output_spec in Hvs as (m & _ & ->).
  apply Forall_fmap, Forall_forall. intros i _. simpl.
  apply normalize_single_line.
Qed.

(** With the container there, the Extractor raises only where the
    output loop calls [int] on a key that [int] rejects. *)
Lemma parse_chapter_html_raises doc book_code version chap container st k :
  find_container doc = Some container -> scan L container = Ok st ->
  is_Some (verses_data st !! k) -> py_int L k = None ->
  parse_chapter_html L doc book_code version chap =
  Raise (ValueError "invalid literal for int() with base 10").
Proof.
  intros Hc Hst Hk Hint. unfold parse_chapter_html. rewrite Hc, Hst, bind_Ok.
  rewrite (format_output_raises L _ k Hk Hint). reflexivity.
Qed.

Lemma ints_raise_inv ks e :
  ints L ks = Raise e ->
  e = ValueError "invalid literal for int() with base 10".
Proof.
  induction ks as [|k ks IH]; [discriminate|]. simpl.
  destruct (py_int L k); [|congruence].
  destruct (ints L ks); [discriminate|]. intros [= <-]. apply IH. reflexivity.
Qed.

Lemma format_output_raise_inv data e :
  format_output L data = Raise e ->
  e = ValueError "invalid literal for int() with base 10"
  \/ e = ValueError "max() arg is an empty sequence".
Proof.
  unfold format_output. case_bool_decide; [discriminate|].
  destruct (ints L (fst <$> map_to_list data)) as [zs|e'] eqn:E.
  - rewrite bind_Ok. destruct zs; simpl; [|discriminate].
    intros [= <-]. right. reflexivity.
  - intros [= <-]. left. exact (ints_raise_inv _ _ E).
Qed.

End ExtractorClaims.

(** The specification's scenario and the page with a gap. *)
Example genesis_1_parsed :
  Fetch.parse_chapter_html frag Samples.genesis_1 (u "gen") (u "NIV") 1 =
  Ok {| Fetch.book := u "GEN"; Fetch.rev := u "NIV"; Fetch.chapter := u "1";
        Fetch.verses :=
          [ {| Fetch.verse := u "1"; Fetch.text := u "In the beginning...";
               Fetch.readableText := u "In the beginning..." |};
            {| Fetch.verse := u "2"; Fetch.text := u "the earth was formless";
               Fetch.readableText := u "the earth was formless" |} ] |}.
Proof. vm_compute. reflexivity. Qed.

Lemma gap_page_parsed :
  Fetch.parse_chapter_html frag Samples.gap_page (u "gen") (u "NIV") 1 =
  Ok Samples.gap_parsed.
Proof. vm_compute. reflexivity. Defined.

Lemma C1_witness :
  Fetch.parse_chapter_html frag Samples.gap_page (u "gen") (u "NIV") 1 =
  Ok Samples.gap_parsed
  /\ exists container st max_verse,
       Fetch.find_container Samples.gap_page = Some container
       /\ Fetch.scan frag container = Ok st
       /\ (Fetch.verses_data st = ∅ /\ max_verse = 0%Z
           \/ max_observed frag (Fetch.verses_data st) max_verse)
       /\ Forall2 (fun v i => Fetch.verse v = str_of_Z i
                              /\ py_int frag (Fetch.verse v) = Some i)
            (Fetch.verses Samples.gap_parsed) (seqZ 1 max_verse)
       /\ (forall v, v ∈ Fetch.verses Samples.gap_parsed ->
             List.concat (default [] (Fetch.verses_data st !! Fetch.verse v)) = [] ->
             Fetch.text v = [] /\ Fetch.readableText v = []).
Proof.
  split; [exact gap_page_parsed|].
  exact (C1_verse_numbers_dense frag Samples.gap_page (u "gen") (u "NIV") 1
           Samples.gap_parsed gap_page_parsed).
Defined.

Lemma C9_witness :
  Fetch.parse_chapter_html frag Samples.gap_page (u "gen") (u "NIV") 1 =
  Ok Samples.gap_parsed
  /\ Forall (fun v => single_line (Fetch.readableText v))
       (Fetch.verses Samples.gap_parsed).
Proof.
  split; [exact gap_page_parsed|].
  exact (C9_readable_text_single_line frag Samples.gap_page (u "gen") (u "NIV") 1
           Samples.gap_parsed gap_page_parsed).
Defined.

(** C2: on the page of chapter 3 the label of the chapter-number marker
    is not suppressed: the marker starts verse 1, the label reads 3, and
    the text of verse 1 begins with it. *)
Theorem C2_chapter_label_in_verse_text :
  Fetch.parse_chapter_html frag Samples.genesis_3 (u "gen") (u "NIV") 3 =
  Ok {| Fetch.book := u "GEN"; Fetch.rev := u "NIV"; Fetch.chapter := u "3";
        Fetch.verses :=
          [ {| Fetch.verse := u "1";
               Fetch.text := u "3" ++ [160] ++ u "Now the serpent was more crafty";
               Fetch.readableText := u "3 Now the serpent was more crafty" |};
            {| Fetch.verse := u "2";
               Fetch.text := u "The woman said to the serpent";
               Fetch.readableText := u "The woman said to the serpent" |} ] |}.
Proof. vm_compute. reflexivity. Qed.

(** C10: with the container there, a verse marker whose label is the
    superscript two passes [isdigit] and is rejected by [int]: the
    Extractor raises. *)
Theorem C10_superscript_marker_raises :
  isdigit frag (u "²") = true
  /\ py_int frag (u "²") = None
  /\ is_Some (Fetch.find_container Samples.superscript_page)
  /\ Fetch.parse_chapter_html frag Samples.superscript_page (u "gen") (u "NIV") 1 =
     Raise (ValueError "invalid literal for int() with base 10").
Proof. repeat split; try (vm_compute; reflexivity). vm_compute. eauto. Qed.

(** ** The range resolver *)

Section ResolverClaims.
Import Fetch.
Context (L : pylib).

Lemma split_on_aux_no_sep (sep : N) (s cur : str) :
  contains sep s = false -> split_on_aux sep cur s = [List.rev cur ++ s].
Proof.
  revert cur. induction s as [|c s IH]; intros cur H; simpl.
  - rewrite app_nil_r. reflexivity.
  - simpl in H. apply orb_false_iff in H as [Hc Hs].
    rewrite N.eqb_sym, Hc, (IH _ Hs). simpl. rewrite <- app_assoc. reflexivity.
Qed.

Lemma split_on_no_sep (sep : N) (s : str) :
  contains sep s = false -> split_on sep s = [s].
Proof. apply split_on_aux_no_sep. Qed.

(** A range whose ends are the wrong way round adds nothing. *)
Lemma part_values_reversed (part pa pb : str) (a b : Z) :
  split_on 45 (strip part) = [pa; pb] ->
  py_int L pa = Some a -> py_int L pb = Some b -> (a > b)%Z ->
  fst (part_values L part) = [].
Proof.
  intros Hs Ha Hb Hab. unfold part_values. case_bool_decide; [reflexivity|].
  destruct (contains 45 (strip part)) eqn:Hc.
  - rewrite Hs. simpl. rewrite Ha, Hb.
    destruct (a <=? b)%Z eqn:E; [apply Z.leb_le in E; lia|reflexivity].
  - rewrite (split_on_no_sep _ _ Hc) in Hs. discriminate.
Qed.

Lemma parse_range_all (arg : str) (max_chaps : Z) :
  lower L arg = u "all" ->
  parse_range L arg max_chaps = (seqZ 1 max_chaps, []).
Proof.
  intros H. unfold parse_range, str_eqb. rewrite H.
  rewrite bool_decide_eq_true_2; reflexivity.
Qed.

Lemma parse_range_in_book (arg : str) (max_chaps : Z) :
  Forall (fun n => (1 <= n <= max_chaps)%Z) (fst (parse_range L arg max_chaps)).
Proof.
  unfold parse_range. destruct (str_eqb (lower L arg) (u "all")); simpl.
  - apply Forall_seqZ. intros n Hn. lia.
  - apply List.Forall_forall. intros n Hn. apply filter_In in Hn as [_ Hn].
    unfold in_book in Hn. apply andb_prop in Hn as [H1 H2].
    apply Z.leb_le in H1, H2. lia.
Qed.

(** The spellings of the word in the two letter cases. *)
Lemma all_any_case (c1 c2 c3 : N) :
  c1 ∈ [97; 65] -> c2 ∈ [108; 76] -> c3 ∈ [108; 76] ->
  lower L [c1; c2; c3] = u "all".
Proof.
  rewrite !elem_of_cons, !elem_of_nil.
  intros [->|[->|[]]] [->|[->|[]]] [->|[->|[]]]; reflexivity.
Qed.

(** C6: [parse_range] on the word all, in any letter case, gives
    [1 .. max_chaps]; every number it gives lies in [1 .. max_chaps];
    a range with a > b adds nothing; and "1-3,5" with 4 chapters gives
    [1, 2, 3]. *)
Theorem C6_parse_range (max_chaps : Z) :
  (forall c1 c2 c3, c1 ∈ [97; 65] -> c2 ∈ [108; 76] -> c3 ∈ [108; 76] ->
     fst (parse_range L [c1; c2; c3] max_chaps) = seqZ 1 max_chaps)
  /\ (forall arg, lower L arg = u "all" ->
        fst (parse_range L arg max_chaps) = seqZ 1 max_chaps)
  /\ (forall arg,
        Forall (fun n => (1 <= n <= max_chaps)%Z)
          (fst (parse_range L arg max_chaps)))
  /\ (forall part pa pb a b,
        split_on 45 (strip part) = [pa; pb] ->
        py_int L pa = Some a -> py_int L pb = Some b -> (a > b)%Z ->
        fst (part_values L part) = [])
  /\ fst (parse_range L (u "1-3,5") 4) = [1; 2; 3]%Z.
Proof.
  split; [|split; [|split; [|split]]].
  - intros c1 c2 c3 H1 H2 H3.
    rewrite (parse_range_all _ _ (all_any_case c1 c2 c3 H1 H2 H3)). reflexivity.
  - intros arg H. rewrite (parse_range_all _ _ H). reflexivity.
  - intros arg. apply parse_range_in_book.
  - apply part_values_reversed.
  - vm_compute. reflexivity.
Qed.

End ResolverClaims.

Example parse_range_samples :
  Fetch.parse_range frag (u "3-1, x, 2-, 0, 4 , -1, 1-2-3") 4 =
  ([4%Z],
   [Fetch.Invalid_range (u "3-1"); Fetch.Invalid_chapter_number (u "x");
    Fetch.Invalid_range_format (u "2-"); Fetch.Invalid_range_format (u "-1");
    Fetch.Invalid_range_format (u "1-2-3")])
  /\ Fetch.parse_range frag (u "2,1-2,2") 4 = ([2; 1; 2; 2]%Z, []).
Proof. split; vm_compute; reflexivity. Qed.

Lemma C6_witness :
  (lower frag (u "aLL") = u "all"
   /\ fst (Fetch.parse_range frag (u "aLL") 150) = seqZ 1 150)
  /\ (split_on 45 (strip (u " 3-1 ")) = [u "3"; u "1"]
      /\ py_int frag (u "3") = Some 3%Z /\ py_int frag (u "1") = Some 1%Z
      /\ (3 > 1)%Z
      /\ fst (Fetch.part_values frag (u " 3-1 ")) = []).
Proof.
  split.
  - split; [reflexivity|].
    exact (proj1 (proj2 (C6_parse_range frag 150)) (u "aLL") eq_refl).
  - split; [reflexivity|]. split; [reflexivity|]. split; [reflexivity|].
    split; [reflexivity|].
    exact (proj1 (proj2 (proj2 (proj2 (C6_parse_range frag 150))))
             (u " 3-1 ") (u "3") (u "1") 3%Z 1%Z eq_refl eq_refl eq_refl eq_refl).
Defined.

(** ** The orchestrator *)

Section OrchestratorClaims.
Import Fetch.
Context (L : pylib) (W : world).

(** What a task returns tells whether it saved its chapter. *)
Lemma grab_value version book_name book_code c out_dir fs r fs' msgs :
  grab L W version book_name book_code c out_dir fs = Ok (r, fs', msgs) ->
  (r = None /\ fs' = fs
   /\ chapter_saved L W version book_name book_code c = false)
  \/ (r = Some c /\ chapter_saved L W version book_name book_code c = true).
Proof.
  unfold grab, chapter_saved.
  destruct (fetch_html W (chapter_url version book_name c)
            ≫= (fun html_text => parse_chapter_html L html_text book_code version c))
    as [data|e].
  - case_bool_decide as Hv.
    + intros [= <- <- <-]. left. auto.
    + destruct (mkdir W out_dir); [|discriminate]. rewrite bind_Ok.
      destruct (write_text W _); [|discriminate]. rewrite bind_Ok.
      intros [= <- <- <-]. right. auto.
  - destruct e; intros [= <- <- <-]; left; auto.
Qed.

Lemma run_tasks_count version pretty book_code out_dir cl k0 fs log0 k fs' log :
  run_tasks L W version pretty book_code out_dir cl k0 fs log0 = Ok (k, fs', log) ->
  k = (k0 + List.length
              (List.filter (chapter_saved L W version pretty book_code) cl))%nat.
Proof.
  revert k0 fs log0. induction cl as [|c cl IH]; intros k0 fs log0 H; simpl in H.
  - injection H as <- <- <-. simpl. lia.
  - apply bind_inv in H as ([[r fs1] msgs] & Hg & H).
    apply IH in H. simpl.
    apply grab_value in Hg as [(-> & _ & ->)|(-> & ->)]; simpl; lia.
Qed.

(** C5, as amended: [download_book] returns [None] whenever it returns;
    the number of chapters saved is printed and not returned: the last
    message, when it is the one that ends a download, gives the number
    of tasks that saved their chapter and the number of tasks. *)
Theorem C5_download_book_returns_none version book_name book_code order
    chapters dest_root concurrency fs r fs' log :
  download_book L W version book_name book_code order chapters dest_root
    concurrency fs = Ok (r, fs', log) ->
  r = PyNone
  /\ forall pretty k n, last log = Some (Finished pretty k n) ->
       exists max_chaps,
         CHAPS !! book_code = Some max_chaps
         /\ n = List.length (fst (parse_range L chapters max_chaps))
         /\ k = List.length
                  (List.filter (chapter_saved L W (upper L version) pretty book_code)
                     (fst (parse_range L chapters max_chaps))).
Proof.
  unfold download_book.
  destruct (CHAPS !! book_code) as [max_chaps|].
  2:{ intros [= <- <- <-]. split; [reflexivity|]. intros ? ? ? [=]. }
  destruct (parse_range L chapters max_chaps) as [cl warnings] eqn:Hcl.
  case_bool_decide as Hne.
  { intros [= <- <- <-]. split; [reflexivity|].
    intros ? ? ? Hl. rewrite last_snoc in Hl. discriminate. }
  destruct (List.find _ BOOK_INFO) as [[alias ?]|]; [|discriminate].
  rewrite bind_Ok.
  destruct (mkdir W _) as [[]|e].
  2:{ destruct e; intros [=]; subst; (split; [reflexivity|]);
      intros ? ? ? Hl; rewrite last_snoc in Hl; discriminate. }
  destruct (concurrency <? 0)%Z; [discriminate|].
  destruct (concurrency =? 0)%Z; [discriminate|].
  intros H. apply bind_inv in H as ([[k1 fs1] log1] & Hrun & [= <- <- <-]).
  split; [reflexivity|].
  intros pretty k n Hl. rewrite last_snoc in Hl. injection Hl as <- <- <-.
  exists max_chaps. rewrite Hcl. split; [reflexivity|]. split; [reflexivity|].
  apply run_tasks_count in Hrun. simpl. lia.
Qed.

(** C7: the Extractor raises the error for a missing container exactly
    when no node of the page passes the test for the container; with a
    container that holds no marker tag it returns a record without
    verses, and the task that gets this page returns [None] and leaves
    the files as they were. *)
Theorem C7_missing_container_and_empty_chapter doc book_code version chap :
  (parse_chapter_html L doc book_code version chap =
     Raise (ValueError "passage-content not found")
   <-> Forall (fun n => is_container n = false) (all_nodes doc))
  /\ (forall container,
        find_container doc = Some container ->
        Forall (fun n => is_marker_tag n = false) (descendants container) ->
        parse_chapter_html L doc book_code version chap =
          Ok {| book := upper L book_code; rev := version;
                chapter := str_of_Z chap; verses := [] |}
        /\ forall book_name out_dir fs,
             fetch_html W (chapter_url version book_name chap) = Ok doc ->
             grab L W version book_name book_code chap out_dir fs =
               Ok (None, fs, [No_verses_found book_name chap version])).
Proof.
  split.
  - rewrite <- find_container_None. unfold parse_chapter_html. split.
    + destruct (find_container doc) as [container|]; [|reflexivity].
      destruct (scan_returns L container) as (st & -> & _). rewrite bind_Ok.
      destruct (format_output L (verses_data st)) as [vs|e] eqn:E;
        [discriminate|].
      apply format_output_raise_inv in E as [-> | ->]; discriminate.
    + intros ->. reflexivity.
  - intros container Hc Hm.
    assert (Hp : parse_chapter_html L doc book_code version chap =
                 Ok {| book := upper L book_code; rev := version;
                       chapter := str_of_Z chap; verses := [] |}).
    { unfold parse_chapter_html. rewrite Hc.
      apply no_marker_preprocess in Hm.
      destruct (traverse_no_marker L _ init Hm eq_refl) as (st & Hst & Hd).
      unfold scan. rewrite Hst, bind_Ok. rewrite Hd. reflexivity. }
    split; [exact Hp|].
    intros book_name out_dir fs Hf. unfold grab. rewrite Hf, bind_Ok, Hp.
    reflexivity.
Qed.

End OrchestratorClaims.

Lemma philemon_downloaded :
  Fetch.download_book frag Samples.open_world (u "niv") (u "Philemon")
    (u "phm") 57 (u "all") [u "data"] 10 ∅ =
  Ok (Fetch.PyNone, Samples.philemon_files, Samples.philemon_log).
Proof. vm_compute. reflexivity. Defined.

(** C5: [download_book] does not return the count: one chapter is
    saved, the last message counts it, and the value is [None]. *)
Lemma C5_counterexample :
  Fetch.download_book frag Samples.open_world (u "niv") (u "Philemon")
    (u "phm") 57 (u "all") [u "data"] 10 ∅ =
  Ok (Fetch.PyNone, Samples.philemon_files, Samples.philemon_log)
  /\ Samples.philemon_files !! [u "data"; u "NIV"; u "57_phm"; u "phm.001.json"]
     = Some Samples.philemon_record
  /\ last Samples.philemon_log = Some (Fetch.Finished (u "Philemon") 1 1)
  /\ Fetch.PyNone <> Fetch.PyInt 1.
Proof.
  split; [exact philemon_downloaded|]. split; [vm_compute; reflexivity|].
  split; [reflexivity|discriminate].
Qed.

Lemma C5_witness :
  Fetch.download_book frag Samples.open_world (u "niv") (u "Philemon")
    (u "phm") 57 (u "all") [u "data"] 10 ∅ =
  Ok (Fetch.PyNone, Samples.philemon_files, Samples.philemon_log)
  /\ (Fetch.PyNone = Fetch.PyNone
      /\ forall pretty k n,
           last Samples.philemon_log = Some (Fetch.Finished pretty k n) ->
           exists max_chaps,
             Fetch.CHAPS !! u "phm" = Some max_chaps
             /\ n = List.length (fst (Fetch.parse_range frag (u "all") max_chaps))
             /\ k = List.length
                      (List.filter
                         (chapter_saved frag Samples.open_world
                            (upper frag (u "niv")) pretty (u "phm"))
                         (fst (Fetch.parse_range frag (u "all") max_chaps)))).
Proof.
  split; [exact philemon_downloaded|].
  exact (C5_download_book_returns_none frag Samples.open_world (u "niv")
           (u "Philemon") (u "phm") 57 (u "all") [u "data"] 10 ∅
           Fetch.PyNone Samples.philemon_files Samples.philemon_log
           philemon_downloaded).
Defined.

Lemma C7_witness :
  Fetch.find_container Samples.empty_page = Some Samples.empty_container
  /\ Forall (fun n => Fetch.is_marker_tag n = false)
       (Fetch.descendants Samples.empty_container)
  /\ (Fetch.parse_chapter_html frag Samples.empty_page (u "gen") (u "NIV") 51 =
        Ok {| Fetch.book := upper frag (u "gen"); Fetch.rev := u "NIV";
              Fetch.chapter := str_of_Z 51; Fetch.verses := [] |}
      /\ forall book_name out_dir fs,
           Fetch.fetch_html Samples.dead_world
             (Fetch.chapter_url (u "NIV") book_name 51) = Ok Samples.empty_page ->
           Fetch.grab frag Samples.dead_world (u "NIV") book_name (u "gen") 51
             out_dir fs =
           Ok (None, fs, [Fetch.No_verses_found book_name 51 (u "NIV")])).
Proof.
  assert (Hm : Forall (fun n => Fetch.is_marker_tag n = false)
                 (Fetch.descendants Samples.empty_container)).
  { repeat constructor. }
  split; [reflexivity|]. split; [exact Hm|].
  exact (proj2 (C7_missing_container_and_empty_chapter frag Samples.dead_world
                  Samples.empty_page (u "gen") (u "NIV") 51)
           Samples.empty_container eq_refl Hm).
Defined.

(** ** The Aggregator: reading one file *)

Section ReaderClaims.
Import Convert.
Context (L : pylib).

(** The module never binds [sys]: every message raises. *)
Lemma print_stderr_raises m log : print_stderr m log = Raise (NameError "sys").
Proof. reflexivity. Qed.

Lemma clean_text_inv raw t :
  clean_text L raw = Ok t -> exists s, raw = JStr s /\ t = unescape L (strip s).
Proof. destruct raw; try discriminate. intros [= <-]. eauto. Qed.

Lemma subscript_inv x k v :
  subscript x k = Ok v -> exists d, x = JDict d /\ lookup_key k d = Some v.
Proof.
  destruct x as [| | | | |d]; try discriminate. simpl.
  destruct (lookup_key k d) as [v'|] eqn:E; [|discriminate].
  intros [= <-]. eauto.
Qed.

(** C8, as amended: the text of a converted verse is the cleaned
    [readableText] when the element has that field with a true value (a
    string that is not empty), and the cleaned [text] when the field is
    absent or its value is false (empty, [null]). *)
Theorem C8_text_prefers_true_readable_text (v : json) (out : verse_out) :
  convert_verse L v = Ok out ->
  exists d, v = JDict d
    /\ (forall r, lookup_key (u "readableText") d = Some r -> is_true r = true ->
          exists s, r = JStr s /\ s <> [] /\ v_text out = unescape L (strip s))
    /\ ((lookup_key (u "readableText") d = None
         \/ exists r, lookup_key (u "readableText") d = Some r /\ is_true r = false) ->
        exists s, lookup_key (u "text") d = Some (JStr s)
                  /\ v_text out = unescape L (strip s)).
Proof.
  unfold convert_verse. intros H.
  apply bind_inv in H as (n & Hn & H).
  apply bind_inv in H as (t & Ht & [= <-]).
  apply bind_inv in Hn as (x & Hx & _).
  apply subscript_inv in Hx as (d & -> & _).
  exists d. split; [reflexivity|].
  apply bind_inv in Ht as (raw & Hraw & Hc).
  apply clean_text_inv in Hc as (s & -> & ->).
  unfold readable_or_text in Hraw. simpl in Hraw.
  destruct (lookup_key (u "readableText") d) as [r|] eqn:Hr; simpl in Hraw.
  - destruct (is_true r) eqn:Htrue.
    + injection Hraw as ->. split.
      * intros r' [= <-] _. exists s. split; [reflexivity|]. split; [|reflexivity].
        intros ->. discriminate.
      * intros [Hnone|(r' & [= <-] & Hf)]; congruence.
    + split; [intros r' [= <-]; congruence|]. intros _.
      destruct (lookup_key (u "text") d); [|discriminate].
      injection Hraw as ->. eauto.
  - split; [intros r' [=]|]. intros _.
    destruct (lookup_key (u "text") d); [|discriminate].
    injection Hraw as ->. eauto.
Qed.

End ReaderClaims.

(** C8: the element has the field [readableText], with the empty
    string, and the text comes from [text]. *)
Lemma C8_counterexample :
  Convert.subscript Samples.blank_readable (u "readableText") = Ok (Convert.JStr [])
  /\ Convert.convert_verse frag Samples.blank_readable =
     Ok {| Convert.v_number := 1; Convert.v_text := u "raw text" |}
  /\ u "raw text" <> unescape frag (strip []).
Proof. repeat split; try (vm_compute; reflexivity). discriminate. Qed.

Lemma blank_readable_converted :
  Convert.convert_verse frag Samples.blank_readable =
  Ok {| Convert.v_number := 1; Convert.v_text := u "raw text" |}.
Proof. vm_compute. reflexivity. Defined.

Lemma C8_witness :
  Convert.convert_verse frag Samples.blank_readable =
    Ok {| Convert.v_number := 1; Convert.v_text := u "raw text" |}
  /\ exists d, Samples.blank_readable = Convert.JDict d
     /\ (forall r, Convert.lookup_key (u "readableText") d = Some r ->
           Convert.is_true r = true ->
           exists s, r = Convert.JStr s /\ s <> []
                     /\ u "raw text" = unescape frag (strip s))
     /\ ((Convert.lookup_key (u "readableText") d = None
          \/ exists r, Convert.lookup_key (u "readableText") d = Some r
                       /\ Convert.is_true r = false) ->
         exists s, Convert.lookup_key (u "text") d = Some (Convert.JStr s)
                   /\ u "raw text" = unescape frag (strip s)).
Proof.
  split; [exact blank_readable_converted|].
  exact (C8_text_prefers_true_readable_text frag Samples.blank_readable
           {| Convert.v_number := 1; Convert.v_text := u "raw text" |}
           blank_readable_converted).
Defined.

(** C4: a file that is not JSON, or a verse without its number, beside
    a good file: the handler's message raises [NameError], and
    [parse_version] raises instead of skipping the file; the good file
    alone gives a book. *)
Theorem C4_bad_file_aborts_version :
  Convert.parse_version frag [u "NIV"] Samples.broken_version =
    Raise (NameError "sys")
  /\ Convert.parse_version frag [u "NIV"] Samples.keyless_version =
    Raise (NameError "sys")
  /\ Convert.parse_version frag [u "NIV"] Samples.good_version =
    Ok ({| Convert.name := u "Bible NIV";
           Convert.metadata_source := u "parsedBible repo";
           Convert.metadata_revision := u "NIV";
           Convert.books :=
             [ {| Convert.b_number := 1; Convert.b_name := u "Genesis";
                  Convert.b_chapters :=
                    [ {| Convert.c_number := 2;
                         Convert.c_verses :=
                           [ {| Convert.v_number := 1;
                                Convert.v_text := u "two" |} ] |} ] |} ] |}, []).
Proof. repeat split; vm_compute; reflexivity. Qed.

(** ** Facts about sorting and the order of strings *)

Section SortFacts.
Context {A : Type} (le : A -> A -> bool).

Lemma insert_sorted_perm (x : A) (l : list A) : insert_sorted le x l ≡ₚ x :: l.
Proof.
  induction l as [|y l IH]; [reflexivity|]. simpl.
  destruct (le x y); [reflexivity|]. rewrite IH. apply Permutation_swap.
Qed.

Lemma sort_by_perm (l : list A) : sort_by le l ≡ₚ l.
Proof.
  induction l as [|x l IH]; [reflexivity|]. simpl.
  rewrite insert_sorted_perm, IH. reflexivity.
Qed.

Context (le_total : forall x y, le x y = false -> le y x = true).

Lemma insert_sorted_Sorted (x : A) (l : list A) :
  Sorted (fun a b => le a b = true) l ->
  Sorted (fun a b => le a b = true) (insert_sorted le x l).
Proof.
  induction 1 as [|y l Hs IH Hhd]; simpl; [repeat constructor|].
  destruct (le x y) eqn:E.
  - constructor; [constructor; assumption|constructor; exact E].
  - constructor; [exact IH|].
    destruct l as [|z l]; simpl.
    + constructor. apply le_total, E.
    + destruct (le x z); constructor; [apply le_total, E|].
      inversion Hhd; assumption.
Qed.

Lemma sort_by_Sorted (l : list A) :
  Sorted (fun a b => le a b = true) (sort_by le l).
Proof.
  induction l as [|x l IH]; simpl; [constructor|].
  apply insert_sorted_Sorted, IH.
Qed.

End SortFacts.

Section OrderFacts.

Lemma StronglySorted_sublist {A} (R : A -> A -> Prop) (l1 l2 : list A) :
  l1 `sublist_of` l2 -> StronglySorted R l2 -> StronglySorted R l1.
Proof.
  induction 1 as [|x l1 l2 Hsub IH|x l1 l2 Hsub IH]; intros Hs.
  - constructor.
  - apply StronglySorted_inv in Hs as [Hs Hall]. constructor; [apply IH, Hs|].
    apply Forall_forall. intros y Hy. rewrite Forall_forall in Hall.
    apply Hall. exact (sublist_subseteq _ _ Hsub y Hy).
  - apply StronglySorted_inv in Hs as [Hs _]. apply IH, Hs.
Qed.

Lemma str_ltb_asym (a b : str) : str_ltb a b = true -> str_ltb b a = false.
Proof.
  revert b. induction a as [|x a IH]; intros [|y b]; simpl; try congruence.
  intros H. apply orb_prop in H as [H|H].
  - apply N.ltb_lt in H.
    assert ((y <? x) = false) as -> by (apply N.ltb_ge; lia).
    assert ((y =? x) = false) as -> by (apply N.eqb_neq; lia). reflexivity.
  - apply andb_prop in H as [Hxy H]. apply N.eqb_eq in Hxy. subst y.
    rewrite N.ltb_irrefl, N.eqb_refl, (IH _ H). reflexivity.
Qed.

Lemma str_ltb_irrefl (a : str) : str_ltb a a = false.
Proof.
  induction a as [|x a IH]; [reflexivity|]. simpl.
  rewrite N.ltb_irrefl, N.eqb_refl, IH. reflexivity.
Qed.

Lemma str_ltb_prefix (p a b : str) : str_ltb (p ++ a) (p ++ b) = str_ltb a b.
Proof.
  induction p as [|x p IH]; [reflexivity|]. simpl.
  rewrite N.ltb_irrefl, N.eqb_refl, IH. reflexivity.
Qed.

Lemma str_ltb_suffix (a b s : str) :
  List.length a = List.length b -> str_ltb (a ++ s) (b ++ s) = str_ltb a b.
Proof.
  revert b. induction a as [|x a IH]; intros [|y b] Hlen; try discriminate.
  - apply str_ltb_irrefl.
  - simpl. rewrite IH; [reflexivity|]. simpl in Hlen. lia.
Qed.

Lemma name_le_total (a b : str * Convert.entry) :
  Convert.name_le a b = false -> Convert.name_le b a = true.
Proof.
  unfold Convert.name_le. intros H. apply negb_false_iff in H.
  rewrite (str_ltb_asym _ _ H). reflexivity.
Qed.

Lemma by_number_total (a b : Convert.book_out) :
  Convert.by_number a b = false -> Convert.by_number b a = true.
Proof.
  unfold Convert.by_number. intros H. apply Z.leb_gt in H. apply Z.leb_le. lia.
Qed.

(** Strings of ASCII digits of one length: the order of the strings is
    the order of their values. *)
Lemma digits_value_order (a b : str) (acc1 acc2 : N) :
  List.length a = List.length b ->
  Forall (fun c => ascii_digit c = true) a ->
  Forall (fun c => ascii_digit c = true) b ->
  (acc1 < acc2 -> digits_value acc1 a < digits_value acc2 b)
  /\ (acc1 = acc2 -> str_ltb b a = false ->
      digits_value acc1 a <= digits_value acc2 b)
  /\ (digits_value acc1 a = digits_value acc2 b -> acc1 = acc2 /\ a = b).
Proof.
  revert b acc1 acc2. induction a as [|x a IH]; intros [|y b] acc1 acc2 Hlen Ha Hb;
    try discriminate.
  - simpl. repeat split; try lia; try tauto.
  - inversion Ha as [|? ? Hx Ha']; inversion Hb as [|? ? Hy Hb']; subst.
    unfold ascii_digit in Hx, Hy.
    apply andb_prop in Hx as [Hx1 Hx2]. apply andb_prop in Hy as [Hy1 Hy2].
    apply N.leb_le in Hx1, Hx2, Hy1, Hy2.
    assert (Hl : List.length a = List.length b) by (simpl in Hlen; lia).
    unfold digits_value. simpl.
    fold (digits_value (10 * acc1 + (x - 48)) a).
    fold (digits_value (10 * acc2 + (y - 48)) b).
    destruct (IH b (10 * acc1 + (x - 48)) (10 * acc2 + (y - 48)) Hl Ha' Hb')
      as (IH1 & IH2 & IH3).
    split; [|split].
    + intros Hlt. apply IH1. lia.
    + intros -> Hcmp. apply orb_false_iff in Hcmp as [Hyx Hrest].
      apply N.ltb_ge in Hyx.
      destruct (N.eq_dec x y) as [->|Hne].
      * rewrite N.eqb_refl in Hrest. simpl in Hrest. apply IH2; [reflexivity|exact Hrest].
      * apply N.lt_le_incl, IH1. lia.
    + intros Heq. apply IH3 in Heq as [Hacc ->].
      assert (acc1 = acc2) by lia. assert (x = y) by lia. subst. auto.
Qed.

Lemma digits_value_zero (ds : str) :
  digits_value 0 (Convert.lstrip_zeros ds) = digits_value 0 ds.
Proof.
  induction ds as [|c ds IH]; [reflexivity|].
  destruct (N.eq_dec c 48) as [->|Hne].
  - simpl. exact IH.
  - assert (E : Convert.lstrip_zeros (c :: ds) = c :: ds).
    { destruct c as [|p]; [reflexivity|].
      do 6 (destruct p as [p|p|]; try reflexivity). congruence. }
    rewrite E. reflexivity.
Qed.

End OrderFacts.

(** ** The Aggregator: the order of chapters and books *)

Section AggregatorOrder.
Import Convert.
Context (L : pylib).

Lemma name_le_trans (a b c : str * entry) :
  name_le a b = true -> name_le b c = true -> name_le a c = true.
Proof.
  unfold name_le. rewrite !negb_true_iff.
  generalize (fst a) (fst b) (fst c). clear a b c.
  intros a. induction a as [|x a IH]; intros b c H1 H2.
  - destruct c; reflexivity.
  - destruct b as [|y b]; [discriminate|].
    destruct c as [|z c]; [discriminate|].
    simpl in *. apply orb_false_iff in H1 as [H1 H1'], H2 as [H2 H2'].
    apply N.ltb_ge in H1, H2. apply orb_false_iff. split.
    + apply N.ltb_ge. lia.
    + destruct (z =? x) eqn:E; [|reflexivity]. apply N.eqb_eq in E. subst z.
      assert (y = x) by lia. subst y. rewrite N.eqb_refl in H1', H2'.
      simpl in *. exact (IH _ _ H1' H2').
Qed.

Lemma int_digits_value (ds : str) (acc : N) :
  Forall (fun c => ascii_digit c = true) ds ->
  int_digits L acc true ds = Some (digits_value acc ds).
Proof.
  intros H. revert acc. induction H as [|c ds Hc _ IH]; intros acc; [reflexivity|].
  cbn [int_digits]. unfold decimal_value. rewrite Hc.
  unfold ascii_digit in Hc. apply andb_prop in Hc as [H1 H2].
  apply N.leb_le in H1, H2.
  assert ((c =? 95) = false) as -> by (apply N.eqb_neq; lia).
  assert ((c <? 128) = true) as -> by (apply N.ltb_lt; lia).
  apply IH.
Qed.

Lemma starts_with_app (p s : str) : starts_with p (p ++ s) = Some s.
Proof.
  induction p as [|c p IH]; [reflexivity|]. simpl. rewrite N.eqb_refl. exact IH.
Qed.

Lemma re_digit_ascii (c : N) : ascii_digit c = true -> re_digit L c = true.
Proof.
  intros Hc. unfold re_digit, decimal_value. rewrite Hc.
  unfold ascii_digit in Hc. apply andb_prop in Hc as [_ H2]. apply N.leb_le in H2.
  assert ((c <? 128) = true) as -> by (apply N.ltb_lt; lia).
  apply bool_decide_eq_true_2. eauto.
Qed.

Lemma take_drop_digits (ds : str) :
  Forall (fun c => ascii_digit c = true) ds ->
  take_while (re_digit L) (ds ++ u ".json") = ds
  /\ drop_while (re_digit L) (ds ++ u ".json") = u ".json".
Proof.
  induction 1 as [|c ds Hc _ [IH1 IH2]]; [split; reflexivity|].
  simpl. rewrite (re_digit_ascii _ Hc), IH1, IH2. split; reflexivity.
Qed.

Lemma match_chapter_file_padded (abbr ds : str) :
  ds <> [] -> Forall (fun c => ascii_digit c = true) ds ->
  match_chapter_file L abbr (abbr ++ u "." ++ ds ++ u ".json") = Some ds.
Proof.
  intros Hne Hds. unfold match_chapter_file.
  rewrite (app_assoc abbr), starts_with_app.
  destruct (take_drop_digits ds Hds) as [-> ->].
  destruct ds; [congruence|]. reflexivity.
Qed.

Lemma lstrip_zeros_digits (ds : str) :
  Forall (fun c => ascii_digit c = true) ds ->
  Forall (fun c => ascii_digit c = true) (lstrip_zeros ds).
Proof.
  induction 1 as [|c ds Hc Hds IH]; [constructor|].
  destruct (N.eq_dec c 48) as [->|Hne]; [exact IH|].
  assert (E : lstrip_zeros (c :: ds) = c :: ds).
  { destruct c as [|p]; [reflexivity|].
    do 6 (destruct p as [p|p|]; try reflexivity). congruence. }
  rewrite E. constructor; assumption.
Qed.

(** The chapter number of a file named as the fetcher names it. *)
Lemma chap_of_padded (abbr ds : str) :
  ds <> [] -> Forall (fun c => ascii_digit c = true) ds ->
  chap_of L abbr (abbr ++ u "." ++ ds ++ u ".json") =
  Some (Z.of_N (digits_value 0 ds)).
Proof.
  intros Hne Hds. unfold chap_of.
  rewrite (match_chapter_file_padded abbr ds Hne Hds). simpl.
  rewrite <- digits_value_zero.
  pose proof (lstrip_zeros_digits ds Hds) as Hs.
  destruct (lstrip_zeros ds) as [|c s] eqn:E; [reflexivity|].
  rewrite py_int_ascii_digits; [|discriminate|exact Hs].
  rewrite (int_digits_value _ _ Hs). reflexivity.
Qed.

Lemma read_chapter_inv jf e n chs log chs' log' :
  read_chapter L jf e n (chs, log) = Ok (chs', log') ->
  chs' = chs \/ exists vs, chs' = chs ++ [{| c_number := n; c_verses := vs |}].
Proof.
  unfold read_chapter. destruct (read_verses L e) as [[|v vs]|ex].
  - intros H. apply bind_inv in H as (l & _ & [= <- _]). left. reflexivity.
  - intros [= <- _]. right. eauto.
  - destruct ex; try discriminate;
      intros H; apply bind_inv in H as (l & _ & [= <- _]); left; reflexivity.
Qed.

(** The chapters of a book come in the order of the files, each with
    the number of its file. *)
Lemma read_chapters_order folder abbr files chs0 log0 chs log :
  read_chapters L folder abbr files (chs0, log0) = Ok (chs, log) ->
  exists new fs,
    chs = chs0 ++ new
    /\ fs `sublist_of` files
    /\ Forall2 (fun c f => chap_of L abbr (fst f) = Some (c_number c)) new fs.
Proof.
  revert chs0 log0. induction files as [|[jf e] files IH]; intros chs0 log0 H.
  - injection H as <- <-. exists [], []. rewrite app_nil_r.
    split; [reflexivity|]. split; constructor.
  - cbn [read_chapters] in H.
    destruct (match_chapter_file L abbr jf) as [digits|] eqn:Em.
    + unfold int_str in H.
      destruct (py_int L _) as [n|] eqn:En; [|discriminate].
      rewrite bind_Ok in H.
      apply bind_inv in H as ([chs1 log1] & Hr & H).
      apply IH in H as (new & fs & -> & Hsub & Hall).
      apply (read_chapter_inv (folder ++ [jf])) in Hr as [->|(vs & ->)].
      * exists new, fs. split; [reflexivity|].
        split; [apply sublist_cons, Hsub|exact Hall].
      * exists ({| c_number := n; c_verses := vs |} :: new), ((jf, e) :: fs).
        rewrite <- app_assoc. split; [reflexivity|].
        split; [apply sublist_skip, Hsub|].
        constructor; [|exact Hall].
        unfold chap_of. cbn [fst c_number]. rewrite Em. exact En.
    + apply IH in H as (new & fs & -> & Hsub & Hall).
      exists new, fs. split; [reflexivity|].
      split; [apply sublist_cons, Hsub|exact Hall].
Qed.

(** Two files of a folder named as the fetcher names them, in the
    order of their names: their chapter numbers are in the same strict
    order. *)
Lemma chap_of_lt (w : nat) (abbr : str) (f g : str * entry) (n m : Z) :
  (exists ds, fst f = abbr ++ u "." ++ ds ++ u ".json" /\ List.length ds = w
              /\ Forall (fun c => ascii_digit c = true) ds) ->
  (exists ds, fst g = abbr ++ u "." ++ ds ++ u ".json" /\ List.length ds = w
              /\ Forall (fun c => ascii_digit c = true) ds) ->
  fst f <> fst g -> name_le f g = true ->
  chap_of L abbr (fst f) = Some n -> chap_of L abbr (fst g) = Some m ->
  (n < m)%Z.
Proof.
  intros (ds1 & E1 & Hw1 & Hd1) (ds2 & E2 & Hw2 & Hd2) Hne Hle Hn Hm.
  unfold name_le in Hle. apply negb_true_iff in Hle.
  rewrite E1, E2 in Hle, Hne. rewrite E1 in Hn. rewrite E2 in Hm.
  rewrite str_ltb_prefix, str_ltb_prefix in Hle.
  rewrite str_ltb_suffix in Hle by congruence.
  assert (Hne' : ds1 <> ds2) by congruence.
  assert (Hnil : ds1 <> [] /\ ds2 <> []).
  { destruct ds1, ds2; simpl in Hw1, Hw2; try congruence; try lia.
    split; discriminate. }
  destruct Hnil as [Hnil1 Hnil2].
  rewrite chap_of_padded in Hn, Hm by assumption.
  injection Hn as <-. injection Hm as <-.
  destruct (digits_value_order ds1 ds2 0 0 ltac:(congruence) Hd1 Hd2)
    as (_ & Hord & Hinj).
  specialize (Hord eq_refl Hle).
  assert (digits_value 0 ds1 <> digits_value 0 ds2).
  { intros E. apply Hinj in E as [_ E]. contradiction. }
  lia.
Qed.

Lemma sorted_files_numbers (w : nat) (abbr : str) (files : list (str * entry)) :
  StronglySorted (fun a b => name_le a b = true) files ->
  NoDup (fst <$> files) ->
  Forall (fun f => exists ds, fst f = abbr ++ u "." ++ ds ++ u ".json"
                              /\ List.length ds = w
                              /\ Forall (fun c => ascii_digit c = true) ds) files ->
  StronglySorted Z.lt (omap (fun f => chap_of L abbr (fst f)) files).
Proof.
  induction 1 as [|f files Hs IH Hall]; intros Hnd Hpad; [constructor|].
  apply NoDup_cons in Hnd as [Hnotin Hnd].
  apply Forall_cons in Hpad as [Hf Hpad].
  cbn [omap list_omap]. specialize (IH Hnd Hpad).
  destruct (chap_of L abbr (fst f)) as [n|] eqn:En; [|exact IH].
  constructor; [exact IH|].
  apply Forall_forall. intros m Hm.
  apply list_elem_of_omap in Hm as (g & Hg & Em).
  rewrite Forall_forall in Hall, Hpad.
  apply (chap_of_lt w abbr f g n m); auto.
  intros E. apply Hnotin. rewrite E. apply list_elem_of_fmap_2, Hg.
Qed.

Lemma files_numbers (abbr : str) (cs : list chapter_out)
    (fs : list (str * entry)) :
  Forall2 (fun c f => chap_of L abbr (fst f) = Some (c_number c)) cs fs ->
  omap (fun f => chap_of L abbr (fst f)) fs = c_number <$> cs.
Proof.
  induction 1 as [|c f cs fs Hc _ IH]; [reflexivity|].
  cbn [omap list_omap fmap list_fmap]. rewrite Hc. cbn. f_equal. exact IH.
Qed.

Lemma globbed_sorted (abbr : str) (children : list (str * entry)) :
  StronglySorted (fun a b => name_le a b = true)
    (sort_by name_le (List.filter (fun f => glob_chapter abbr (fst f)) children)).
Proof.
  apply Sorted_StronglySorted; [intros a b c; apply name_le_trans|].
  apply sort_by_Sorted. apply name_le_total.
Qed.

Lemma filter_fst_sublist (abbr : str) (children : list (str * entry)) :
  (fst <$> List.filter (fun f => glob_chapter abbr (fst f)) children)
    `sublist_of` (fst <$> children).
Proof.
  induction children as [|c children IH]; [constructor|].
  simpl. destruct (glob_chapter abbr (fst c)); simpl.
  - apply sublist_skip, IH.
  - apply sublist_cons, IH.
Qed.

(** The chapters read from the chapter files of a folder named as the
    fetcher names them are in strictly ascending order of their
    numbers. *)
Lemma book_chapters_ascending (w : nat) (abbr : str)
    (children fs : list (str * entry)) (cs : list chapter_out) :
  well_named L w abbr children ->
  fs `sublist_of`
    sort_by name_le (List.filter (fun f => glob_chapter abbr (fst f)) children) ->
  Forall2 (fun c f => chap_of L abbr (fst f) = Some (c_number c)) cs fs ->
  StronglySorted Z.lt (c_number <$> cs).
Proof.
  intros [Hnd Hpad] Hsub Hall. rewrite <- (files_numbers abbr cs fs Hall).
  set (globbed := List.filter (fun f => glob_chapter abbr (fst f)) children)
    in *.
  apply (sorted_files_numbers w).
  - exact (StronglySorted_sublist _ _ _ Hsub (globbed_sorted abbr children)).
  - assert (Hnd' : NoDup (fst <$> sort_by name_le globbed)).
    { rewrite (sort_by_perm name_le globbed).
      eapply sublist_NoDup; [exact Hnd|apply filter_fst_sublist]. }
    eapply sublist_NoDup; [exact Hnd'|]. apply fmap_sublist, Hsub.
  - apply Forall_forall. intros [jf e] Hf.
    assert (Hin : (jf, e) ∈ globbed).
    { rewrite <- (sort_by_perm name_le globbed).
      exact (sublist_subseteq _ _ Hsub _ Hf). }
    apply list_elem_of_In, filter_In in Hin as [Hin Hg].
    apply list_elem_of_In in Hin. cbn [fst] in *.
    apply (Hpad jf e Hin Hg).
    apply list_elem_of_lookup in Hf as [i Hi].
    destruct (Forall2_lookup_r _ _ _ _ _ Hall Hi) as (c & _ & Hc).
    unfold chap_of in Hc. cbn [fst] in Hc.
    destruct (match_chapter_file L abbr jf); [eauto|discriminate].
Qed.

(** Every book comes from a book folder, its chapters from files of
    the folder in the order in which they are read. *)
Lemma read_books_order version_dir folders bs0 log0 bs log :
  read_books L version_dir folders (bs0, log0) = Ok (bs, log) ->
  exists new,
    bs = bs0 ++ new
    /\ Forall (fun bk => exists folder_name children digits abbr fs,
                 (folder_name, Dir children) ∈ folders
                 /\ match_book_folder L folder_name = Some (digits, abbr)
                 /\ int_str L digits = Ok (b_number bk)
                 /\ fs `sublist_of`
                      sort_by name_le
                        (List.filter (fun f => glob_chapter abbr (fst f)) children)
                 /\ Forall2 (fun c f => chap_of L abbr (fst f) = Some (c_number c))
                      (b_chapters bk) fs) new.
Proof.
  revert bs0 log0.
  induction folders as [|[folder_name e] folders IH]; intros bs0 log0 H.
  - injection H as <- <-. exists []. rewrite app_nil_r. split; constructor.
  - assert (Hweaken : forall new,
      Forall (fun bk => exists folder_name children digits abbr fs,
                 (folder_name, Dir children) ∈ folders
                 /\ match_book_folder L folder_name = Some (digits, abbr)
                 /\ int_str L digits = Ok (b_number bk)
                 /\ fs `sublist_of`
                      sort_by name_le
                        (List.filter (fun f => glob_chapter abbr (fst f)) children)
                 /\ Forall2 (fun c f => chap_of L abbr (fst f) = Some (c_number c))
                      (b_chapters bk) fs) new ->
      Forall (fun bk => exists folder_name0 children digits abbr fs,
                 (folder_name0, Dir children) ∈ (folder_name, e) :: folders
                 /\ match_book_folder L folder_name0 = Some (digits, abbr)
                 /\ int_str L digits = Ok (b_number bk)
                 /\ fs `sublist_of`
                      sort_by name_le
                        (List.filter (fun f => glob_chapter abbr (fst f)) children)
                 /\ Forall2 (fun c f => chap_of L abbr (fst f) = Some (c_number c))
                      (b_chapters bk) fs) new).
    { intros new Hnew. eapply Forall_impl; [exact Hnew|].
      intros bk (fn & ch & ds & ab & fs & Hin & Hrest). exists fn, ch, ds, ab, fs.
      split; [right; exact Hin|exact Hrest]. }
    cbn [read_books] in H.
    destruct e as [content|children].
    { apply IH in H as (new & -> & Hnew). exists new. auto. }
    destruct (match_book_folder L folder_name) as [[digits abbr]|] eqn:Em.
    2:{ apply IH in H as (new & -> & Hnew). exists new. auto. }
    set (book_name := default (capitalize L abbr) (BOOKS !! abbr)) in H.
    clearbody book_name.
    apply bind_inv in H as (order & Horder & H).
    apply bind_inv in H as ([chapters log1] & Hch & H).
    apply bind_inv in H as ([bs1 log2] & Hacc & H).
    apply IH in H as (new & -> & Hnew).
    apply read_chapters_order in Hch as (chs & fs & Hchs & Hsub & Hall).
    simpl in Hchs. subst chapters.
    destruct chs as [|c chs].
    + apply bind_inv in Hacc as (l & _ & [= <- _]). exists new. auto.
    + injection Hacc as <- _. eexists (_ :: new). rewrite <- app_assoc.
      split; [reflexivity|]. constructor; [|exact (Hweaken _ Hnew)].
      exists folder_name, children, digits, abbr, fs.
      cbn [b_number b_chapters].
      split; [left|]. split; [exact Em|]. split; [exact Horder|].
      split; [exact Hsub|exact Hall].
Qed.

End AggregatorOrder.

Section AggregatorOrderClaims.
Import Convert.
Context (L : pylib).

Lemma StronglySorted_weaken {A} (R1 R2 : A -> A -> Prop) (l : list A) :
  (forall x y, R1 x y -> R2 x y) -> StronglySorted R1 l -> StronglySorted R2 l.
Proof.
  intros H. induction 1 as [|x l Hs IH Hall]; constructor; [exact IH|].
  eapply Forall_impl; [exact Hall|]. intros y. apply H.
Qed.

Lemma StronglySorted_strict {A} (key : A -> Z) (l : list A) :
  StronglySorted (fun x y => (key x <= key y)%Z) l ->
  NoDup (key <$> l) ->
  StronglySorted (fun x y => (key x < key y)%Z) l.
Proof.
  induction 1 as [|x l Hs IH Hall]; intros Hnd; [constructor|].
  cbn [fmap list_fmap] in Hnd. apply NoDup_cons in Hnd as [Hx Hnd].
  constructor; [exact (IH Hnd)|].
  apply Forall_forall. intros y Hy. rewrite Forall_forall in Hall.
  specialize (Hall y Hy).
  assert (key x <> key y).
  { intros E. apply Hx. rewrite E. apply list_elem_of_fmap_2, Hy. }
  lia.
Qed.

Lemma sort_by_number_sorted (bs : list book_out) :
  StronglySorted (fun x y => (b_number x <= b_number y)%Z) (sort_by by_number bs).
Proof.
  apply StronglySorted_weaken with (R1 := fun a b => by_number a b = true).
  { intros x y H. apply Z.leb_le, H. }
  apply Sorted_StronglySorted.
  - intros a b c Hab Hbc. unfold by_number in *.
    apply Z.leb_le in Hab, Hbc. apply Z.leb_le. lia.
  - apply sort_by_Sorted, by_number_total.
Qed.

(** C3, as amended: the books of the document are in ascending order of
    their numbers, with equal numbers allowed (strictly when the numbers
    differ); every book comes from a book folder, and its chapters are
    read from files of that folder taken in the order of their names,
    each chapter with the number of its file; the numbers are in
    strictly ascending order whenever the chapter files of that folder
    are named as the fetcher names them, [<abbr>.<w digits>.json] with
    one width for the folder, each name once. *)
Theorem C3_books_ascending_chapters_by_file_name version_dir entries b log :
  parse_version L version_dir entries = Ok (b, log) ->
  StronglySorted (fun x y => (b_number x <= b_number y)%Z) (books b)
  /\ (NoDup (b_number <$> books b) ->
      StronglySorted (fun x y => (b_number x < b_number y)%Z) (books b))
  /\ (forall bk, bk ∈ books b ->
        exists folder_name children digits abbr files,
          (folder_name, Dir children) ∈ entries
          /\ match_book_folder L folder_name = Some (digits, abbr)
          /\ int_str L digits = Ok (b_number bk)
          /\ files `sublist_of`
               sort_by name_le
                 (List.filter (fun f => glob_chapter abbr (fst f)) children)
          /\ StronglySorted (fun f g => name_le f g = true) files
          /\ Forall2 (fun c f => chap_of L abbr (fst f) = Some (c_number c))
               (b_chapters bk) files
          /\ forall w, well_named L w abbr children ->
               StronglySorted Z.lt (c_number <$> b_chapters bk)).
Proof.
  unfold parse_version. intros H.
  apply bind_inv in H as ([bs log1] & Hbs & [= <- _]). cbn [books].
  split; [apply sort_by_number_sorted|]. split.
  - apply StronglySorted_strict, sort_by_number_sorted.
  - intros bk Hbk. rewrite (sort_by_perm by_number bs) in Hbk.
    apply read_books_order in Hbs as (new & Hnew & Hall).
    simpl in Hnew. subst new. rewrite Forall_forall in Hall.
    destruct (Hall bk Hbk)
      as (folder_name & children & digits & abbr & files
          & Hin & Hm & Hn & Hsub & Hfiles).
    exists folder_name, children, digits, abbr, files.
    split; [rewrite <- (sort_by_perm name_le entries); exact Hin|].
    split; [exact Hm|]. split; [exact Hn|]. split; [exact Hsub|].
    split; [exact (StronglySorted_sublist _ _ _ Hsub (globbed_sorted abbr children))|].
    split; [exact Hfiles|].
    intros w Hw. exact (book_chapters_ascending L w abbr children files _ Hw Hsub Hfiles).
Qed.

End AggregatorOrderClaims.

(** C3: two folders with the prefix 01 give two books numbered 1, and
    the files gen.2.json and gen.10.json give the chapters 10, 2 in this
    order. *)
Lemma C3_counterexample :
  (exists b log,
     Convert.parse_version frag [u "NIV"] Samples.twin_version = Ok (b, log)
     /\ Convert.b_number <$> Convert.books b = [1; 1]%Z
     /\ ~ StronglySorted Z.lt [1; 1]%Z)
  /\ (exists b log,
        Convert.parse_version frag [u "NIV"] Samples.unpadded_version = Ok (b, log)
        /\ (fun bk => Convert.c_number <$> Convert.b_chapters bk)
             <$> Convert.books b = [[10; 2]%Z]
        /\ ~ StronglySorted Z.lt [10; 2]%Z).
Proof.
  split; eexists; eexists; (split; [vm_compute; reflexivity|]);
    (split; [vm_compute; reflexivity|]); intros H;
    apply StronglySorted_inv in H as [_ H];
    apply Forall_cons in H as [H _]; lia.
Qed.

Lemma padded_version_parsed :
  Convert.parse_version frag [u "NIV"] Samples.padded_version =
  Ok (Samples.padded_bible, []).
Proof. vm_compute. reflexivity. Defined.

Lemma mixed_version_parsed :
  Convert.parse_version frag [u "NIV"] Samples.mixed_version =
  Ok (Samples.mixed_bible, []).
Proof. vm_compute. reflexivity. Defined.

(** The two folders of the mixed version are named as the fetcher
    names them, each with its own width. *)
Example mixed_version_well_named :
  well_named frag 2 (u "gen")
    [(u "gen.02.json", Samples.chapter_file [Samples.one_verse "1" "two"]);
     (u "gen.notes.json", Convert.File Convert.Malformed);
     (u "gen.01.json", Samples.chapter_file [Samples.one_verse "1" "one"])]
  /\ well_named frag 3 (u "psa")
       [(u "psa.150.json", Samples.chapter_file [Samples.one_verse "1" "last"]);
        (u "psa.001.json", Samples.chapter_file [Samples.one_verse "1" "first"])].
Proof.
  split; split.
  - cbn [fmap list_fmap fst]. repeat (apply NoDup_cons; split);
      [| |..]; try apply NoDup_nil_2;
      rewrite ?elem_of_cons, ?elem_of_nil; intros H;
      repeat destruct H as [H|H]; try discriminate H; exact H.
  - intros jf e Hjf _ Hm. rewrite !elem_of_cons, elem_of_nil in Hjf.
    destruct Hjf as [[= -> _]|[[= -> _]|[[= -> _]|[]]]].
    + exists (u "02"). split; [reflexivity|]. split; [reflexivity|].
      repeat constructor.
    + vm_compute in Hm. destruct Hm as [x Hx]. discriminate.
    + exists (u "01"). split; [reflexivity|]. split; [reflexivity|].
      repeat constructor.
  - cbn [fmap list_fmap fst]. repeat (apply NoDup_cons; split);
      [|..]; try apply NoDup_nil_2;
      rewrite ?elem_of_cons, ?elem_of_nil; intros H;
      repeat destruct H as [H|H]; try discriminate H; exact H.
  - intros jf e Hjf _ _. rewrite !elem_of_cons, elem_of_nil in Hjf.
    destruct Hjf as [[= -> _]|[[= -> _]|[]]].
    + exists (u "150"). split; [reflexivity|]. split; [reflexivity|].
      repeat constructor.
    + exists (u "001"). split; [reflexivity|]. split; [reflexivity|].
      repeat constructor.
Qed.

Lemma C3_witness :
  Convert.parse_version frag [u "NIV"] Samples.mixed_version =
    Ok (Samples.mixed_bible, [])
  /\ (StronglySorted (fun x y => (Convert.b_number x <= Convert.b_number y)%Z)
        (Convert.books Samples.mixed_bible)
      /\ (NoDup (Convert.b_number <$> Convert.books Samples.mixed_bible) ->
          StronglySorted (fun x y => (Convert.b_number x < Convert.b_number y)%Z)
            (Convert.books Samples.mixed_bible))
      /\ (forall bk, bk ∈ Convert.books Samples.mixed_bible ->
            exists folder_name children digits abbr files,
              (folder_name, Convert.Dir children) ∈ Samples.mixed_version
              /\ Convert.match_book_folder frag folder_name = Some (digits, abbr)
              /\ Convert.int_str frag digits = Ok (Convert.b_number bk)
              /\ files `sublist_of`
                   sort_by Convert.name_le
                     (List.filter (fun f => Convert.glob_chapter abbr (fst f))
                        children)
              /\ StronglySorted (fun f g => Convert.name_le f g = true) files
              /\ Forall2 (fun c f => chap_of frag abbr (fst f)
                                     = Some (Convert.c_number c))
                   (Convert.b_chapters bk) files
              /\ forall w, well_named frag w abbr children ->
                   StronglySorted Z.lt
                     (Convert.c_number <$> Convert.b_chapters bk))).
Proof.
  split; [exact mixed_version_parsed|].
  exact (C3_books_ascending_chapters_by_file_name frag [u "NIV"]
           Samples.mixed_version Samples.mixed_bible [] mixed_version_parsed).
Defined.

(** * Further properties *)

(** ** More about the Extractor *)

Section ExtractorExtras.
Import Fetch.
Context (L : pylib).

Lemma descendants_decompose_kept p n m :
  In m (descendants (decompose_all p n)) ->
  exists m0, In m0 (descendants n) /\ m = decompose_all p m0 /\ p m0 = false.
Proof.
  revert m. induction n as [name cls ch IH|plain s] using node_rect';
    intros m Hm; [|destruct Hm].
  rewrite decompose_all_Tag, descendants_Tag in Hm.
  rewrite descendants_Tag.
  apply in_flat_map in Hm as (c' & Hc' & Hm).
  apply in_map_iff in Hc' as (c & <- & Hc).
  apply filter_In in Hc as [Hc Hp]. apply negb_true_iff in Hp.
  rewrite Forall_forall in IH.
  destruct Hm as [<-|Hm].
  - exists c. split; [|split; [reflexivity|exact Hp]].
    apply in_flat_map. exists c. split; [exact Hc|left; reflexivity].
  - destruct (IH c) with (m := m) as (m0 & Hm0 & -> & Hp0); [|exact Hm|].
    { apply list_elem_of_In, Hc. }
    exists m0. split; [|split; [reflexivity|exact Hp0]].
    apply in_flat_map. exists c. split; [exact Hc|right; exact Hm0].
Qed.

Lemma is_note_decompose p n : is_note (decompose_all p n) = is_note n.
Proof. destruct n; reflexivity. Qed.

Lemma has_name_decompose p nm n : has_name nm (decompose_all p n) = has_name nm n.
Proof. destruct n; reflexivity. Qed.

(** X1: after the pre-processing no footnote, cross-reference or
    heading tag is left below the container. *)
Theorem X1_preprocess_removes_notes container :
  Forall (fun m => is_note m = false /\ has_name (u "h3") m = false)
    (descendants (preprocess container)).
Proof.
  apply List.Forall_forall. intros m Hm. unfold preprocess in Hm.
  apply descendants_decompose_kept in Hm as (m1 & Hm1 & -> & Hh3).
  apply descendants_decompose_kept in Hm1 as (m0 & _ & -> & Hnote).
  rewrite is_note_decompose, has_name_decompose.
  rewrite is_note_decompose. rewrite has_name_decompose in Hh3.
  rewrite has_name_decompose. split; assumption.
Qed.

(** X2: the loop over the descendants of the container never raises:
    the verse being read always has its accumulator, and every key of
    the accumulator passed [isdigit]. *)
Theorem X2_traversal_never_raises container :
  exists st, scan L container = Ok st
             /\ current_has_entry st /\ keys_are_digits L st.
Proof. apply scan_returns. Qed.

Lemma step_idle n : is_marker_tag n = false -> step L init n = Ok init.
Proof.
  intros Hn. destruct n as [name cls ch|plain s]; unfold step; [|reflexivity].
  destruct (marker L (Tag name cls ch)) as [num|] eqn:Hm.
  { apply marker_is_marker_tag in Hm. congruence. }
  simpl truthy. rewrite andb_false_r, bind_Ok.
  destruct (_ && _); reflexivity.
Qed.

(** X3: what comes before the first marker tag adds nothing: the loop
    is in its first state when it reaches the marker. *)
Theorem X3_nodes_before_first_marker_ignored before rest :
  Forall (fun n => is_marker_tag n = false) before ->
  traverse L init (before ++ rest) = traverse L init rest.
Proof.
  induction 1 as [|n before Hn _ IH]; [reflexivity|].
  simpl. rewrite (step_idle n Hn), bind_Ok. exact IH.
Qed.

Lemma step_marker st name cls ch num :
  marker L (Tag name cls ch) = Some num ->
  step L st (Tag name cls ch) =
  Ok {| verses_data :=
          match verses_data st !! num with
          | Some _ => verses_data st
          | None => <[num := []]> (verses_data st)
          end;
        current_verse_num := Some num;
        ignore_next_text_node_if_matches_num := true |}.
Proof. intros Hm. unfold step. rewrite Hm. reflexivity. Qed.

Lemma step_label st label cur :
  current_verse_num st = Some cur -> cur <> [] ->
  ignore_next_text_node_if_matches_num st = true -> strip label = cur ->
  step L st (NavigableString true label) =
  Ok {| verses_data := verses_data st;
        current_verse_num := current_verse_num st;
        ignore_next_text_node_if_matches_num := false |}.
Proof.
  intros Hc Hne Hi Hs. unfold step. rewrite Hc, Hi, Hs.
  destruct cur; [congruence|]. simpl. unfold str_eqb.
  rewrite bool_decide_eq_true_2 by reflexivity. reflexivity.
Qed.

(** X4: a verse-number tag whose only child is its label starts the
    verse and the label is not accumulated: after the tag and the label
    the accumulator of the verse is as it was (empty when new), and the
    flag is down. *)
Theorem X4_verse_label_consumed st cls label :
  has_class (u "versenum") (Tag (u "sup") cls [NavigableString true label]) = true ->
  isdigit L (strip label) = true ->
  traverse L st [Tag (u "sup") cls [NavigableString true label];
                 NavigableString true label] =
  Ok {| verses_data :=
          match verses_data st !! strip label with
          | Some _ => verses_data st
          | None => <[strip label := []]> (verses_data st)
          end;
        current_verse_num := Some (strip label);
        ignore_next_text_node_if_matches_num := false |}.
Proof.
  intros Hcls Hdigit.
  assert (Hne : truthy (Some (strip label)) = true).
  { destruct (strip label); [discriminate|reflexivity]. }
  assert (Hm : marker L (Tag (u "sup") cls [NavigableString true label]) =
               Some (strip label)).
  { unfold marker. rewrite Hcls.
    change (has_name (u "sup") (Tag (u "sup") cls [NavigableString true label]))
      with true.
    change (get_text (Tag (u "sup") cls [NavigableString true label]))
      with (strip label ++ []).
    rewrite app_nil_r. simpl andb. cbv beta iota. rewrite Hdigit.
    unfold truthy in Hne. destruct (strip label); [discriminate Hne|reflexivity]. }
  cbn [traverse]. rewrite (step_marker st _ _ _ _ Hm), bind_Ok.
  rewrite (step_label _ label (strip label)); try reflexivity.
  intros E. rewrite E in Hne. discriminate.
Qed.

End ExtractorExtras.

Lemma X3_witness :
  Forall (fun n => Fetch.is_marker_tag n = false)
    [Samples.txt "Genesis 1"; Fetch.Tag (u "h1") [u "title"] [Samples.txt "The Beginning"]]
  /\ Fetch.traverse frag Fetch.init
       ([Samples.txt "Genesis 1"; Fetch.Tag (u "h1") [u "title"] [Samples.txt "The Beginning"]]
        ++ Fetch.descendants Samples.empty_container) =
     Fetch.traverse frag Fetch.init (Fetch.descendants Samples.empty_container).
Proof.
  assert (H : Forall (fun n => Fetch.is_marker_tag n = false)
                [Samples.txt "Genesis 1";
                 Fetch.Tag (u "h1") [u "title"] [Samples.txt "The Beginning"]]).
  { repeat constructor. }
  split; [exact H|].
  exact (X3_nodes_before_first_marker_ignored frag _
           (Fetch.descendants Samples.empty_container) H).
Defined.

Lemma X4_witness :
  Fetch.has_class (u "versenum")
    (Fetch.Tag (u "sup") [u "versenum"] [Fetch.NavigableString true (u "12 ")]) = true
  /\ isdigit frag (strip (u "12 ")) = true
  /\ Fetch.traverse frag Fetch.init
       [Fetch.Tag (u "sup") [u "versenum"] [Fetch.NavigableString true (u "12 ")];
        Fetch.NavigableString true (u "12 ")] =
     Ok {| Fetch.verses_data :=
             match Fetch.verses_data Fetch.init !! strip (u "12 ") with
             | Some _ => Fetch.verses_data Fetch.init
             | None => <[strip (u "12 ") := []]> (Fetch.verses_data Fetch.init)
             end;
           Fetch.current_verse_num := Some (strip (u "12 "));
           Fetch.ignore_next_text_node_if_matches_num := false |}.
Proof.
  split; [reflexivity|]. split; [reflexivity|].
  exact (X4_verse_label_consumed frag Fetch.init [u "versenum"] (u "12 ")
           eq_refl eq_refl).
Defined.

(** ** Where the accumulated text comes from *)

Section TraversalExtras.
Import Fetch.
Context (L : pylib).

(** What one iteration does to one accumulator. *)
Lemma step_data st n st' k parts' :
  step L st n = Ok st' -> verses_data st' !! k = Some parts' ->
  (marker L n = Some k /\ parts' = [])
  \/ exists parts, verses_data st !! k = Some parts
       /\ (parts' = parts \/ parts' = parts ++ [nl]
           \/ exists plain s, n = NavigableString plain s /\ parts' = parts ++ [s]).
Proof.
  intros Hs Hk. destruct n as [name cls ch|plain s]; unfold step in Hs.
  - destruct (marker L (Tag name cls ch)) as [num|] eqn:Hm.
    + injection Hs as <-. simpl in Hk.
      destruct (verses_data st !! num) as [p|] eqn:E; [right; eauto|].
      rewrite lookup_insert in Hk. case_decide as Hnum; [|right; eauto].
      left. injection Hk as <-. subst k. auto.
    + apply bind_inv in Hs as (st1 & H1 & H2).
      assert (Hst1 : forall q, verses_data st1 !! k = Some q ->
                exists parts, verses_data st !! k = Some parts
                              /\ (q = parts \/ q = parts ++ [nl])).
      { intros q Hq.
        destruct (has_name (u "br") (Tag name cls ch)
                  && truthy (current_verse_num st)).
        - apply bind_inv in H1 as (parts & Hp & H1). injection H1 as <-.
          simpl in Hq. unfold getitem in Hp.
          destruct (verses_data st !! default [] (current_verse_num st))
            as [p|] eqn:E; [|discriminate].
          injection Hp as ->.
          destruct (_ || _); [|eauto].
          rewrite lookup_insert in Hq. case_decide as Hcur; [|eauto].
          injection Hq as <-. subst k. eauto.
        - injection H1 as <-. eauto. }
      right.
      destruct (has_name (u "span") _ && _); injection H2 as <-;
        destruct (Hst1 _ Hk) as (parts & Hp & Hq); exists parts;
        (split; [exact Hp|]); destruct Hq; auto.
  - right. destruct (truthy (current_verse_num st)); [|injection Hs as <-; eauto].
    destruct (_ && _); [injection Hs as <-; eauto|].
    apply bind_inv in Hs as (parts & Hp & Hs). injection Hs as <-.
    simpl in Hk. unfold getitem in Hp.
    destruct (verses_data st !! default [] (current_verse_num st))
      as [p|] eqn:E; [|discriminate].
    injection Hp as ->.
    rewrite lookup_insert in Hk. case_decide as Hcur; [|eauto].
    injection Hk as <-. subst k. eauto 8.
Qed.

(** Every accumulator was opened by a marker of the list, and holds
    nothing but newlines and strings of the list. *)
Lemma traverse_data ns st st' k parts' :
  traverse L st ns = Ok st' -> verses_data st' !! k = Some parts' ->
  ((exists n, n ∈ ns /\ marker L n = Some k)
   \/ is_Some (verses_data st !! k))
  /\ forall part, part ∈ parts' ->
       part = nl \/ (exists plain, NavigableString plain part ∈ ns)
       \/ exists parts, verses_data st !! k = Some parts /\ part ∈ parts.
Proof.
  revert st st' parts'.
  induction ns as [|n ns IH] using rev_ind; intros st st' parts' Ht Hk.
  { injection Ht as <-. split; [right; eauto|]. intros part Hp. eauto. }
  assert (Happ : forall l st0, traverse L st0 (l ++ [n]) =
                               (st1 ← traverse L st0 l; step L st1 n)).
  { induction l as [|m l IHl]; intros st0; simpl.
    - destruct (step L st0 n); reflexivity.
    - destruct (step L st0 m) as [st1|e]; [|reflexivity].
      rewrite !bind_Ok. apply IHl. }
  rewrite Happ in Ht. apply bind_inv in Ht as (st1 & Ht & Hs).
  destruct (step_data _ _ _ _ _ Hs Hk) as [[Hm ->]|(parts & Hp & Hq)].
  { split; [left; exists n; split; [apply elem_of_app; right; left|exact Hm]|].
    intros part Hpart. apply elem_of_nil in Hpart. destruct Hpart. }
  destruct (IH _ _ _ Ht Hp) as [Hkey Hparts]. split.
  { destruct Hkey as [(m & Hm & Hmk)|Hkey]; [left|right; exact Hkey].
    exists m. split; [apply elem_of_app; left; exact Hm|exact Hmk]. }
  assert (Hold : forall part, part ∈ parts ->
            part = nl \/ (exists plain, NavigableString plain part ∈ ns ++ [n])
            \/ exists parts0, verses_data st !! k = Some parts0 /\ part ∈ parts0).
  { intros part Hpart.
    destruct (Hparts part Hpart) as [->|[[plain Hin]|Hin]]; auto.
    right. left. exists plain. apply elem_of_app. left. exact Hin. }
  intros part Hpart.
  destruct Hq as [->|[->|(plain & s & -> & ->)]]; [auto| |].
  - apply elem_of_app in Hpart as [Hpart|Hpart]; [auto|].
    left. apply list_elem_of_singleton in Hpart. exact Hpart.
  - apply elem_of_app in Hpart as [Hpart|Hpart]; [auto|].
    apply list_elem_of_singleton in Hpart. subst part.
    right. left. exists plain. apply elem_of_app. right. left.
Qed.

Lemma descendants_string_kept p plain s n :
  NavigableString plain s ∈ descendants (decompose_all p n) ->
  NavigableString plain s ∈ descendants n.
Proof.
  intros H. apply list_elem_of_In in H.
  apply descendants_decompose_kept in H as (m0 & Hm0 & Heq & _).
  destruct m0; [discriminate|]. simpl in Heq. injection Heq as -> ->.
  apply list_elem_of_In, Hm0.
Qed.

(** X5: the text the loop accumulates is never made up: every piece
    of every accumulator is the newline added for a line break, or a
    string of the container that the pre-processing kept. *)
Theorem X5_accumulated_text_from_page container st k parts part :
  scan L container = Ok st ->
  verses_data st !! k = Some parts -> part ∈ parts ->
  part = nl
  \/ exists plain,
       NavigableString plain part ∈ descendants (preprocess container)
       /\ NavigableString plain part ∈ descendants container.
Proof.
  intros Hs Hk Hpart. unfold scan in Hs.
  destruct (traverse_data _ _ _ _ _ Hs Hk) as [_ Hparts].
  destruct (Hparts part Hpart) as [->|[[plain Hin]|(p0 & Hp0 & _)]]; auto.
  - right. exists plain. split; [exact Hin|].
    unfold preprocess in Hin.
    apply descendants_string_kept in Hin.
    apply descendants_string_kept in Hin. exact Hin.
  - simpl in Hp0. rewrite lookup_empty in Hp0. discriminate.
Qed.

(** X6: every verse number the loop records is the number a marker
    tag of the pre-processed container gave. *)
Theorem X6_keys_are_marker_numbers container st k :
  scan L container = Ok st -> is_Some (verses_data st !! k) ->
  exists n, n ∈ descendants (preprocess container)
            /\ is_marker_tag n = true /\ marker L n = Some k.
Proof.
  intros Hs [parts Hk]. unfold scan in Hs.
  destruct (traverse_data _ _ _ _ _ Hs Hk) as [[(n & Hn & Hm)|[x Hx]] _].
  - exists n. split; [exact Hn|]. split; [|exact Hm].
    exact (marker_is_marker_tag L _ _ Hm).
  - simpl in Hx. rewrite lookup_empty in Hx. discriminate.
Qed.

Lemma isdigit_ascii_digits (s : str) :
  isdigit L s = true -> forallb ascii_digit s = true ->
  s <> [] /\ Forall (fun c => ascii_digit c = true) s.
Proof.
  intros Hd Ha. split; [intros ->; discriminate|].
  apply Forall_forall. intros c Hc. apply list_elem_of_In in Hc.
  rewrite forallb_forall in Ha. apply Ha, Hc.
Qed.

(** X7: with the container there and every verse number of a marker
    written in ASCII digits, no more of them than [int] takes, the
    Extractor returns its record: [int] accepts every key of the
    accumulator. *)
Theorem X7_ascii_markers_parse doc book_code version chap container :
  find_container doc = Some container ->
  forallb (fun n => match marker L n with
                    | Some num =>
                        forallb ascii_digit num
                        && (Z.of_nat (List.length num) <=? int_max_str_digits)%Z
                    | None => true
                    end) (descendants (preprocess container)) = true ->
  exists st vs,
    scan L container = Ok st
    /\ (forall k, is_Some (verses_data st !! k) ->
          is_Some (py_int_limited L k))
    /\ parse_chapter_html L doc book_code version chap =
       Ok {| book := upper L book_code; rev := version;
             chapter := str_of_Z chap; verses := vs |}.
Proof.
  intros Hc Hall.
  destruct (scan_returns L container) as (st & Hs & _ & _).
  assert (Hint : forall k, is_Some (verses_data st !! k) ->
                           py_int_limited L k = py_int L k
                           /\ is_Some (py_int L k)).
  { intros k [parts Hk]. pose proof Hs as Hs'. unfold scan in Hs'.
    destruct (traverse_data _ _ _ _ _ Hs' Hk) as [[(n & Hn & Hm)|[x Hx]] _].
    - rewrite forallb_forall in Hall.
      apply list_elem_of_In in Hn. specialize (Hall n Hn). rewrite Hm in Hall.
      apply andb_prop in Hall as [Hascii Hlen]. apply Z.leb_le in Hlen.
      destruct (isdigit_ascii_digits k (marker_isdigit L _ _ Hm) Hascii)
        as [Hne Hds].
      split; [exact (py_int_limited_short L k Hlen)|].
      rewrite (py_int_ascii_digits L k Hne Hds).
      rewrite (int_digits_value L k 0 Hds). simpl. eauto.
    - simpl in Hx. rewrite lookup_empty in Hx. discriminate. }
  destruct (format_output_returns L (verses_data st)) as [vs Hvs].
  { intros k Hk. apply Hint, Hk. }
  exists st, vs. split; [exact Hs|]. split.
  - intros k Hk. destruct (Hint k Hk) as [-> H]. exact H.
  - unfold parse_chapter_html. rewrite Hc, Hs, bind_Ok, Hvs. reflexivity.
Qed.

(** X8: two line breaks in a row leave what one leaves: the newline
    is added once. *)
Theorem X8_line_breaks_collapse st cls ch :
  traverse L st [Tag (u "br") cls ch; Tag (u "br") cls ch] =
  traverse L st [Tag (u "br") cls ch].
Proof.
  assert (Hm : marker L (Tag (u "br") cls ch) = None) by reflexivity.
  assert (Hspan : has_name (u "span") (Tag (u "br") cls ch) = false)
    by reflexivity.
  assert (Hbr : has_name (u "br") (Tag (u "br") cls ch) = true)
    by reflexivity.
  assert (Hstep : forall s, step L s (Tag (u "br") cls ch) =
            if truthy (current_verse_num s) then
              let cur := default [] (current_verse_num s) in
              parts ← getitem (verses_data s) cur;
              Ok {| verses_data :=
                      if bool_decide (parts = [])
                         || negb (str_eqb (List.last parts []) nl)
                      then <[cur := parts ++ [nl]]> (verses_data s)
                      else verses_data s;
                    current_verse_num := current_verse_num s;
                    ignore_next_text_node_if_matches_num := false |}
            else Ok s).
  { intros s. unfold step. rewrite Hm, Hspan, Hbr. simpl andb.
    destruct (truthy (current_verse_num s)); [|reflexivity].
    destruct (getitem _ _); reflexivity. }
  cbn [traverse]. rewrite Hstep.
  destruct (truthy (current_verse_num st)) eqn:Ht.
  - cbv zeta. unfold getitem.
    destruct (verses_data st !! default [] (current_verse_num st))
      as [parts|] eqn:E; [|reflexivity].
    rewrite !bind_Ok, Hstep. cbn [current_verse_num verses_data].
    rewrite Ht. cbv zeta. unfold getitem.
    destruct (bool_decide (parts = []) || negb (str_eqb (List.last parts []) nl))
      eqn:Hlast.
    + rewrite lookup_insert_eq, !bind_Ok.
      assert (Hl : bool_decide (parts ++ [nl] = [])
                   || negb (str_eqb (List.last (parts ++ [nl]) []) nl) = false).
      { rewrite last_last. unfold str_eqb.
        rewrite (bool_decide_eq_true_2 (nl = nl)) by reflexivity.
        rewrite bool_decide_eq_false_2; [reflexivity|].
        destruct parts; discriminate. }
      rewrite Hl. reflexivity.
    + rewrite E, !bind_Ok, Hlast. reflexivity.
  - rewrite !bind_Ok, Hstep, Ht. reflexivity.
Qed.

End TraversalExtras.


Lemma philemon_scanned :
  Fetch.scan frag Samples.philemon_container = Ok Samples.philemon_state.
Proof. vm_compute. reflexivity. Qed.

Lemma X5_witness :
  Fetch.scan frag Samples.philemon_container = Ok Samples.philemon_state
  /\ Fetch.verses_data Samples.philemon_state !! u "1"
     = Some [u "Paul, a prisoner"]
  /\ (u "Paul, a prisoner" = Fetch.nl
      \/ exists plain,
           Fetch.NavigableString plain (u "Paul, a prisoner")
             ∈ Fetch.descendants (Fetch.preprocess Samples.philemon_container)
           /\ Fetch.NavigableString plain (u "Paul, a prisoner")
                ∈ Fetch.descendants Samples.philemon_container).
Proof.
  assert (Hk : Fetch.verses_data Samples.philemon_state !! u "1"
               = Some [u "Paul, a prisoner"]) by (vm_compute; reflexivity).
  split; [exact philemon_scanned|]. split; [exact Hk|].
  exact (X5_accumulated_text_from_page frag _ _ _ _ _ philemon_scanned Hk
           ltac:(left)).
Defined.

Lemma X6_witness :
  Fetch.scan frag Samples.philemon_container = Ok Samples.philemon_state
  /\ is_Some (Fetch.verses_data Samples.philemon_state !! u "1")
  /\ exists n, n ∈ Fetch.descendants (Fetch.preprocess Samples.philemon_container)
               /\ Fetch.is_marker_tag n = true
               /\ Fetch.marker frag n = Some (u "1").
Proof.
  assert (Hk : is_Some (Fetch.verses_data Samples.philemon_state !! u "1")).
  { exists [u "Paul, a prisoner"]. vm_compute. reflexivity. }
  split; [exact philemon_scanned|]. split; [exact Hk|].
  exact (X6_keys_are_marker_numbers frag _ _ _ philemon_scanned Hk).
Defined.

Lemma X7_witness :
  Fetch.find_container Samples.gap_page
    = Some (Samples.div_ "passage-content"
              [Samples.sup_ "versenum" [Samples.label "1"]; Samples.txt "first";
               Fetch.Tag (u "br") [] [];
               Samples.sup_ "versenum" [Samples.label "3"];
               Samples.txt "  third
 one "])
  /\ exists st vs,
       Fetch.scan frag
         (Samples.div_ "passage-content"
            [Samples.sup_ "versenum" [Samples.label "1"]; Samples.txt "first";
             Fetch.Tag (u "br") [] [];
             Samples.sup_ "versenum" [Samples.label "3"];
             Samples.txt "  third
 one "]) = Ok st
       /\ (forall k, is_Some (Fetch.verses_data st !! k) ->
             is_Some (py_int_limited frag k))
       /\ Fetch.parse_chapter_html frag Samples.gap_page (u "gen") (u "NIV") 1 =
          Ok {| Fetch.book := upper frag (u "gen"); Fetch.rev := u "NIV";
                Fetch.chapter := str_of_Z 1; Fetch.verses := vs |}.
Proof.
  split; [reflexivity|].
  exact (X7_ascii_markers_parse frag Samples.gap_page (u "gen") (u "NIV") 1 _
           eq_refl eq_refl).
Defined.

(** ** The two texts of a verse *)

Section TextFacts.

Lemma lstrip_split (s : str) :
  exists w, s = w ++ lstrip s /\ Forall (fun c => isspace c = true) w.
Proof.
  induction s as [|c s (w & Hs & Hw)]; [exists []; auto|].
  simpl. destruct (isspace c) eqn:Hc; [|exists []; auto].
  exists (c :: w). split; [simpl; congruence|constructor; assumption].
Qed.

Lemma rstrip_split (s : str) :
  exists w, s = rstrip s ++ w /\ Forall (fun c => isspace c = true) w.
Proof.
  destruct (lstrip_split (List.rev s)) as (w & Hs & Hw).
  exists (List.rev w). split.
  - unfold rstrip. rewrite <- rev_app_distr, <- Hs, rev_involutive. reflexivity.
  - apply Forall_forall. intros c Hc. apply list_elem_of_In in Hc.
    apply in_rev in Hc. rewrite Forall_forall in Hw.
    apply Hw, list_elem_of_In, Hc.
Qed.

Lemma lstrip_head (s : str) (c : N) :
  head (lstrip s) = Some c -> isspace c = false.
Proof.
  induction s as [|d s IH]; [discriminate|]. simpl.
  destruct (isspace d) eqn:Hd; [exact IH|]. simpl. intros [= <-]. exact Hd.
Qed.

Lemma rstrip_last (s : str) (c : N) :
  last (rstrip s) = Some c -> isspace c = false.
Proof.
  unfold rstrip. intros H. apply (lstrip_head (List.rev s)).
  destruct (lstrip (List.rev s)) as [|d z]; [discriminate|].
  simpl in H. rewrite last_snoc in H. exact H.
Qed.

Lemma strip_head (s : str) (c : N) :
  head (strip s) = Some c -> isspace c = false.
Proof.
  unfold strip. destruct (rstrip_split (lstrip s)) as (w & Hs & _).
  destruct (rstrip (lstrip s)) as [|d r] eqn:E; [discriminate|].
  simpl. intros [= <-]. apply (lstrip_head s). rewrite Hs. reflexivity.
Qed.

Lemma strip_strip (s : str) : strip (strip s) = strip s.
Proof.
  apply strip_id; [apply strip_head|]. unfold strip. apply rstrip_last.
Qed.

Lemma split_ws_aux_spaces (cur w : str) :
  Forall (fun c => isspace c = true) w ->
  split_ws_aux cur w = match cur with [] => [] | _ => [List.rev cur] end.
Proof.
  induction 1 as [|c w Hc _ IH] in cur |- *; [reflexivity|].
  simpl. rewrite Hc. destruct cur; [exact (IH [])|].
  rewrite (IH []). reflexivity.
Qed.

Lemma split_ws_aux_space_suffix (cur s w : str) :
  Forall (fun c => isspace c = true) w ->
  split_ws_aux cur (s ++ w) = split_ws_aux cur s.
Proof.
  intros Hw. revert cur. induction s as [|c s IH]; intros cur.
  - simpl. apply split_ws_aux_spaces, Hw.
  - simpl. destruct (isspace c); [|apply IH].
    rewrite (IH []). reflexivity.
Qed.

Lemma split_ws_lstrip (s : str) : split_ws (lstrip s) = split_ws s.
Proof.
  unfold split_ws. induction s as [|c s IH]; [reflexivity|].
  simpl. destruct (isspace c) eqn:Hc; [exact IH|].
  simpl. rewrite Hc. reflexivity.
Qed.

Lemma split_ws_strip (s : str) : split_ws (strip s) = split_ws s.
Proof.
  unfold strip. rewrite <- (split_ws_lstrip s).
  destruct (rstrip_split (lstrip s)) as (w & Hs & Hw).
  rewrite Hs at 2. unfold split_ws.
  rewrite split_ws_aux_space_suffix by exact Hw. reflexivity.
Qed.

Lemma split_ws_aux_replace (c : N) (cur s : str) :
  isspace c = true ->
  split_ws_aux cur (replace_char c [32] s) = split_ws_aux cur s.
Proof.
  intros Hc. revert cur. induction s as [|d s IH]; intros cur; [reflexivity|].
  unfold replace_char in *. cbn [List.flat_map].
  destruct (d =? c) eqn:Hd.
  - apply N.eqb_eq in Hd. subst d.
    cbn [app split_ws_aux]. rewrite Hc. change (isspace 32) with true.
    cbv iota. rewrite (IH []). reflexivity.
  - cbn [app split_ws_aux]. destruct (isspace d); [|apply IH].
    rewrite (IH []). reflexivity.
Qed.

Lemma split_ws_aux_nil (cur s : str) :
  split_ws_aux cur s = [] -> cur = [] /\ Forall (fun c => isspace c = true) s.
Proof.
  revert cur. induction s as [|c s IH]; intros cur; simpl.
  - destruct cur; [auto|discriminate].
  - destruct (isspace c) eqn:Hc.
    + destruct cur; [|discriminate]. intros H.
      destruct (IH _ H) as [_ Hs]. auto.
    + intros H. destruct (IH _ H) as [Hcur _]. discriminate.
Qed.

Lemma lstrip_spaces (s : str) :
  Forall (fun c => isspace c = true) s -> lstrip s = [].
Proof. induction 1 as [|c s Hc _ IH]; [reflexivity|]. simpl. rewrite Hc. exact IH. Qed.

(** A string without a word strips to the empty string. *)
Lemma split_ws_nil_strip (s : str) : split_ws s = [] -> strip s = [].
Proof.
  intros H. apply split_ws_aux_nil in H as [_ H].
  unfold strip. rewrite (lstrip_spaces s H). reflexivity.
Qed.

Lemma strip_join_tokens (ts : list str) :
  Forall token ts -> strip (join (u " ") ts) = join (u " ") ts.
Proof.
  intros Hts. destruct ts as [|t ts]; [reflexivity|].
  assert (Hsp : spaced true (join [32] (t :: ts)) = true).
  { apply spaced_join; [exact Hts|discriminate]. }
  destruct (spaced_single_line _ Hsp) as (_ & _ & _ & Hh & Hl).
  apply strip_id; assumption.
Qed.

Lemma join_tokens_nil (ts : list str) :
  Forall token ts -> join (u " ") ts = [] -> ts = [].
Proof.
  intros Hts. destruct ts as [|t ts]; [reflexivity|].
  apply Forall_cons in Hts as [[Ht _] _].
  destruct t; [congruence|]. destruct ts; discriminate.
Qed.

Context (L : pylib).

(** The readable text is the text with every run of white space
    turned into one space. *)
Lemma format_verse_texts (data : gmap str (list str)) (i : Z) :
  strip (Fetch.text (Fetch.format_verse L data i))
    = Fetch.text (Fetch.format_verse L data i)
  /\ Fetch.readableText (Fetch.format_verse L data i)
     = join (u " ") (split_ws (Fetch.text (Fetch.format_verse L data i))).
Proof.
  unfold Fetch.format_verse. cbn [Fetch.text Fetch.readableText].
  split; [apply strip_strip|].
  unfold split_ws at 1. change (u " ") with [32].
  rewrite split_ws_aux_replace by reflexivity.
  rewrite split_ws_aux_replace by reflexivity.
  fold (split_ws (unescape L (concat (default [] (data !! str_of_Z i))))).
  rewrite strip_join_tokens by apply split_ws_tokens.
  rewrite split_ws_strip. reflexivity.
Qed.

(** X9: in every verse record the Extractor returns, the text has no
    white space at either end, and the readable text is the words of
    the text with one space between them. *)
Theorem X9_readable_text_from_text doc book_code version chap r :
  Fetch.parse_chapter_html L doc book_code version chap = Ok r ->
  Forall (fun v => strip (Fetch.text v) = Fetch.text v
                   /\ Fetch.readableText v
                      = join (u " ") (split_ws (Fetch.text v)))
    (Fetch.verses r).
Proof.
  intros H.
  apply parse_chapter_html_inv in H as (container & st & _ & _ & H).
  apply format_output_spec in H as (m & _ & ->).
  apply Forall_fmap, Forall_forall. intros i _. apply format_verse_texts.
Qed.

End TextFacts.

Lemma X9_witness :
  Fetch.parse_chapter_html frag Samples.gap_page (u "gen") (u "NIV") 1 =
  Ok Samples.gap_parsed
  /\ Forall (fun v => strip (Fetch.text v) = Fetch.text v
                      /\ Fetch.readableText v
                         = join (u " ") (split_ws (Fetch.text v)))
       (Fetch.verses Samples.gap_parsed).
Proof.
  split; [exact gap_page_parsed|].
  exact (X9_readable_text_from_text frag _ _ _ _ _ gap_page_parsed).
Defined.

(** ** More about the range resolver *)

Section ResolverExtras.
Import Fetch.
Context (L : pylib).

Lemma ascii_digit_bounds (c : N) : ascii_digit c = true -> 48 <= c <= 57.
Proof.
  unfold ascii_digit. intros H. apply andb_prop in H as [H1 H2].
  apply N.leb_le in H1, H2. lia.
Qed.


Lemma digits_no_space (c : N) : ascii_digit c = true -> isspace c = false.
Proof.
  intros H. apply ascii_digit_bounds in H. unfold isspace.
  repeat match goal with
         | |- _ || _ = false => apply orb_false_iff; split
         | |- _ && _ = false => apply andb_false_iff
         | |- (_ =? _) = false => apply N.eqb_neq; lia
         end.
  - right. apply N.leb_gt. lia.
  - right. apply N.leb_gt. lia.
  - left. apply N.leb_gt. lia.
Qed.



Lemma str_of_Z_digits (z : Z) :
  (0 <= z)%Z ->
  str_of_Z z <> [] /\ Forall (fun c => ascii_digit c = true) (str_of_Z z).
Proof.
  intros Hz. unfold str_of_Z.
  destruct (z <? 0)%Z eqn:E; [apply Z.ltb_lt in E; lia|].
  split; [|apply digits_of_uint_ascii].
  intros H. apply digits_of_uint_nil in H. exact (to_uint_not_Nil _ H).
Qed.

Lemma split_on_aux_app (sep : N) (cur x y : str) :
  split_on_aux sep cur (x ++ sep :: y) =
  split_on_aux sep cur x ++ split_on sep y.
Proof.
  revert cur. induction x as [|c x IH]; intros cur; simpl.
  - rewrite N.eqb_refl. reflexivity.
  - destruct (c =? sep); [|apply IH].
    rewrite IH. reflexivity.
Qed.

Lemma split_on_app (sep : N) (x y : str) :
  split_on sep (x ++ sep :: y) = split_on sep x ++ split_on sep y.
Proof. apply split_on_aux_app. Qed.




Lemma not_all_with (sep : N) (x y : str) :
  (sep <? 128) = true -> ascii_upper sep = false -> sep ∉ u "all" ->
  str_eqb (lower L (x ++ sep :: y)) (u "all") = false.
Proof.
  intros H1 H2 H3. unfold str_eqb. apply bool_decide_eq_false_2. intros H.
  apply H3. rewrite <- H. unfold lower.
  rewrite flat_map_app. cbn [List.flat_map]. unfold lower_char at 2.
  rewrite H1, H2. apply elem_of_app. right. left.
Qed.

Lemma parse_range_parts (arg : str) (max_chaps : Z) :
  str_eqb (lower L arg) (u "all") = false ->
  parse_range L arg max_chaps =
  (List.filter (in_book max_chaps)
     (List.concat (fst <$> (part_values L <$> split_on 44 arg))),
   List.concat (snd <$> (part_values L <$> split_on 44 arg))).
Proof. intros H. unfold parse_range. rewrite H. reflexivity. Qed.


(** X11: the parts of an argument are read one by one: the chapters and
    the warnings of [x,y] are those of [x] followed by those of [y],
    when neither is the word all. *)
Theorem X11_comma_concatenates (x y : str) (max_chaps : Z) :
  str_eqb (lower L x) (u "all") = false ->
  str_eqb (lower L y) (u "all") = false ->
  parse_range L (x ++ u "," ++ y) max_chaps
  = (fst (parse_range L x max_chaps) ++ fst (parse_range L y max_chaps),
     snd (parse_range L x max_chaps) ++ snd (parse_range L y max_chaps)).
Proof.
  intros Hx Hy. change (u "," ++ y) with (44 :: y).
  rewrite parse_range_parts
    by (apply not_all_with; [reflexivity|reflexivity|];
        intros H; repeat (apply elem_of_cons in H as [H|H]; [discriminate|]);
        apply elem_of_nil in H; exact H).
  rewrite (parse_range_parts x) by exact Hx.
  rewrite (parse_range_parts y) by exact Hy.
  cbn [fst snd]. rewrite split_on_app, !fmap_app, !concat_app.
  rewrite List.filter_app. reflexivity.
Qed.

End ResolverExtras.


Lemma X11_witness :
  Fetch.parse_range frag (u "1-3" ++ u "," ++ u "x") 4
  = (fst (Fetch.parse_range frag (u "1-3") 4)
       ++ fst (Fetch.parse_range frag (u "x") 4),
     snd (Fetch.parse_range frag (u "1-3") 4)
       ++ snd (Fetch.parse_range frag (u "x") 4)).
Proof. exact (X11_comma_concatenates frag (u "1-3") (u "x") 4 eq_refl eq_refl). Defined.

(** ** The catalog and [normalise_book] *)

Section CatalogExtras.
Import Fetch.
Context (L : pylib).

(** Every alias of the table leads to its own row, the first alias of
    the row is the first key of [BOOK_INFO] with the row's code and
    order, and the row's code has its number of chapters. *)
Lemma names_orders_checked :
  forallb
    (fun row : Z * str * list str =>
       forallb (fun n => bool_decide (book_info n = Some (row.1.2, row.1.1))) row.2
       && bool_decide
            (List.find (fun '(_, (c, o)) => str_eqb c row.1.2 && (o =? row.1.1)%Z)
               BOOK_INFO
             = Some (default [] (head row.2), (row.1.2, row.1.1)))
       && bool_decide (is_Some (CHAPS !! row.1.2)))
    _names_orders = true.
Proof. vm_compute. reflexivity. Qed.

(** No alias is written twice: the keys of [BOOK_INFO] are the aliases
    in the order of the table. *)
Lemma book_info_keys :
  fst <$> BOOK_INFO = List.concat (snd <$> _names_orders).
Proof. vm_compute. reflexivity. Qed.

Lemma alias_in_table (key : str) :
  key ∈ fst <$> BOOK_INFO <->
  exists order code names, (order, code, names) ∈ _names_orders /\ key ∈ names.
Proof.
  rewrite book_info_keys, list_elem_of_In, in_concat. split.
  - intros (names & Hn & Hk). apply list_elem_of_In in Hn, Hk.
    apply list_elem_of_fmap in Hn as ([[o c] ns] & -> & Hr).
    exists o, c, ns. auto.
  - intros (o & c & ns & Hr & Hk). exists ns.
    split; [|apply list_elem_of_In, Hk].
    apply list_elem_of_In, list_elem_of_fmap. exists (o, c, ns). auto.
Qed.

(** X12: [normalise_book] ends the program exactly when the input,
    lowered and stripped, is no alias of the table; otherwise it returns
    the first alias of the row in title case with the code and the order
    of the row, and that code has its number of chapters in [CHAPS]. It
    never raises. *)
Theorem X12_normalise_book (user_input : str) :
  ((forall order code names,
      (order, code, names) ∈ _names_orders ->
      strip (lower L user_input) ∉ names)
   /\ normalise_book L user_input = SystemExit user_input)
  \/ exists order code names,
       (order, code, names) ∈ _names_orders
       /\ strip (lower L user_input) ∈ names
       /\ normalise_book L user_input
          = Returns (title L (default [] (head names)), code, order)
       /\ is_Some (CHAPS !! code).
Proof.
  unfold normalise_book. set (key := strip (lower L user_input)).
  destruct (book_info key) as [[code order]|] eqn:E.
  - right. pose proof E as E0. unfold book_info in E0.
    destruct (List.find _ BOOK_INFO) as [p|] eqn:F; [|discriminate].
    apply find_some in F as [Hp Hkey].
    apply bool_decide_eq_true_1 in Hkey.
    assert (Hin : key ∈ fst <$> BOOK_INFO).
    { apply list_elem_of_fmap. exists p. split; [auto|].
      apply list_elem_of_In, Hp. }
    apply alias_in_table in Hin as (o & c & ns & Hr & Hk).
    pose proof names_orders_checked as Hall.
    rewrite forallb_forall in Hall.
    specialize (Hall (o, c, ns) ltac:(apply list_elem_of_In, Hr)).
    cbn [fst snd] in Hall.
    apply andb_prop in Hall as [Hall Hchaps].
    apply andb_prop in Hall as [Hnames Hfirst].
    rewrite forallb_forall in Hnames.
    specialize (Hnames key ltac:(apply list_elem_of_In, Hk)).
    apply bool_decide_eq_true_1 in Hnames, Hfirst, Hchaps.
    assert (Heq : Some (code, order) = Some (c, o)).
    { rewrite <- Hnames, <- E. reflexivity. }
    injection Heq as -> ->.
    exists o, c, ns. rewrite Hfirst. auto.
  - left. split; [|reflexivity].
    intros o c ns Hr Hk.
    assert (Hin : key ∈ fst <$> BOOK_INFO).
    { apply alias_in_table. exists o, c, ns. auto. }
    apply list_elem_of_fmap in Hin as (p & Hkey & Hp).
    unfold book_info in E.
    destruct (List.find _ BOOK_INFO) as [q|] eqn:F; [discriminate|].
    apply list_elem_of_In in Hp.
    pose proof (find_none _ _ F p Hp) as Hn. simpl in Hn.
    unfold str_eqb in Hn. apply bool_decide_eq_false_1 in Hn. congruence.
Qed.

End CatalogExtras.

(** ** The files [download_book] writes *)

Section OrchestratorExtras.
Import Fetch.
Context (L : pylib) (W : world).

Lemma parse_chapter_html_fields doc book_code version chap r :
  parse_chapter_html L doc book_code version chap = Ok r ->
  book r = upper L book_code /\ rev r = version /\ chapter r = str_of_Z chap.
Proof.
  unfold parse_chapter_html. destruct (find_container doc); [|discriminate].
  intros H. apply bind_inv in H as (st & _ & H).
  apply bind_inv in H as (vs & _ & [= <-]). auto.
Qed.

(** A task changes its own file at most, and what it writes is the
    record of its chapter, with verses. *)
Lemma grab_frame version book_name book_code c out_dir fs r fs' msgs p :
  grab L W version book_name book_code c out_dir fs = Ok (r, fs', msgs) ->
  fs' !! p = fs !! p
  \/ exists data,
       p = chapter_path out_dir book_code c /\ fs' !! p = Some data
       /\ verses data <> [] /\ book data = upper L book_code
       /\ rev data = version /\ chapter data = str_of_Z c.
Proof.
  unfold grab.
  destruct (fetch_html W (chapter_url version book_name c)) as [doc|e].
  2:{ rewrite bind_Raise. destruct e; intros [= <- <- <-]; left; reflexivity. }
  rewrite bind_Ok.
  destruct (parse_chapter_html L doc book_code version c) as [data|e] eqn:Hp.
  2:{ destruct e; intros [= <- <- <-]; left; reflexivity. }
  case_bool_decide as Hv; [intros [= <- <- <-]; left; reflexivity|].
  destruct (mkdir W out_dir); [|discriminate]. rewrite bind_Ok.
  destruct (write_text W _); [|discriminate]. rewrite bind_Ok.
  intros [= <- <- <-].
  destruct (decide (p = chapter_path out_dir book_code c)) as [->|Hne].
  - right. exists data. rewrite lookup_insert_eq.
    destruct (parse_chapter_html_fields _ _ _ _ _ Hp) as (? & ? & ?). auto 7.
  - left. rewrite lookup_insert_ne by congruence. reflexivity.
Qed.

Lemma run_tasks_frame version pretty book_code out_dir cl k0 fs log0 k fs' log p :
  run_tasks L W version pretty book_code out_dir cl k0 fs log0 = Ok (k, fs', log) ->
  fs' !! p = fs !! p
  \/ exists c data,
       c ∈ cl /\ p = chapter_path out_dir book_code c /\ fs' !! p = Some data
       /\ verses data <> [] /\ book data = upper L book_code
       /\ rev data = version /\ chapter data = str_of_Z c.
Proof.
  revert k0 fs log0. induction cl as [|c cl IH]; intros k0 fs log0 H; simpl in H.
  - injection H as <- <- <-. left. reflexivity.
  - apply bind_inv in H as ([[r fs1] msgs] & Hg & H).
    destruct (IH _ _ _ H) as [Hsame|(c' & data & Hc' & Hrest)].
    + destruct (grab_frame _ _ _ _ _ _ _ _ _ p Hg) as [Hfs|(data & Hp & Hd & Hrest)].
      * left. congruence.
      * right. exists c, data. split; [left|]. split; [exact Hp|].
        split; [congruence|exact Hrest].
    + right. exists c', data. split; [right; exact Hc'|exact Hrest].
Qed.

(** X13: [download_book] touches the chapter files of the chapters
    asked for, in the folder of the book, and no other file; a file it
    wrote holds the record of that chapter, with at least one verse. *)
Theorem X13_download_book_frame version book_name book_code order chapters
    dest_root concurrency fs r fs' log p :
  download_book L W version book_name book_code order chapters dest_root
    concurrency fs = Ok (r, fs', log) ->
  fs' !! p = fs !! p
  \/ exists max_chaps c data,
       CHAPS !! book_code = Some max_chaps
       /\ c ∈ fst (parse_range L chapters max_chaps)
       /\ p = chapter_path
                (dest_root ++ [upper L version;
                               format_d 2 order ++ u "_" ++ book_code])
                book_code c
       /\ fs' !! p = Some data
       /\ verses data <> [] /\ book data = upper L book_code
       /\ rev data = upper L version /\ chapter data = str_of_Z c.
Proof.
  unfold download_book.
  destruct (CHAPS !! book_code) as [max_chaps|]; [|intros [= <- <- <-]; auto].
  destruct (parse_range L chapters max_chaps) as [cl warnings] eqn:Hcl.
  case_bool_decide as Hne; [intros [= <- <- <-]; auto|].
  destruct (List.find _ BOOK_INFO) as [[alias ?]|]; [|discriminate].
  rewrite bind_Ok.
  destruct (mkdir W _) as [[]|e].
  2:{ destruct e; intros [=]; subst; auto. }
  destruct (concurrency <? 0)%Z; [discriminate|].
  destruct (concurrency =? 0)%Z; [discriminate|].
  intros H. apply bind_inv in H as ([[k1 fs1] log1] & Hrun & [= <- <- <-]).
  destruct (run_tasks_frame _ _ _ _ _ _ _ _ _ _ _ p Hrun)
    as [Hsame|(c & data & Hc & Hrest)]; [left; exact Hsame|].
  right. exists max_chaps, c, data. rewrite Hcl. split; [reflexivity|].
  split; [exact Hc|exact Hrest].
Qed.

End OrchestratorExtras.

Lemma X13_witness :
  Fetch.download_book frag Samples.open_world (u "niv") (u "Philemon")
    (u "phm") 57 (u "all") [u "data"] 10 ∅ =
  Ok (Fetch.PyNone, Samples.philemon_files, Samples.philemon_log)
  /\ (Samples.philemon_files !! [u "data"; u "NIV"; u "57_phm"; u "phm.001.json"]
      = (∅ : Fetch.files) !! [u "data"; u "NIV"; u "57_phm"; u "phm.001.json"]
      \/ exists max_chaps c data,
           Fetch.CHAPS !! u "phm" = Some max_chaps
           /\ c ∈ fst (Fetch.parse_range frag (u "all") max_chaps)
           /\ [u "data"; u "NIV"; u "57_phm"; u "phm.001.json"]
              = Fetch.chapter_path
                  ([u "data"] ++ [upper frag (u "niv");
                                  format_d 2 57 ++ u "_" ++ u "phm"])
                  (u "phm") c
           /\ Samples.philemon_files
                !! [u "data"; u "NIV"; u "57_phm"; u "phm.001.json"] = Some data
           /\ Fetch.verses data <> [] /\ Fetch.book data = upper frag (u "phm")
           /\ Fetch.rev data = upper frag (u "niv")
           /\ Fetch.chapter data = str_of_Z c).
Proof.
  split; [exact philemon_downloaded|].
  exact (X13_download_book_frame frag Samples.open_world _ _ _ _ _ _ _ _ _ _ _
           [u "data"; u "NIV"; u "57_phm"; u "phm.001.json"]
           philemon_downloaded).
Defined.

Section OrchestratorReturns.
Import Fetch.
Context (L : pylib) (W : world).





End OrchestratorReturns.


(** ** From the fetcher to the aggregator *)

Section RoundTrip.
Import Fetch Convert.
Context (L : pylib).

Lemma digits_value_str_of_N (n : N) : digits_value 0 (str_of_N n) = n.
Proof.
  pose proof (py_int_str_of_N L n) as H.
  assert (Hds : Forall (fun c => ascii_digit c = true) (str_of_N n))
    by apply digits_of_uint_ascii.
  rewrite py_int_ascii_digits in H; [|intros E; apply digits_of_uint_nil in E;
    exact (to_uint_not_Nil _ E)|exact Hds].
  rewrite (int_digits_value L _ 0 Hds) in H. simpl in H.
  injection H as H. apply N2Z.inj, H.
Qed.

Lemma digits_value_zeros (k : nat) (ds : str) :
  digits_value 0 (List.repeat 48 k ++ ds) = digits_value 0 ds.
Proof.
  unfold digits_value. rewrite fold_left_app. f_equal.
  induction k as [|k IH]; [reflexivity|exact IH].
Qed.

Lemma format_d_nonneg (w : nat) (z : Z) :
  (0 <= z)%Z ->
  format_d w z =
  List.repeat 48 (w - List.length (str_of_N (Z.to_N z))) ++ str_of_N (Z.to_N z).
Proof.
  intros Hz. unfold format_d.
  destruct (z <? 0)%Z eqn:E; [apply Z.ltb_lt in E; lia|].
  assert (Z.abs_N z = Z.to_N z) as -> by lia.
  simpl. rewrite Nat.sub_0_r. reflexivity.
Qed.

(** The number written with zeros in front is a string of ASCII digits
    with the value of the number. *)
Lemma format_d_digits (w : nat) (z : Z) :
  (0 <= z)%Z ->
  format_d w z <> []
  /\ Forall (fun c => ascii_digit c = true) (format_d w z)
  /\ Z.of_N (digits_value 0 (format_d w z)) = z.
Proof.
  intros Hz. rewrite (format_d_nonneg w z Hz). split; [|split].
  - intros E. apply app_eq_nil in E as [_ E].
    apply digits_of_uint_nil in E. exact (to_uint_not_Nil _ E).
  - apply Forall_app. split; [|apply digits_of_uint_ascii].
    apply Forall_forall. intros c Hc. apply list_elem_of_In in Hc.
    apply repeat_spec in Hc. subst c. reflexivity.
  - rewrite digits_value_zeros, digits_value_str_of_N. lia.
Qed.

Lemma ends_with_app (p s : str) : ends_with p (s ++ p) = true.
Proof.
  unfold ends_with. rewrite rev_app_distr, starts_with_app.
  apply bool_decide_eq_true_2. eauto.
Qed.

Lemma bind_ret {A} (m : result A) : (m ≫= Ok) = m.
Proof. destruct m; reflexivity. Qed.

(** X14: the file the fetcher writes for chapter [c] passes the glob
    of the aggregator, and the aggregator reads it as chapter [c]. *)
Theorem X14_chapter_file_name_read_back (out_dir folder : list str)
    (book_code : str) (c : Z) (e : entry)
    (acc : list chapter_out * list Convert.message) :
  (0 <= c)%Z ->
  exists jf,
    chapter_path out_dir book_code c = out_dir ++ [jf]
    /\ glob_chapter book_code jf = true
    /\ read_chapters L folder book_code [(jf, e)] acc
       = read_chapter L (folder ++ [jf]) e c acc.
Proof.
  intros Hc. destruct (format_d_digits 3 c Hc) as (Hne & Hds & Hval).
  exists (book_code ++ u "." ++ format_d 3 c ++ u ".json").
  split; [reflexivity|]. split.
  - unfold glob_chapter. rewrite (app_assoc book_code), starts_with_app.
    apply ends_with_app.
  - cbn [read_chapters].
    rewrite (match_chapter_file_padded L book_code _ Hne Hds).
    pose proof (chap_of_padded L book_code _ Hne Hds) as Hch.
    unfold chap_of in Hch.
    rewrite (match_chapter_file_padded L book_code _ Hne Hds) in Hch.
    simpl in Hch. unfold int_str. rewrite Hch, Hval, bind_Ok.
    apply bind_ret.
Qed.

Lemma take_while_all (p : N -> bool) (s : str) :
  Forall (fun c => p c = true) s -> take_while p s = s.
Proof. induction 1 as [|c s Hc _ IH]; [reflexivity|]. simpl. rewrite Hc, IH. reflexivity. Qed.

Lemma format_d_two_digits (order : Z) :
  (0 <= order <= 99)%Z -> exists d1 d2, format_d 2 order = [d1; d2].
Proof.
  intros H.
  assert (Hall : forallb (fun o => match format_d 2 o with
                                   | [_; _] => true
                                   | _ => false
                                   end) (seqZ 0 100) = true)
    by (vm_compute; reflexivity).
  rewrite forallb_forall in Hall.
  specialize (Hall order). 
  assert (Hin : In order (seqZ 0 100)).
  { apply list_elem_of_In, elem_of_seqZ. lia. }
  specialize (Hall Hin).
  destruct (format_d 2 order) as [|d1 [|d2 [|d3 s]]]; try discriminate. eauto.
Qed.

(** X15: the folder the fetcher makes for a book, [NN_code] with the
    order in two digits, is a book folder for the aggregator, which
    reads the same order and the same code from its name. *)
Theorem X15_book_folder_name_read_back (order : Z) (book_code : str) :
  (0 <= order <= 99)%Z ->
  book_code <> [] -> Forall (fun c => re_alnum c = true) book_code ->
  match_book_folder L (format_d 2 order ++ u "_" ++ book_code)
    = Some (format_d 2 order, book_code)
  /\ int_str L (format_d 2 order) = Ok order.
Proof.
  intros Ho Hne Hcode.
  destruct (format_d_digits 2 order ltac:(lia)) as (Hne2 & Hds & Hval).
  destruct (format_d_two_digits order Ho) as (d1 & d2 & E).
  split.
  - rewrite E in Hds |- *.
    apply Forall_cons in Hds as [H1 Hds]. apply Forall_cons in Hds as [H2 _].
    change ([d1; d2] ++ u "_" ++ book_code) with (d1 :: d2 :: 95 :: book_code).
    unfold match_book_folder.
    rewrite (re_digit_ascii L _ H1), (re_digit_ascii L _ H2).
    rewrite (take_while_all _ _ Hcode).
    destruct book_code; [congruence|reflexivity].
  - unfold int_str. rewrite (py_int_ascii_digits L _ Hne2 Hds).
    rewrite (int_digits_value L _ 0 Hds). simpl. rewrite Hval. reflexivity.
Qed.

(** X16: the two programs agree on the catalog: for every row of the
    fetcher's table the order is between 1 and 66, the code is made of
    lower-case letters and digits, and the aggregator has the name of
    the book. *)
Theorem X16_catalog_agrees (order : Z) (code : str) (names : list str) :
  (order, code, names) ∈ _names_orders ->
  (1 <= order <= 66)%Z
  /\ code <> [] /\ Forall (fun c => re_alnum c = true) code
  /\ is_Some (BOOKS !! code) /\ is_Some (CHAPS !! code).
Proof.
  intros Hr.
  assert (Hall : forallb
            (fun row : Z * str * list str =>
               (1 <=? row.1.1)%Z && (row.1.1 <=? 66)%Z
               && negb (bool_decide (row.1.2 = []))
               && forallb re_alnum row.1.2
               && bool_decide (is_Some (BOOKS !! row.1.2))
               && bool_decide (is_Some (CHAPS !! row.1.2)))
            _names_orders = true) by (vm_compute; reflexivity).
  rewrite forallb_forall in Hall.
  specialize (Hall (order, code, names) ltac:(apply list_elem_of_In, Hr)).
  cbn [fst snd] in Hall.
  repeat (apply andb_prop in Hall as [Hall ?]).
  repeat match goal with
         | H : bool_decide _ = true |- _ => apply bool_decide_eq_true_1 in H
         | H : negb (bool_decide _) = true |- _ =>
             apply negb_true_iff, bool_decide_eq_false_1 in H
         | H : (_ <=? _)%Z = true |- _ => apply Z.leb_le in H
         end.
  split; [lia|]. split; [assumption|]. split; [|split; assumption].
  apply Forall_forall. intros c Hc. apply list_elem_of_In in Hc.
  match goal with H : forallb _ _ = true |- _ =>
    rewrite forallb_forall in H; apply H, Hc end.
Qed.

End RoundTrip.

Section ChapterContents.
Import Fetch Convert.
Context (L : pylib).

(** A verse of the fetcher, converted: its number, and its readable
    text unescaped once more. *)
Lemma convert_verse_json (data : gmap str (list str)) (i : Z) :
  (0 <= i)%Z ->
  convert_verse L (verse_json (format_verse L data i))
  = Ok {| v_number := i;
          v_text := unescape L (readableText (format_verse L data i)) |}.
Proof.
  intros Hi.
  destruct (format_verse_texts L data i) as [Hstrip Hreadable].
  set (v := format_verse L data i) in *.
  assert (Hverse : verse v = str_of_Z i) by reflexivity.
  assert (Hrs : strip (readableText v) = readableText v).
  { unfold v, format_verse. cbn [readableText]. apply strip_strip. }
  unfold convert_verse, verse_json.
  assert (H1 : subscript (JDict [(u "verse", JStr (verse v));
                                 (u "text", JStr (Fetch.text v));
                                 (u "readableText", JStr (readableText v))])
                 (u "verse") = Ok (JStr (verse v))) by reflexivity.
  rewrite H1, bind_Ok. cbn [int_of]. unfold int_str.
  rewrite Hverse, (py_int_str_of_Z L i Hi), bind_Ok.
  assert (H2 : get (JDict [(u "verse", JStr (str_of_Z i));
                           (u "text", JStr (Fetch.text v));
                           (u "readableText", JStr (readableText v))])
                 (u "readableText") JNull = Ok (JStr (readableText v)))
    by reflexivity.
  assert (H3 : subscript (JDict [(u "verse", JStr (str_of_Z i));
                                 (u "text", JStr (Fetch.text v));
                                 (u "readableText", JStr (readableText v))])
                 (u "text") = Ok (JStr (Fetch.text v))) by reflexivity.
  unfold readable_or_text. rewrite H2, bind_Ok. cbn [is_true].
  case_bool_decide as Hr; cbn [negb].
  - rewrite H3, bind_Ok. cbn [clean_text]. rewrite bind_Ok.
    rewrite Hr in Hreadable. symmetry in Hreadable.
    apply join_tokens_nil in Hreadable; [|apply split_ws_tokens].
    apply split_ws_nil_strip in Hreadable. rewrite Hreadable, Hr. reflexivity.
  - rewrite bind_Ok. cbn [clean_text]. rewrite bind_Ok, Hrs. reflexivity.
Qed.

Lemma for_each_verses (data : gmap str (list str)) (l : list Z) :
  Forall (fun i => (0 <= i)%Z) l ->
  for_each (convert_verse L) (verse_json <$> (format_verse L data <$> l))
  = Ok ((fun i => {| v_number := i;
                     v_text := unescape L (readableText (format_verse L data i)) |})
          <$> l).
Proof.
  induction 1 as [|i l Hi _ IH]; [reflexivity|].
  cbn [fmap list_fmap for_each] in *.
  rewrite (convert_verse_json data i Hi), bind_Ok, IH. reflexivity.
Qed.

Lemma zip_with_fmap_r {A B C} (g : A -> B -> C) (f : A -> B) (l : list A) :
  zip_with g l (f <$> l) = (fun i => g i (f i)) <$> l.
Proof. induction l as [|i l IH]; [reflexivity|]. simpl. f_equal. exact IH. Qed.

(** X17: the file the fetcher writes for a chapter is read by the
    aggregator without an error: it gets the verses numbered 1, 2, ...
    in this order, each with the readable text of the record, unescaped
    a second time. *)
Theorem X17_chapter_file_contents_read_back doc book_code version chap r :
  parse_chapter_html L doc book_code version chap = Ok r ->
  read_verses L (chapter_entry r)
  = Ok (zip_with
          (fun i v => {| v_number := i;
                         v_text := unescape L (readableText v) |})
          (seqZ 1 (Z.of_nat (List.length (Fetch.verses r))))
          (Fetch.verses r)).
Proof.
  intros H.
  apply parse_chapter_html_inv in H as (container & st & _ & _ & H).
  apply format_output_spec in H as (m & _ & Hvs).
  unfold read_verses, chapter_entry, chapter_json. cbn [load]. rewrite bind_Ok.
  assert (Hget : forall b rv c vs,
            get (JDict [(u "book", JStr b); (u "rev", JStr rv);
                        (u "chapter", JStr c); (u "verses", JList vs)])
              (u "verses") (JList []) = Ok (JList vs)) by reflexivity.
  rewrite Hget, bind_Ok. cbn [iterate]. rewrite bind_Ok, Hvs.
  rewrite for_each_verses by (apply Forall_seqZ; intros; lia).
  f_equal. rewrite length_fmap, length_seqZ.
  assert (Hseq : seqZ 1 (Z.of_nat (Z.to_nat m)) = seqZ 1 m).
  { unfold seqZ. rewrite Nat2Z.id. reflexivity. }
  rewrite Hseq.
  rewrite (zip_with_fmap_r
             (fun i v => {| v_number := i; v_text := unescape L (readableText v) |})
             (format_verse L (verses_data st)) (seqZ 1 m)).
  reflexivity.
Qed.

End ChapterContents.

Lemma X14_witness :
  exists jf,
    Fetch.chapter_path [u "data"; u "NIV"; u "01_gen"] (u "gen") 7
      = [u "data"; u "NIV"; u "01_gen"] ++ [jf]
    /\ Convert.glob_chapter (u "gen") jf = true
    /\ Convert.read_chapters frag [u "NIV"; u "01_gen"] (u "gen")
         [(jf, chapter_entry Samples.gap_parsed)] ([], [])
       = Convert.read_chapter frag ([u "NIV"; u "01_gen"] ++ [jf])
           (chapter_entry Samples.gap_parsed) 7 ([], []).
Proof.
  exact (X14_chapter_file_name_read_back frag [u "data"; u "NIV"; u "01_gen"]
           [u "NIV"; u "01_gen"] (u "gen") 7 (chapter_entry Samples.gap_parsed)
           ([], []) ltac:(lia)).
Defined.

Lemma X15_witness :
  Convert.match_book_folder frag (format_d 2 57 ++ u "_" ++ u "phm")
    = Some (format_d 2 57, u "phm")
  /\ Convert.int_str frag (format_d 2 57) = Ok 57%Z.
Proof.
  exact (X15_book_folder_name_read_back frag 57 (u "phm") ltac:(lia)
           ltac:(discriminate) ltac:(repeat constructor)).
Defined.

Lemma X16_witness :
  (1 <= 57 <= 66)%Z
  /\ u "phm" <> [] /\ Forall (fun c => Convert.re_alnum c = true) (u "phm")
  /\ is_Some (Convert.BOOKS !! u "phm") /\ is_Some (Fetch.CHAPS !! u "phm").
Proof.
  refine (X16_catalog_agrees 57 (u "phm")
            [u "philemon"; u "filemon"; u "filemón"; u "phm"] _).
  apply list_elem_of_In. vm_compute. tauto.
Defined.

Lemma X17_witness :
  Fetch.parse_chapter_html frag Samples.gap_page (u "gen") (u "NIV") 1 =
  Ok Samples.gap_parsed
  /\ Convert.read_verses frag (chapter_entry Samples.gap_parsed)
     = Ok (zip_with
             (fun i v => {| Convert.v_number := i;
                            Convert.v_text := unescape frag (Fetch.readableText v) |})
             (seqZ 1 (Z.of_nat (List.length (Fetch.verses Samples.gap_parsed))))
             (Fetch.verses Samples.gap_parsed)).
Proof.
  split; [exact gap_page_parsed|].
  exact (X17_chapter_file_contents_read_back frag _ _ _ _ _ gap_page_parsed).
Defined.

(** ** More about the Aggregator *)

Section SortFilter.
Context {A : Type} (le : A -> A -> bool) (p : A -> bool).
Context (le_total : forall x y, le x y = false -> le y x = true).
Context (le_trans : forall x y z, le x y = true -> le y z = true -> le x z = true).

Lemma insert_sorted_least (x : A) (l : list A) :
  Forall (fun z => le x z = true) l -> insert_sorted le x l = x :: l.
Proof. destruct 1 as [|y l' Hy _]; [reflexivity|]. simpl. rewrite Hy. reflexivity. Qed.

Lemma filter_insert_sorted (x : A) (l : list A) :
  StronglySorted (fun a b => le a b = true) l ->
  List.filter p (insert_sorted le x l) =
  if p x then insert_sorted le x (List.filter p l) else List.filter p l.
Proof.
  induction 1 as [|y l Hs IH Hall]; simpl.
  { destruct (p x); reflexivity. }
  destruct (le x y) eqn:E.
  - simpl. destruct (p x) eqn:Hx; [|reflexivity].
    destruct (p y) eqn:Hy; simpl; [rewrite E; reflexivity|].
    symmetry. f_equal. apply insert_sorted_least.
    apply Forall_forall. intros z Hz. apply list_elem_of_In in Hz.
    apply filter_In in Hz as [Hz _]. rewrite Forall_forall in Hall.
    apply (le_trans x y z E). apply Hall, list_elem_of_In, Hz.
  - simpl. rewrite IH.
    destruct (p y) eqn:Hy; destruct (p x) eqn:Hx; simpl;
      rewrite ?E; reflexivity.
Qed.

(** Filtering before or after the stable sort gives the same list. *)
Lemma filter_sort_by (l : list A) :
  List.filter p (sort_by le l) = sort_by le (List.filter p l).
Proof.
  induction l as [|x l IH]; [reflexivity|]. simpl.
  rewrite filter_insert_sorted.
  - rewrite IH. destruct (p x); reflexivity.
  - apply Sorted_StronglySorted; [exact le_trans|].
    apply sort_by_Sorted, le_total.
Qed.

End SortFilter.

Section AggregatorExtras.
Import Convert.
Context (L : pylib).

Lemma read_chapter_verses jf e n chs log chs' log' :
  read_chapter L jf e n (chs, log) = Ok (chs', log') ->
  chs' = chs
  \/ exists vs, vs <> [] /\ read_verses L e = Ok vs
                /\ chs' = chs ++ [{| c_number := n; c_verses := vs |}].
Proof.
  unfold read_chapter. destruct (read_verses L e) as [[|v vs]|ex].
  - intros H. apply bind_inv in H as (l & _ & [= <- _]). left. reflexivity.
  - intros [= <- _]. right. exists (v :: vs). auto.
  - destruct ex; try discriminate;
      intros H; apply bind_inv in H as (l & _ & [= <- _]); left; reflexivity.
Qed.

Lemma read_chapters_verses folder abbr files chs0 log0 chs log :
  read_chapters L folder abbr files (chs0, log0) = Ok (chs, log) ->
  Forall (fun c => c_verses c <> []) chs0 ->
  Forall (fun c => c_verses c <> []) chs.
Proof.
  revert chs0 log0. induction files as [|[jf e] files IH]; intros chs0 log0 H H0.
  - injection H as <- <-. exact H0.
  - cbn [read_chapters] in H.
    destruct (match_chapter_file L abbr jf) as [digits|]; [|exact (IH _ _ H H0)].
    apply bind_inv in H as (n & _ & H).
    apply bind_inv in H as ([chs1 log1] & Hr & H).
    apply (IH _ _ H).
    apply (read_chapter_verses (folder ++ [jf])) in Hr as [->|(vs & Hvs & _ & ->)];
      [exact H0|].
    apply Forall_app. split; [exact H0|]. constructor; [exact Hvs|constructor].
Qed.

Lemma read_books_chapters version_dir folders bs0 log0 bs log :
  read_books L version_dir folders (bs0, log0) = Ok (bs, log) ->
  Forall (fun b => b_chapters b <> []
                   /\ Forall (fun c => c_verses c <> []) (b_chapters b)) bs0 ->
  Forall (fun b => b_chapters b <> []
                   /\ Forall (fun c => c_verses c <> []) (b_chapters b)) bs.
Proof.
  revert bs0 log0.
  induction folders as [|[folder_name e] folders IH]; intros bs0 log0 H H0.
  - injection H as <- <-. exact H0.
  - cbn [read_books] in H.
    destruct e as [content|children]; [exact (IH _ _ H H0)|].
    destruct (match_book_folder L folder_name) as [[digits abbr]|] eqn:Em;
      [|exact (IH _ _ H H0)].
    set (book_name := default (capitalize L abbr) (BOOKS !! abbr)) in H.
    clearbody book_name.
    apply bind_inv in H as (order & _ & H).
    apply bind_inv in H as ([chapters log1] & Hch & H).
    apply bind_inv in H as ([bs1 log2] & Hacc & H).
    apply (IH _ _ H).
    apply read_chapters_verses in Hch; [|constructor].
    destruct chapters as [|c chs].
    + apply bind_inv in Hacc as (l & _ & [= <- _]). exact H0.
    + injection Hacc as <- _. apply Forall_app. split; [exact H0|].
      constructor; [|constructor]. split; [discriminate|exact Hch].
Qed.

(** X18: the document of a version has no empty book and no empty
    chapter: every book has a chapter and every chapter a verse. *)
Theorem X18_no_empty_book_or_chapter version_dir entries b log :
  parse_version L version_dir entries = Ok (b, log) ->
  Forall (fun bk => b_chapters bk <> []
                    /\ Forall (fun c => c_verses c <> []) (b_chapters bk))
    (books b).
Proof.
  unfold parse_version. intros H.
  apply bind_inv in H as ([bs log1] & Hbs & [= <- _]). cbn [books].
  apply read_books_chapters in Hbs; [|constructor].
  apply Forall_forall. intros bk Hbk. rewrite Forall_forall in Hbs.
  apply Hbs. rewrite <- (sort_by_perm by_number bs). exact Hbk.
Qed.

Lemma read_books_filter version_dir folders acc :
  read_books L version_dir folders acc =
  read_books L version_dir
    (List.filter (fun f => is_dir f.2
                           && bool_decide (is_Some (match_book_folder L f.1)))
       folders) acc.
Proof.
  revert acc. induction folders as [|[folder_name e] folders IH]; intros acc;
    [reflexivity|].
  cbn [List.filter fst snd]. cbn [read_books].
  destruct e as [content|children]; [exact (IH acc)|]. cbn [is_dir andb].
  destruct (match_book_folder L folder_name) as [[digits abbr]|] eqn:Em.
  - rewrite bool_decide_eq_true_2 by eauto. cbn [read_books]. rewrite Em.
    set (book_name := default (capitalize L abbr) (BOOKS !! abbr)).
    clearbody book_name.
    destruct (int_str L digits) as [order|ex]; [|reflexivity].
    rewrite !bind_Ok.
    destruct (read_chapters L _ abbr _ _) as [[chapters log]|ex];
      [|reflexivity].
    rewrite !bind_Ok.
    destruct chapters as [|c chs].
    + destruct (print_stderr _ log) as [log'|ex]; [|reflexivity].
      rewrite !bind_Ok. apply IH.
    + rewrite !bind_Ok. apply IH.
  - rewrite bool_decide_eq_false_2 by (intros [x Hx]; discriminate).
    apply IH.
Qed.

(** X19: what is not a book folder does not count: files, and
    directories whose names do not begin with two digits, an underscore
    and a code, can be taken out of the version directory without any
    change to the result. *)
Theorem X19_other_entries_ignored version_dir entries :
  parse_version L version_dir entries =
  parse_version L version_dir
    (List.filter (fun f => is_dir f.2
                           && bool_decide (is_Some (match_book_folder L f.1)))
       entries).
Proof.
  unfold parse_version.
  rewrite (read_books_filter version_dir (sort_by name_le entries)).
  rewrite (filter_sort_by name_le _ name_le_total name_le_trans).
  reflexivity.
Qed.

End AggregatorExtras.

Lemma X18_witness :
  Convert.parse_version frag [u "NIV"] Samples.padded_version =
    Ok (Samples.padded_bible, [])
  /\ Forall (fun bk => Convert.b_chapters bk <> []
                       /\ Forall (fun c => Convert.c_verses c <> [])
                            (Convert.b_chapters bk))
       (Convert.books Samples.padded_bible).
Proof.
  split; [exact padded_version_parsed|].
  exact (X18_no_empty_book_or_chapter frag _ _ _ _ padded_version_parsed).
Defined.

(** ** The store of files after a download *)

Section StoreExtras.
Import Fetch.
Context (L : pylib) (W : world).

(** X21: two chapters of a book never share a file: different
    chapters have different paths. *)
Theorem X21_chapter_paths_differ (out_dir : list str) (book_code : str)
    (c1 c2 : Z) :
  (0 <= c1)%Z -> (0 <= c2)%Z -> c1 <> c2 ->
  chapter_path out_dir book_code c1 <> chapter_path out_dir book_code c2.
Proof.
  intros H1 H2 Hne Hp. apply Hne. unfold chapter_path in Hp.
  apply app_inj_tail in Hp as [_ Hp].
  apply app_inv_head in Hp. apply app_inv_head in Hp.
  apply app_inv_tail in Hp.
  destruct (format_d_digits L 3 c1 H1) as (_ & _ & <-).
  destruct (format_d_digits L 3 c2 H2) as (_ & _ & <-).
  rewrite Hp. reflexivity.
Qed.






End StoreExtras.

Lemma X21_witness :
  (7 <> 8)%Z
  /\ Fetch.chapter_path [u "data"] (u "gen") 7
     <> Fetch.chapter_path [u "data"] (u "gen") 8.
Proof.
  assert (H : (7 <> 8)%Z) by lia.
  split; [exact H|].
  exact (X21_chapter_paths_differ frag [u "data"] (u "gen") 7 8
           ltac:(lia) ltac:(lia) H).
Defined.


(** ** The main program of the aggregator *)

Section MainExtras.
Import Convert.
Context (L : pylib) (D : disk).

Lemma print_stderr_main_raises m log :
  print_stderr_main m log = Raise (NameError "sys").
Proof. reflexivity. Qed.

Lemma catalog_match_gen (order : Z) (code : str)
    (names : list str) :
  (order, code, names) ∈ Fetch._names_orders ->
  match_gen L (format_d 2 order ++ u "_" ++ code) = bool_decide (code = u "gen").
Proof.
  intros Hr.
  assert (Hall : forallb
            (fun row : Z * str * list str =>
               bool_decide
                 (match_gen L (format_d 2 row.1.1 ++ u "_" ++ row.1.2)
                  = bool_decide (row.1.2 = u "gen")))
            Fetch._names_orders = true) by (vm_compute; reflexivity).
  rewrite forallb_forall in Hall.
  pose proof (proj1 (list_elem_of_In _ _) Hr) as Hin.
  specialize (Hall (order, code, names) Hin).
  apply bool_decide_eq_true_1 in Hall. exact Hall.
Qed.

(** X24: among the folders the fetcher makes, the folder of Genesis is
    the only one by which [main] takes a directory for a version. *)
Theorem X24_only_genesis_marks_a_version (order : Z) (code : str)
    (names : list str) (children : list (str * entry)) (name : str) :
  (order, code, names) ∈ Fetch._names_orders ->
  is_version_dir L
    (name, Dir [(format_d 2 order ++ u "_" ++ code, Dir children)])
  = bool_decide (code = u "gen").
Proof.
  intros Hr. unfold is_version_dir. cbn [snd fst existsb is_dir andb].
  rewrite orb_false_r. exact (catalog_match_gen order code names Hr).
Qed.

Lemma existsb_false {A} (p : A -> bool) (l : list A) :
  (forall x, x ∈ l -> p x = false) -> existsb p l = false.
Proof.
  induction l as [|x l IH]; intros H; [reflexivity|]. simpl.
  rewrite (H x ltac:(left)), IH; [reflexivity|].
  intros y Hy. apply H. right. exact Hy.
Qed.

Lemma filter_nil_all {A} (p : A -> bool) (l : list A) :
  (forall x, x ∈ l -> p x = false) -> List.filter p l = [].
Proof.
  induction l as [|x l IH]; intros H; [reflexivity|]. simpl.
  rewrite (H x ltac:(left)). apply IH.
  intros y Hy. apply H. right. exact Hy.
Qed.

(** X25: a repository downloaded without Genesis holds no version for
    [main]: when every directory inside the directories of the
    repository is the folder of a book of the catalog other than
    Genesis, [main] without the option for versions ends with the
    message that no version was found, and writes nothing. *)
Theorem X25_no_genesis_no_version repo_root outdir entries out :
  disk_mkdir D outdir = Ok () ->
  (forall d children x,
     (d, Dir children) ∈ entries -> x ∈ children -> is_dir x.2 = true ->
     exists order code names,
       (order, code, names) ∈ Fetch._names_orders /\ code <> u "gen"
       /\ x.1 = format_d 2 order ++ u "_" ++ code) ->
  main L D repo_root outdir (Dir entries) None out
  = (out, [], SystemExit No_valid_versions_found).
Proof.
  intros Hmk Hall. unfold main. rewrite Hmk.
  rewrite (filter_nil_all (is_version_dir L)); [reflexivity|].
  intros [d e] Hd. apply list_elem_of_In, filter_In in Hd as [Hd Hdir].
  apply list_elem_of_In in Hd.
  destruct e as [content|children]; [reflexivity|].
  unfold is_version_dir. cbn [snd]. apply existsb_false.
  intros x Hx. destruct (is_dir x.2) eqn:Ex; [|reflexivity].
  destruct (Hall d children x Hd Hx Ex) as (order & code & names & Hr & Hne & ->).
  cbn [fst andb]. rewrite (catalog_match_gen order code names Hr).
  apply bool_decide_eq_false_2, Hne.
Qed.

Lemma export_version_inv repo_root outdir vdir out log n out' log' n' :
  export_version L D repo_root outdir vdir out log n = Ok (out', log', n') ->
  exists children b printed,
    vdir.2 = Dir children
    /\ parse_version L (repo_root ++ [vdir.1]) children = Ok (b, printed)
    /\ books b <> []
    /\ out' = <[outfile L outdir vdir.1 := b]> out
    /\ n' = S n.
Proof.
  unfold export_version. intros H.
  apply bind_inv in H as ([b printed] & Hp & H).
  destruct (vdir.2) as [content|children]; [discriminate|].
  exists children, b, printed. split; [reflexivity|]. split; [exact Hp|].
  destruct (books b) as [|bk bks]; [discriminate|].
  apply bind_inv in H as (? & _ & [= <- _ <-]). auto.
Qed.

(** The loop changes the files of the versions it exports, and no
    other. *)
Lemma export_all_frame repo_root outdir vdirs out log n out' log' e p :
  export_all L D repo_root outdir vdirs out log n = (out', log', e) ->
  out' !! p = out !! p
  \/ exists vdir children b printed,
       vdir ∈ vdirs /\ vdir.2 = Dir children
       /\ p = outfile L outdir vdir.1
       /\ parse_version L (repo_root ++ [vdir.1]) children = Ok (b, printed)
       /\ books b <> [] /\ out' !! p = Some b.
Proof.
  revert out log n. induction vdirs as [|vdir rest IH]; intros out log n H.
  - injection H as <- _ _. left. reflexivity.
  - cbn [export_all] in H.
    destruct (export_version L D repo_root outdir vdir out
                (log ++ [Processing vdir.1]) n) as [[[out1 log1] n1]|ex] eqn:Ev.
    + apply export_version_inv in Ev
        as (children & b & printed & Hdir & Hp & Hb & -> & ->).
      destruct (IH _ _ _ H) as [Hsame|(v & ch & b' & pr & Hin & Hrest)].
      * destruct (decide (p = outfile L outdir vdir.1)) as [->|Hne].
        -- right. exists vdir, children, b, printed.
           rewrite lookup_insert_eq in Hsame. split; [left|]. auto 6.
        -- left. rewrite lookup_insert_ne in Hsame by congruence. exact Hsame.
      * right. exists v, ch, b', pr. split; [right; exact Hin|exact Hrest].
    + destruct ex; injection H as <- _ _; left; reflexivity.
Qed.

(** When the loop comes to its end every version was exported. *)
Lemma export_all_returned repo_root outdir vdirs out log n out' log' :
  export_all L D repo_root outdir vdirs out log n = (out', log', Returned) ->
  last log' = Some (if (0 <? n + List.length vdirs)%nat
                    then All_ready (n + List.length vdirs)
                    else None_processed)
  /\ Forall (fun vdir => is_Some (out' !! outfile L outdir vdir.1)) vdirs.
Proof.
  revert out log n. induction vdirs as [|vdir rest IH]; intros out log n H.
  - injection H as <- <-. simpl. rewrite Nat.add_0_r, last_snoc. auto.
  - cbn [export_all] in H.
    destruct (export_version L D repo_root outdir vdir out
                (log ++ [Processing vdir.1]) n) as [[[out1 log1] n1]|ex] eqn:Ev.
    + apply export_version_inv in Ev
        as (children & b & printed & Hdir & Hp & Hb & -> & ->).
      pose proof (export_all_frame _ _ _ _ _ _ _ _ _ (outfile L outdir vdir.1) H)
        as Hframe.
      destruct (IH _ _ _ H) as [Hlast Hall].
      cbn [List.length]. rewrite Nat.add_succ_r. split; [exact Hlast|].
      constructor; [|exact Hall].
      destruct Hframe as [Hsame|(? & ? & b' & ? & _ & _ & _ & _ & _ & Hsome)].
      * rewrite Hsame, lookup_insert_eq. eauto.
      * rewrite Hsome. eauto.
    + destruct ex; discriminate.
Qed.


(** X27: [main] returns only after every version it took up was
    exported: the versions are those of the repository (those asked
    for, when the option names some), there is at least one, each has
    its file at the end, and the last message counts them all. Any
    version that cannot be exported ends the program instead. *)
Theorem X27_main_returns_after_exporting_all repo_root outdir repo versions
    out out' log :
  main L D repo_root outdir repo versions out = (out', log, Returned) ->
  exists entries version_dirs,
    repo = Dir entries
    /\ version_dirs
       = match versions with
         | Some (v :: vs) =>
             List.filter
               (fun d => bool_decide (upper L d.1 ∈ upper L <$> v :: vs))
               (List.filter (is_version_dir L)
                  (List.filter (fun d => is_dir d.2) entries))
         | _ => List.filter (is_version_dir L)
                  (List.filter (fun d => is_dir d.2) entries)
         end
    /\ version_dirs <> []
    /\ last log = Some (All_ready (List.length version_dirs))
    /\ Forall (fun vdir => is_Some (out' !! outfile L outdir vdir.1))
         version_dirs.
Proof.
  unfold main.
  destruct (disk_mkdir D outdir); [|discriminate].
  destruct repo as [content|entries]; [discriminate|].
  set (version_dirs :=
         List.filter (is_version_dir L)
           (List.filter (fun d => is_dir d.2) entries)).
  assert (Hrun : forall sel : list (str * entry),
            sel <> [] ->
            export_all L D repo_root outdir sel out [Found sel.*1] 0
            = (out', log, Returned) ->
            last log = Some (All_ready (List.length sel))
            /\ Forall (fun vdir => is_Some (out' !! outfile L outdir vdir.1)) sel).
  { intros sel Hne H. apply export_all_returned in H as [Hlast Hall].
    split; [|exact Hall]. rewrite Hlast. cbn [Nat.add].
    destruct sel; [congruence|reflexivity]. }
  intros H. exists entries.
  destruct versions as [[|v vs]|].
  - exists version_dirs. split; [reflexivity|]. split; [reflexivity|].
    destruct version_dirs as [|d ds] eqn:Ed; [discriminate|].
    split; [discriminate|]. apply Hrun; [discriminate|exact H].
  - eexists. split; [reflexivity|]. split; [reflexivity|].
    fold version_dirs.
    set (sel := List.filter _ version_dirs) in *.
    destruct (List.filter _ (upper L <$> v :: vs)); simpl in H; [|discriminate].
    destruct sel as [|d ds] eqn:Es; [discriminate|].
    split; [discriminate|]. apply Hrun; [discriminate|exact H].
  - exists version_dirs. split; [reflexivity|]. split; [reflexivity|].
    destruct version_dirs as [|d ds] eqn:Ed; [discriminate|].
    split; [discriminate|]. apply Hrun; [discriminate|exact H].
Qed.

End MainExtras.

Lemma genesis_repo_exported :
  Convert.main frag Samples.open_disk [u "repo"] [u "exports"]
    Samples.genesis_repo None ∅
  = ({[ [u "exports"; u "NIV.fsb.json"] := Samples.genesis_bible ]},
     [Convert.Found [u "niv"]; Convert.Processing (u "niv");
      Convert.Exported (u "niv") [u "exports"; u "NIV.fsb.json"];
      Convert.All_ready 1],
     Convert.Returned).
Proof. vm_compute. reflexivity. Qed.

Lemma X24_witness :
  Convert.is_version_dir frag
    (u "NIV", Convert.Dir [(format_d 2 40 ++ u "_" ++ u "mat", Convert.Dir [])])
  = bool_decide (u "mat" = u "gen").
Proof.
  refine (X24_only_genesis_marks_a_version frag 40 (u "mat")
            [u "matthew"; u "mateo"; u "mat"] [] (u "NIV") _).
  apply list_elem_of_In. vm_compute. tauto.
Defined.

Lemma X25_witness :
  Convert.main frag Samples.open_disk [u "repo"] [u "exports"]
    Samples.matthew_repo None ∅
  = (∅, [], Convert.SystemExit Convert.No_valid_versions_found).
Proof.
  refine (X25_no_genesis_no_version frag Samples.open_disk [u "repo"]
            [u "exports"] _ ∅ eq_refl _).
  intros d children x Hd Hx _.
  apply list_elem_of_singleton in Hd. injection Hd as -> ->.
  apply list_elem_of_singleton in Hx. subst x.
  exists 40%Z, (u "mat"), [u "matthew"; u "mateo"; u "mat"].
  split; [apply list_elem_of_In; vm_compute; tauto|].
  split; [discriminate|reflexivity].
Defined.


Lemma X27_witness :
  exists entries version_dirs,
    Samples.genesis_repo = Convert.Dir entries
    /\ version_dirs
       = List.filter (Convert.is_version_dir frag)
           (List.filter (fun d => Convert.is_dir d.2) entries)
    /\ version_dirs <> []
    /\ last [Convert.Found [u "niv"]; Convert.Processing (u "niv");
             Convert.Exported (u "niv") [u "exports"; u "NIV.fsb.json"];
             Convert.All_ready 1]
       = Some (Convert.All_ready (List.length version_dirs))
    /\ Forall (fun vdir =>
                 is_Some (({[ [u "exports"; u "NIV.fsb.json"]
                               := Samples.genesis_bible ]} : Convert.exports)
                            !! Convert.outfile frag [u "exports"] vdir.1))
         version_dirs.
Proof.
  exact (X27_main_returns_after_exporting_all frag Samples.open_disk _ _ _ None
           _ _ _ genesis_repo_exported).
Defined.

(** ** The Extractor on the page as the site lays it out *)

Section StandardPage.
Import Fetch.
Context (L : pylib).

Lemma isdigit_str_of_Z (z : Z) : (0 <= z)%Z -> isdigit L (str_of_Z z) = true.
Proof.
  intros Hz. destruct (str_of_Z_digits z Hz) as [Hne Hds].
  unfold isdigit. destruct (str_of_Z z) as [|d ds] eqn:E; [congruence|].
  apply forallb_forall. intros c Hc. rewrite Forall_forall in Hds.
  apply list_elem_of_In in Hc. specialize (Hds c Hc).
  unfold isdigit_char. apply ascii_digit_bounds in Hds as Hb.
  destruct (c <? 128) eqn:E1; [exact Hds|]. apply N.ltb_ge in E1. lia.
Qed.

Lemma str_of_Z_inj (a b : Z) :
  (0 <= a)%Z -> (0 <= b)%Z -> str_of_Z a = str_of_Z b -> a = b.
Proof.
  intros Ha Hb H. pose proof (py_int_str_of_Z L a Ha) as H1.
  rewrite H, (py_int_str_of_Z L b Hb) in H1. congruence.
Qed.

(** A label: the number and a no-break space. *)
Lemma strip_label (z : Z) :
  (0 <= z)%Z -> strip (str_of_Z z ++ [160]) = str_of_Z z.
Proof.
  intros Hz. destruct (str_of_Z_digits z Hz) as [Hne Hds].
  rewrite Forall_forall in Hds. unfold strip.
  rewrite lstrip_id.
  2:{ intros c Hc. apply digits_no_space, Hds.
      destruct (str_of_Z z); [congruence|]. injection Hc as <-. left. }
  unfold rstrip. rewrite rev_app_distr. cbn [List.rev app lstrip].
  change (isspace 160) with true. cbv iota.
  rewrite lstrip_id; [apply rev_involutive|].
  intros c Hc. apply digits_no_space, Hds.
  apply list_elem_of_In, in_rev, list_elem_of_In.
  destruct (List.rev (str_of_Z z)); [discriminate|]. injection Hc as <-. left.
Qed.

Lemma get_text_label plain_tag cls (z : Z) :
  (0 <= z)%Z ->
  get_text (Tag plain_tag cls [NavigableString true (str_of_Z z ++ [160])])
  = str_of_Z z.
Proof.
  intros Hz. unfold get_text. cbn [descendants List.flat_map].
  rewrite (strip_label z Hz), !app_nil_r. reflexivity.
Qed.

Lemma marker_verse_marker (i : Z) :
  (0 <= i)%Z -> marker L (Samples.verse_marker i) = Some (str_of_Z i).
Proof.
  intros Hi. unfold marker, Samples.verse_marker.
  change (has_name (u "sup") (Tag (u "sup") [u "versenum"] ?[ch])) with true.
  change (has_class (u "versenum") (Tag (u "sup") [u "versenum"] ?ch)) with true.
  cbn [andb]. rewrite (get_text_label _ _ i Hi), (isdigit_str_of_Z i Hi).
  destruct (str_of_Z_digits i Hi) as [Hne _].
  destruct (str_of_Z i); [congruence|reflexivity].
Qed.

Lemma marker_chapter_marker (c : Z) :
  (0 <= c)%Z -> marker L (Samples.chapter_marker c) = Some (u "1").
Proof.
  intros Hc. unfold marker, Samples.chapter_marker.
  change (has_name (u "sup") (Tag (u "span") [u "chapternum"] ?[ch])) with false.
  change (has_name (u "span") (Tag (u "span") [u "chapternum"] ?ch)) with true.
  change (has_class (u "chapternum") (Tag (u "span") [u "chapternum"] ?ch))
    with true.
  cbn [andb]. rewrite (get_text_label _ _ c Hc), (isdigit_str_of_Z c Hc).
  reflexivity.
Qed.

Lemma get_text_verse_span name cls ch t :
  get_text (Samples.verse_span (Tag name cls ch) t)
  = get_text (Tag name cls ch) ++ strip t.
Proof.
  unfold get_text, Samples.verse_span.
  rewrite (descendants_Tag (u "span")). cbn [List.flat_map].
  rewrite !app_nil_r, flat_map_app. cbn [List.flat_map app].
  rewrite app_nil_r. reflexivity.
Qed.

(** The span around a verse changes nothing. *)
Lemma step_verse_span st name cls ch t :
  get_text (Tag name cls ch) <> [] ->
  step L st (Samples.verse_span (Tag name cls ch) t) = Ok st.
Proof.
  intros Hne. unfold step.
  assert (Hm : marker L (Samples.verse_span (Tag name cls ch) t) = None).
  { unfold marker, Samples.verse_span.
    change (has_name (u "sup") (Tag (u "span") [u "text"] ?[c])) with false.
    change (has_class (u "chapternum") (Tag (u "span") [u "text"] ?c))
      with false.
    rewrite andb_false_r. reflexivity. }
  unfold Samples.verse_span at 1. rewrite Hm.
  change (has_name (u "br") (Samples.verse_span ?[m] t)) with false.
  change (has_name (u "span") (Samples.verse_span ?m t)) with true.
  cbn [andb]. rewrite bind_Ok, get_text_verse_span.
  destruct (get_text (Tag name cls ch)); [congruence|]. reflexivity.
Qed.

Lemma step_text st cur parts t :
  current_verse_num st = Some cur -> cur <> [] ->
  ignore_next_text_node_if_matches_num st = false ->
  verses_data st !! cur = Some parts ->
  step L st (NavigableString true t) =
  Ok {| verses_data := <[cur := parts ++ [t]]> (verses_data st);
        current_verse_num := current_verse_num st;
        ignore_next_text_node_if_matches_num := false |}.
Proof.
  intros Hc Hne Hi Hp. unfold step. rewrite Hc, Hi.
  destruct cur as [|d cur]; [congruence|]. cbn [truthy default from_option id andb].
  unfold getitem. rewrite Hp, bind_Ok.
  destruct (strip t); reflexivity.
Qed.

Lemma descendants_verse_span name cls label t :
  descendants (Samples.verse_span (Tag name cls [NavigableString true label]) t)
  = [Tag name cls [NavigableString true label]; NavigableString true label;
     NavigableString true t].
Proof. reflexivity. Qed.

(** The four nodes of a verse with its number in a [versenum] tag: the
    text is added to the verse of that number. *)
Lemma traverse_verse st (i : Z) t :
  (0 <= i)%Z ->
  traverse L st
    (Samples.verse_span (Samples.verse_marker i) t
     :: descendants (Samples.verse_span (Samples.verse_marker i) t))
  = Ok {| verses_data :=
            <[str_of_Z i := default [] (verses_data st !! str_of_Z i) ++ [t]]>
              (verses_data st);
          current_verse_num := Some (str_of_Z i);
          ignore_next_text_node_if_matches_num := false |}.
Proof.
  intros Hi. destruct (str_of_Z_digits i Hi) as [Hne _].
  unfold Samples.verse_marker. rewrite descendants_verse_span.
  cbn [traverse].
  rewrite step_verse_span, bind_Ok
    by (rewrite (get_text_label _ _ i Hi); exact Hne).
  fold (Samples.verse_marker i).
  unfold Samples.verse_marker at 1.
  rewrite (step_marker L st _ _ _ _ (marker_verse_marker i Hi)), bind_Ok.
  rewrite (step_label L _ _ (str_of_Z i)), bind_Ok;
    [|reflexivity|exact Hne|reflexivity|apply strip_label, Hi].
  cbn [verses_data current_verse_num ignore_next_text_node_if_matches_num].
  destruct (verses_data st !! str_of_Z i) as [parts|] eqn:E.
  - rewrite (step_text _ (str_of_Z i) parts); [|reflexivity|exact Hne|reflexivity|exact E].
    rewrite bind_Ok. reflexivity.
  - rewrite (step_text _ (str_of_Z i) []);
      [|reflexivity|exact Hne|reflexivity|apply lookup_insert_eq].
    rewrite bind_Ok. cbn [verses_data current_verse_num default from_option id app].
    rewrite insert_insert_eq. reflexivity.
Qed.

(** The four nodes of the first verse, with the number of the chapter
    in a [chapternum] span: the verse is verse 1, and the label stays
    in its text unless the chapter is chapter 1. *)
Lemma traverse_first_verse (c : Z) t :
  (0 <= c)%Z ->
  traverse L init
    (Samples.verse_span (Samples.chapter_marker c) t
     :: descendants (Samples.verse_span (Samples.chapter_marker c) t))
  = Ok {| verses_data :=
            {[ u "1" := if (c =? 1)%Z then [t] else [str_of_Z c ++ [160]; t] ]};
          current_verse_num := Some (u "1");
          ignore_next_text_node_if_matches_num := false |}.
Proof.
  intros Hc. destruct (str_of_Z_digits c Hc) as [Hne _].
  unfold Samples.chapter_marker. rewrite descendants_verse_span.
  cbn [traverse].
  rewrite step_verse_span, bind_Ok
    by (rewrite (get_text_label _ _ c Hc); exact Hne).
  fold (Samples.chapter_marker c).
  unfold Samples.chapter_marker at 1.
  rewrite (step_marker L init _ _ _ _ (marker_chapter_marker c Hc)), bind_Ok.
  cbn [verses_data init]. rewrite lookup_empty.
  destruct (c =? 1)%Z eqn:E.
  - apply Z.eqb_eq in E. subst c.
    rewrite (step_label L _ _ (u "1")), bind_Ok;
      [|reflexivity|discriminate|reflexivity|reflexivity].
    cbn [verses_data current_verse_num].
    rewrite (step_text _ (u "1") []);
      [|reflexivity|discriminate|reflexivity|apply lookup_insert_eq].
    rewrite bind_Ok. cbn [verses_data current_verse_num].
    rewrite insert_insert_eq. reflexivity.
  - apply Z.eqb_neq in E.
    assert (Hstep : forall st0 : state,
              current_verse_num st0 = Some (u "1") ->
              ignore_next_text_node_if_matches_num st0 = true ->
              verses_data st0 !! u "1" = Some [] ->
              step L st0 (NavigableString true (str_of_Z c ++ [160]))
              = Ok {| verses_data :=
                        <[u "1" := [str_of_Z c ++ [160]]]> (verses_data st0);
                      current_verse_num := Some (u "1");
                      ignore_next_text_node_if_matches_num := false |}).
    { intros st0 H1 H2 H3. unfold step. rewrite H1, H2.
      cbn [truthy default from_option id andb]. rewrite (strip_label c Hc).
      unfold str_eqb. rewrite bool_decide_eq_false_2.
      2:{ intros H. apply E. apply (str_of_Z_inj c 1 Hc); [lia|exact H]. }
      unfold getitem. rewrite H3, bind_Ok.
      destruct (str_of_Z c); [congruence|]. reflexivity. }
    rewrite Hstep, bind_Ok by (reflexivity || apply lookup_insert_eq).
    cbn [verses_data]. rewrite insert_insert_eq.
    rewrite (step_text _ (u "1") [str_of_Z c ++ [160]]);
      [|reflexivity|discriminate|reflexivity|apply lookup_insert_eq].
    rewrite bind_Ok. cbn [verses_data current_verse_num].
    rewrite insert_insert_eq. reflexivity.
Qed.

Lemma traverse_app st l1 l2 :
  traverse L st (l1 ++ l2) = (st1 ← traverse L st l1; traverse L st1 l2).
Proof.
  revert st. induction l1 as [|n l1 IH]; intros st; [reflexivity|].
  cbn [app traverse]. destruct (step L st n) as [st1|e]; [|reflexivity].
  rewrite !bind_Ok. apply IH.
Qed.

(** The verses after the first: each gets its text under its number. *)
Lemma traverse_verses ts (j : Z) st :
  (0 <= j)%Z ->
  (forall i, (j <= i)%Z -> verses_data st !! str_of_Z i = None) ->
  exists st',
    traverse L st
      (List.flat_map (fun c => c :: descendants c)
         (zip_with (fun i t => Samples.verse_span (Samples.verse_marker i) t)
            (seqZ j (Z.of_nat (List.length ts))) ts)) = Ok st'
    /\ (forall k,
          (forall i, (j <= i < j + Z.of_nat (List.length ts))%Z ->
                     k <> str_of_Z i) ->
          verses_data st' !! k = verses_data st !! k)
    /\ (forall n t, ts !! n = Some t ->
          verses_data st' !! str_of_Z (j + Z.of_nat n) = Some [t]).
Proof.
  revert j st. induction ts as [|t ts IH]; intros j st Hj Hfresh.
  { exists st. split; [reflexivity|]. split; [reflexivity|].
    intros n t Hn. discriminate. }
  cbn [List.length]. rewrite Nat2Z.inj_succ, seqZ_cons by lia.
  rewrite Z.pred_succ. cbn [zip_with List.flat_map].
  change (?x :: descendants ?x ++ ?l) with ((x :: descendants x) ++ l).
  rewrite traverse_app, (traverse_verse st j t Hj), bind_Ok.
  rewrite (Hfresh j ltac:(lia)). cbn [default from_option id app].
  set (st1 := {| verses_data := <[str_of_Z j := [t]]> (verses_data st);
                 current_verse_num := Some (str_of_Z j);
                 ignore_next_text_node_if_matches_num := false |}).
  assert (Hneq : forall i, (j < i)%Z -> str_of_Z j <> str_of_Z i).
  { intros i Hi H. apply str_of_Z_inj in H; lia. }
  destruct (IH (Z.succ j) st1 ltac:(lia)) as (st' & Ht & Hout & Hin).
  { intros i Hi. cbn [st1 verses_data].
    rewrite lookup_insert_ne by (apply Hneq; lia). apply Hfresh. lia. }
  exists st'. split; [exact Ht|]. split.
  - intros k Hk. rewrite Hout.
    + cbn [st1 verses_data]. apply lookup_insert_ne.
      intros H. apply (Hk j); [lia|]. congruence.
    + intros i Hi. apply Hk. lia.
  - intros [|n] t0 Hn.
    + injection Hn as <-. rewrite Z.add_0_r, Hout.
      * cbn [st1 verses_data]. apply lookup_insert_eq.
      * intros i Hi. apply Hneq. lia.
    + cbn [lookup list_lookup] in Hn.
      replace (j + Z.of_nat (S n))%Z with (Z.succ j + Z.of_nat n)%Z by lia.
      apply Hin, Hn.
Qed.

Lemma decompose_all_verse_spans p (l : list node) :
  Forall (fun n => p n = false /\ decompose_all p n = n) l ->
  List.map (decompose_all p) (List.filter (fun c => negb (p c)) l) = l.
Proof.
  induction 1 as [|n l [Hp Hn] _ IH]; [reflexivity|].
  cbn [List.filter]. rewrite Hp. cbn [negb List.map]. rewrite Hn, IH.
  reflexivity.
Qed.

Lemma standard_children_kept p (c : Z) t1 ts :
  (forall m t, p (Samples.verse_span m t) = false) ->
  (forall i, p (Samples.verse_marker i) = false) ->
  p (Samples.chapter_marker c) = false ->
  (forall plain s, p (NavigableString plain s) = false) ->
  decompose_all p (Samples.standard_container c t1 ts)
  = Samples.standard_container c t1 ts.
Proof.
  intros Hspan Hverse Hchapter Hstring. unfold Samples.standard_container.
  rewrite decompose_all_Tag, decompose_all_verse_spans; [reflexivity|].
  assert (Hone : forall name cls label t,
            p (Tag name cls [NavigableString true label]) = false ->
            p (Samples.verse_span (Tag name cls [NavigableString true label]) t)
            = false
            /\ decompose_all p
                 (Samples.verse_span (Tag name cls [NavigableString true label]) t)
               = Samples.verse_span (Tag name cls [NavigableString true label]) t).
  { intros name cls label t Hm. split; [apply Hspan|].
    unfold Samples.verse_span. rewrite decompose_all_Tag.
    cbn [List.filter]. rewrite Hm, Hstring. cbn [negb List.filter List.map].
    rewrite decompose_all_Tag. cbn [List.filter]. rewrite Hstring.
    reflexivity. }
  constructor; [apply Hone, Hchapter|].
  apply Forall_forall. intros n Hn.
  apply elem_of_lookup_zip_with in Hn as (q & i & t & -> & _ & _).
  apply Hone, Hverse.
Qed.

Lemma preprocess_standard (c : Z) t1 ts :
  preprocess (Samples.standard_container c t1 ts)
  = Samples.standard_container c t1 ts.
Proof.
  unfold preprocess.
  rewrite (standard_children_kept is_note), (standard_children_kept _);
    try reflexivity; intros; reflexivity.
Qed.

Lemma find_container_standard (c : Z) t1 ts :
  find_container [Samples.standard_container c t1 ts]
  = Some (Samples.standard_container c t1 ts).
Proof. reflexivity. Qed.

Lemma format_verse_ext (d1 d2 : gmap str (list str)) (i : Z) :
  d1 !! str_of_Z i = d2 !! str_of_Z i ->
  format_verse L d1 i = format_verse L d2 i.
Proof. intros H. unfold format_verse. rewrite H. reflexivity. Qed.

Lemma format_verses_rest (d : gmap str (list str)) ts (j : Z) :
  (forall n t, ts !! n = Some t -> d !! str_of_Z (j + Z.of_nat n) = Some [t]) ->
  format_verse L d <$> seqZ j (Z.of_nat (List.length ts))
  = zip_with (fun i parts => format_verse L {[ str_of_Z i := parts ]} i)
      (seqZ j (Z.of_nat (List.length ts))) ((fun t => [t]) <$> ts).
Proof.
  revert j. induction ts as [|t ts IH]; intros j H; [reflexivity|].
  cbn [List.length]. rewrite Nat2Z.inj_succ, seqZ_cons by lia.
  rewrite Z.pred_succ. cbn [fmap list_fmap zip_with]. f_equal.
  - apply format_verse_ext. rewrite lookup_singleton_eq.
    rewrite <- (Z.add_0_r j) at 1. exact (H 0%nat t eq_refl).
  - apply IH. intros n t0 Hn.
    replace (Z.succ j + Z.of_nat n)%Z with (j + Z.of_nat (S n))%Z by lia.
    apply H, Hn.
Qed.

(** X28: the Extractor on the page as the site lays it out, with
    [n] verses in chapter [c]: it returns [n] records numbered 1 to
    [n], the record of each verse built from the text of that verse
    alone. The label of the chapter stays in front of the text of
    verse 1, except in chapter 1. *)
Theorem X28_standard_page (c : Z) (t1 : str) (ts : list str)
    (book_code version : str) (chap : Z) :
  (0 <= c)%Z ->
  parse_chapter_html L [Samples.standard_container c t1 ts] book_code version
    chap
  = Ok {| book := upper L book_code; rev := version;
          chapter := str_of_Z chap;
          verses :=
            zip_with (fun i parts => format_verse L {[ str_of_Z i := parts ]} i)
              (seqZ 1 (Z.of_nat (S (List.length ts))))
              ((if (c =? 1)%Z then [t1] else [str_of_Z c ++ [160]; t1])
               :: ((fun t => [t]) <$> ts)) |}.
Proof.
  intros Hc. unfold parse_chapter_html.
  rewrite find_container_standard. unfold scan.
  rewrite preprocess_standard. unfold Samples.standard_container.
  rewrite descendants_Tag. cbn [List.flat_map].
  change (?x :: descendants ?x ++ ?l) with ((x :: descendants x) ++ l).
  rewrite traverse_app, (traverse_first_verse c t1 Hc), bind_Ok.
  set (parts1 := if (c =? 1)%Z then [t1] else [str_of_Z c ++ [160]; t1]).
  set (st1 := {| verses_data := {[ u "1" := parts1 ]};
                 current_verse_num := Some (u "1");
                 ignore_next_text_node_if_matches_num := false |}).
  assert (Hone : forall i, (2 <= i)%Z -> u "1" <> str_of_Z i).
  { intros i Hi H. apply (str_of_Z_inj 1 i) in H; lia. }
  destruct (traverse_verses ts 2 st1 ltac:(lia)) as (st' & Ht & Hout & Hin).
  { intros i Hi. cbn [st1 verses_data]. apply lookup_singleton_ne, Hone, Hi. }
  rewrite Ht, bind_Ok.
  assert (H1 : verses_data st' !! u "1" = Some parts1).
  { rewrite Hout; [apply lookup_singleton_eq|].
    intros i Hi. apply Hone. lia. }
  assert (Hkeys : forall k, is_Some (verses_data st' !! k) ->
            exists i, (1 <= i <= 1 + Z.of_nat (List.length ts))%Z
                      /\ k = str_of_Z i).
  { intros k Hk.
    destruct (decide (Exists (fun i => k = str_of_Z i)
                        (seqZ 2 (Z.of_nat (List.length ts)))))
      as [Hex|Hnex].
    - apply Exists_exists in Hex as (i & Hi & ->).
      apply elem_of_seqZ in Hi. exists i. split; [lia|reflexivity].
    - rewrite Hout in Hk.
      + cbn [st1 verses_data] in Hk. exists 1%Z. split; [lia|].
        destruct Hk as [x Hx]. apply lookup_singleton_Some in Hx as [<- _].
        reflexivity.
      + intros i Hi ->. apply Hnex, Exists_exists. exists i.
        split; [apply elem_of_seqZ; lia|reflexivity]. }
  assert (Hlast : is_Some (verses_data st'
                             !! str_of_Z (1 + Z.of_nat (List.length ts)))).
  { destruct (List.length ts) as [|n] eqn:El.
    - rewrite Z.add_0_r. change (str_of_Z 1) with (u "1"). rewrite H1. eauto.
    - destruct (lookup_lt_is_Some_2 ts n ltac:(lia)) as [t Hn].
      replace (1 + Z.of_nat (S n))%Z with (2 + Z.of_nat n)%Z by lia.
      rewrite (Hin n t Hn). eauto. }
  destruct (format_output_returns L (verses_data st')) as [vs Hvs].
  { intros k Hk. destruct (Hkeys k Hk) as (i & Hi & ->).
    rewrite py_int_str_of_Z by lia. eauto. }
  rewrite Hvs, bind_Ok. f_equal. f_equal.
  apply format_output_spec in Hvs as (m & Hm & ->).
  assert (Em : m = (1 + Z.of_nat (List.length ts))%Z).
  { destruct Hm as [[He _]|[Hle (k & Hk & Hkm)]].
    - rewrite He, lookup_empty in H1. discriminate.
    - destruct (Hkeys k Hk) as (i & Hi & ->).
      rewrite py_int_str_of_Z in Hkm by lia. injection Hkm as <-.
      destruct (Hle _ Hlast) as (z & Hz & Hzm).
      rewrite py_int_str_of_Z in Hz by lia. injection Hz as <-. lia. }
  subst m. rewrite Nat2Z.inj_succ, <- Z.add_1_l.
  rewrite (seqZ_cons 1) by lia.
  replace (Z.pred (1 + Z.of_nat (List.length ts)))
    with (Z.of_nat (List.length ts)) by lia.
  change (Z.succ 1) with 2%Z. cbn [fmap list_fmap zip_with]. f_equal.
  - apply format_verse_ext. change (str_of_Z 1) with (u "1").
    rewrite H1, lookup_singleton_eq. reflexivity.
  - apply format_verses_rest. exact Hin.
Qed.

End StandardPage.

Lemma X28_witness :
  Fetch.parse_chapter_html frag
    [Samples.standard_container 3 (u "Now the serpent was more crafty")
       [u "The woman said to the serpent"]]
    (u "gen") (u "NIV") 3
  = Ok {| Fetch.book := upper frag (u "gen"); Fetch.rev := u "NIV";
          Fetch.chapter := str_of_Z 3;
          Fetch.verses :=
            zip_with
              (fun i parts => Fetch.format_verse frag {[ str_of_Z i := parts ]} i)
              (seqZ 1 (Z.of_nat (S (List.length [u "The woman said to the serpent"]))))
              ((if (3 =? 1)%Z then [u "Now the serpent was more crafty"]
                else [str_of_Z 3 ++ [160]; u "Now the serpent was more crafty"])
               :: ((fun t => [t]) <$> [u "The woman said to the serpent"])) |}.
Proof.
  exact (X28_standard_page frag 3 (u "Now the serpent was more crafty")
           [u "The woman said to the serpent"] (u "gen") (u "NIV") 3
           ltac:(lia)).
Defined.

(** ** Where the books and chapters of a version come from *)

Section Provenance.
Import Convert.
Context (L : pylib).

Lemma read_chapters_from_files folder abbr files chs0 log0 chs log :
  read_chapters L folder abbr files (chs0, log0) = Ok (chs, log) ->
  exists new,
    chs = chs0 ++ new
    /\ Forall (fun c => exists jf e,
                 (jf, e) ∈ files
                 /\ chap_of L abbr jf = Some (c_number c)
                 /\ read_verses L e = Ok (c_verses c)) new.
Proof.
  revert chs0 log0. induction files as [|[jf e] files IH]; intros chs0 log0 H.
  - injection H as <- <-. exists []. rewrite app_nil_r. split; constructor.
  - cbn [read_chapters] in H.
    destruct (match_chapter_file L abbr jf) as [digits|] eqn:Em.
    + unfold int_str in H.
      destruct (py_int L _) as [n|] eqn:En; [|discriminate].
      rewrite bind_Ok in H.
      apply bind_inv in H as ([chs1 log1] & Hr & H).
      apply IH in H as (new & -> & Hnew).
      assert (Hnew' : Forall (fun c => exists jf0 e0,
                 (jf0, e0) ∈ (jf, e) :: files
                 /\ chap_of L abbr jf0 = Some (c_number c)
                 /\ read_verses L e0 = Ok (c_verses c)) new).
      { eapply Forall_impl; [exact Hnew|].
        intros c (jf0 & e0 & Hin & Hrest). exists jf0, e0.
        split; [right; exact Hin|exact Hrest]. }
      apply (read_chapter_verses L (folder ++ [jf])) in Hr
        as [->|(vs & _ & Hvs & ->)].
      * exists new. auto.
      * exists ({| c_number := n; c_verses := vs |} :: new).
        rewrite <- app_assoc. split; [reflexivity|].
        constructor; [|exact Hnew'].
        exists jf, e. split; [left|]. split; [|exact Hvs].
        unfold chap_of. rewrite Em. exact En.
    + apply IH in H as (new & -> & Hnew). exists new. split; [reflexivity|].
      eapply Forall_impl; [exact Hnew|].
      intros c (jf0 & e0 & Hin & Hrest). exists jf0, e0.
      split; [right; exact Hin|exact Hrest].
Qed.

Lemma read_books_from_folders version_dir folders bs0 log0 bs log :
  read_books L version_dir folders (bs0, log0) = Ok (bs, log) ->
  exists new,
    bs = bs0 ++ new
    /\ Forall (fun bk => exists folder_name children digits abbr,
                 (folder_name, Dir children) ∈ folders
                 /\ match_book_folder L folder_name = Some (digits, abbr)
                 /\ int_str L digits = Ok (b_number bk)
                 /\ b_name bk = default (capitalize L abbr) (BOOKS !! abbr)
                 /\ Forall (fun c => exists jf e,
                              (jf, e) ∈ children
                              /\ glob_chapter abbr jf = true
                              /\ chap_of L abbr jf = Some (c_number c)
                              /\ read_verses L e = Ok (c_verses c))
                      (b_chapters bk)) new.
Proof.
  revert bs0 log0.
  induction folders as [|[folder_name e] folders IH]; intros bs0 log0 H.
  - injection H as <- <-. exists []. rewrite app_nil_r. split; constructor.
  - assert (Hweaken : forall new,
      Forall (fun bk => exists folder_name children digits abbr,
                 (folder_name, Dir children) ∈ folders
                 /\ match_book_folder L folder_name = Some (digits, abbr)
                 /\ int_str L digits = Ok (b_number bk)
                 /\ b_name bk = default (capitalize L abbr) (BOOKS !! abbr)
                 /\ Forall (fun c => exists jf e,
                              (jf, e) ∈ children
                              /\ glob_chapter abbr jf = true
                              /\ chap_of L abbr jf = Some (c_number c)
                              /\ read_verses L e = Ok (c_verses c))
                      (b_chapters bk)) new ->
      Forall (fun bk => exists folder_name0 children digits abbr,
                 (folder_name0, Dir children) ∈ (folder_name, e) :: folders
                 /\ match_book_folder L folder_name0 = Some (digits, abbr)
                 /\ int_str L digits = Ok (b_number bk)
                 /\ b_name bk = default (capitalize L abbr) (BOOKS !! abbr)
                 /\ Forall (fun c => exists jf e,
                              (jf, e) ∈ children
                              /\ glob_chapter abbr jf = true
                              /\ chap_of L abbr jf = Some (c_number c)
                              /\ read_verses L e = Ok (c_verses c))
                      (b_chapters bk)) new).
    { intros new Hnew. eapply Forall_impl; [exact Hnew|].
      intros bk (fn & ch & ds & ab & Hin & Hrest). exists fn, ch, ds, ab.
      split; [right; exact Hin|exact Hrest]. }
    cbn [read_books] in H.
    destruct e as [content|children].
    { apply IH in H as (new & -> & Hnew). exists new. auto. }
    destruct (match_book_folder L folder_name) as [[digits abbr]|] eqn:Em.
    2:{ apply IH in H as (new & -> & Hnew). exists new. auto. }
    remember (default (capitalize L abbr) (BOOKS !! abbr)) as book_name
      eqn:Hname.
    apply bind_inv in H as (order & Horder & H).
    apply bind_inv in H as ([chapters log1] & Hch & H).
    apply bind_inv in H as ([bs1 log2] & Hacc & H).
    apply IH in H as (new & -> & Hnew).
    apply read_chapters_from_files in Hch as (chs & Hchs & Hfiles).
    simpl in Hchs. subst chapters.
    destruct chs as [|c chs].
    + apply bind_inv in Hacc as (l & _ & [= <- _]). exists new. auto.
    + injection Hacc as <- _. eexists (_ :: new). rewrite <- app_assoc.
      split; [reflexivity|]. constructor; [|exact (Hweaken _ Hnew)].
      exists folder_name, children, digits, abbr. cbn [b_number b_name b_chapters].
      split; [left|]. split; [exact Em|]. split; [exact Horder|].
      split; [exact Hname|].
      eapply Forall_impl; [exact Hfiles|].
      intros c0 (jf & e & Hin & Hc & Hv). exists jf, e.
      rewrite (sort_by_perm name_le) in Hin.
      apply list_elem_of_In, filter_In in Hin as [Hin Hg].
      split; [apply list_elem_of_In, Hin|]. auto.
Qed.

(** X23: nothing in the document of a version is made up: every book
    comes from a directory of the version whose name matches the
    pattern of a book folder, with the number read from the two digits
    and the name from [BOOKS] (or the code capitalized); every chapter
    of the book comes from a file of that directory that passes the
    glob, with the number read from the file name and the verses read
    from the file. *)
Theorem X23_books_and_chapters_come_from_entries version_dir entries b log bk :
  parse_version L version_dir entries = Ok (b, log) ->
  bk ∈ books b ->
  exists folder_name children digits abbr,
    (folder_name, Dir children) ∈ entries
    /\ match_book_folder L folder_name = Some (digits, abbr)
    /\ int_str L digits = Ok (b_number bk)
    /\ b_name bk = default (capitalize L abbr) (BOOKS !! abbr)
    /\ Forall (fun c => exists jf e,
                 (jf, e) ∈ children
                 /\ glob_chapter abbr jf = true
                 /\ chap_of L abbr jf = Some (c_number c)
                 /\ read_verses L e = Ok (c_verses c))
         (b_chapters bk).
Proof.
  unfold parse_version. intros H Hbk.
  apply bind_inv in H as ([bs log1] & Hbs & [= <- _]). cbn [books] in Hbk.
  apply read_books_from_folders in Hbs as (new & Hnew & Hall).
  simpl in Hnew. subst new.
  rewrite (sort_by_perm by_number) in Hbk.
  rewrite Forall_forall in Hall.
  destruct (Hall bk Hbk) as (fn & ch & ds & ab & Hin & Hrest).
  exists fn, ch, ds, ab. split; [|exact Hrest].
  rewrite <- (sort_by_perm name_le entries). exact Hin.
Qed.

End Provenance.

Lemma X23_witness :
  Convert.parse_version frag [u "NIV"] Samples.good_version
  = Ok ({| Convert.name := u "Bible NIV";
           Convert.metadata_source := u "parsedBible repo";
           Convert.metadata_revision := u "NIV";
           Convert.books :=
             [ {| Convert.b_number := 1; Convert.b_name := u "Genesis";
                  Convert.b_chapters := [Samples.one_chapter 2 "two"] |} ] |}, [])
  /\ exists folder_name children digits abbr,
       (folder_name, Convert.Dir children) ∈ Samples.good_version
       /\ Convert.match_book_folder frag folder_name = Some (digits, abbr)
       /\ Convert.int_str frag digits = Ok 1%Z
       /\ u "Genesis" = default (capitalize frag abbr) (Convert.BOOKS !! abbr)
       /\ Forall (fun c => exists jf e,
                    (jf, e) ∈ children
                    /\ Convert.glob_chapter abbr jf = true
                    /\ chap_of frag abbr jf = Some (Convert.c_number c)
                    /\ Convert.read_verses frag e = Ok (Convert.c_verses c))
            [Samples.one_chapter 2 "two"].
Proof.
  assert (H : Convert.parse_version frag [u "NIV"] Samples.good_version
    = Ok ({| Convert.name := u "Bible NIV";
             Convert.metadata_source := u "parsedBible repo";
             Convert.metadata_revision := u "NIV";
             Convert.books :=
               [ {| Convert.b_number := 1; Convert.b_name := u "Genesis";
                    Convert.b_chapters := [Samples.one_chapter 2 "two"] |} ] |}, []))
    by (vm_compute; reflexivity).
  split; [exact H|].
  exact (X23_books_and_chapters_come_from_entries frag _ _ _ _
           {| Convert.b_number := 1; Convert.b_name := u "Genesis";
              Convert.b_chapters := [Samples.one_chapter 2 "two"] |}
           H ltac:(left)).
Defined.
